(** * Step workflow engine of the news content production system (src/app.py)

    A shallow embedding of the SQLAlchemy models, of the session with its
    commit points, and of the workflow and read routes; then the vocabulary in
    which the workflow specification is stated and the scenario it gives; then
    the properties of the specification, checked against the embedding. *)

From Stdlib Require Import ZArith List Ascii String Bool Lia DecimalString.
From Stdlib Require Import Permutation Sorted.
Import ListNotations.
Open Scope string_scope.
Open Scope Z_scope.

(** ** Python values *)

(** [str(n)] for an integer inside an f-string. *)
Definition str (n : Z) : string := NilZero.string_of_int (Z.to_int n).

(** Truth value of a nullable integer column: [None] and [0] are falsy. *)
Definition truthy (o : option Z) : bool :=
  match o with
  | None => false
  | Some n => negb (n =? 0)
  end.

(** Truth value of an optional string ([data.get('comments')]): a missing key
    and the empty string are falsy. *)
Definition truthy_str (o : option string) : bool :=
  match o with
  | None => false
  | Some s => negb (s =? "")%string
  end.

(** [max(l)]; [None] stands for the [ValueError] raised on an empty list. *)
Definition max_list (l : list Z) : option Z :=
  match l with
  | [] => None
  | x :: t => Some (fold_left Z.max t x)
  end.

(** ** Database models *)

Module User.
Record t := mk
  { id : Z;
    username : string;
    email : string;
    full_name : string;
    is_active : bool }.
End User.

Module Project.
Record t := mk
  { id : Z;
    project_name : string;
    description : string;
    owner_id : Z;
    status : string;                 (* In Progress, Completed, Cancelled *)
    current_step_number : option Z;  (* nullable column *)
    created_at : Z;
    updated_at : Z }.

Definition set_project_name (v : string) (p : t) : t :=
  mk (id p) v (description p) (owner_id p) (status p)
     (current_step_number p) (created_at p) (updated_at p).
Definition set_description (v : string) (p : t) : t :=
  mk (id p) (project_name p) v (owner_id p) (status p)
     (current_step_number p) (created_at p) (updated_at p).
Definition set_status (v : string) (p : t) : t :=
  mk (id p) (project_name p) (description p) (owner_id p) v
     (current_step_number p) (created_at p) (updated_at p).
Definition set_current_step_number (v : option Z) (p : t) : t :=
  mk (id p) (project_name p) (description p) (owner_id p) (status p)
     v (created_at p) (updated_at p).
Definition set_updated_at (v : Z) (p : t) : t :=
  mk (id p) (project_name p) (description p) (owner_id p) (status p)
     (current_step_number p) (created_at p) v.
End Project.

Module ProjectStep.
Record t := mk
  { id : Z;
    project_id : Z;
    step_number : Z;                 (* higher numbers start first *)
    step_name : string;
    task_description : string;
    assigned_user_id : Z;
    status : string;                 (* Pending, In Progress, Completed, Sent Back *)
    completed_at : option Z;
    created_at : Z }.

Definition set_status (v : string) (s : t) : t :=
  mk (id s) (project_id s) (step_number s) (step_name s) (task_description s)
     (assigned_user_id s) v (completed_at s) (created_at s).
Definition set_completed_at (v : option Z) (s : t) : t :=
  mk (id s) (project_id s) (step_number s) (step_name s) (task_description s)
     (assigned_user_id s) (status s) v (created_at s).
End ProjectStep.

Module WorkflowAction.
Record t := mk
  { id : Z;
    project_id : Z;
    step_id : option Z;
    user_id : Z;
    action : string;   (* forward, send_back, complete, create, edit, delete *)
    step_number : option Z;
    comments : option string;
    timestamp : Z }.

Definition set_step_id (v : option Z) (a : t) : t :=
  mk (id a) (project_id a) v (user_id a) (action a) (step_number a) (comments a)
     (timestamp a).
End WorkflowAction.

Module ProjectAsset.
Record t := mk
  { id : Z;
    project_id : Z;
    uploaded_by : Z;
    asset_type : string;
    filename : string;
    file_path : string;
    metadata_assets : option string;
    version : Z;
    uploaded_at : Z }.
End ProjectAsset.

Module Notification.
Record t := mk
  { id : Z;
    user_id : Z;
    project_id : option Z;
    message : string;
    is_read : bool;
    created_at : Z }.
End Notification.

(** ** The database and the session *)

(** One list per table, rows in insertion order. *)
Record DB := mkDB
  { users : list User.t;
    projects : list Project.t;
    steps : list ProjectStep.t;
    actions : list WorkflowAction.t;
    assets : list ProjectAsset.t;
    notifications : list Notification.t }.

(** The request's session: [db] is what queries of this request see (the
    committed rows and the pending changes, which autoflush writes before each
    query), [commits] the states made durable by [db.session.commit()], oldest
    first.  What is pending when the request ends is rolled back. *)
Record Session := mkSession
  { db : DB;
    commits : list DB }.

Definition commit (s : Session) : Session :=
  mkSession (db s) (commits s ++ [db s]).

Definition with_db (f : DB -> DB) (s : Session) : Session :=
  mkSession (f (db s)) (commits s).

(** Primary key given to a new row: one more than the largest in the table. *)
Definition next_id (ids : list Z) : Z := 1 + fold_right Z.max 0 ids.

Definition set_projects (v : list Project.t) (d : DB) : DB :=
  mkDB (users d) v (steps d) (actions d) (assets d) (notifications d).
Definition set_steps (v : list ProjectStep.t) (d : DB) : DB :=
  mkDB (users d) (projects d) v (actions d) (assets d) (notifications d).
Definition set_actions (v : list WorkflowAction.t) (d : DB) : DB :=
  mkDB (users d) (projects d) (steps d) v (assets d) (notifications d).
Definition set_assets (v : list ProjectAsset.t) (d : DB) : DB :=
  mkDB (users d) (projects d) (steps d) (actions d) v (notifications d).
Definition set_notifications (v : list Notification.t) (d : DB) : DB :=
  mkDB (users d) (projects d) (steps d) (actions d) (assets d) v.

(** Attribute assignments on a loaded row, written back by primary key.  Any
    write to a project row also refreshes [updated_at] (the column's
    [onupdate]). *)
Definition update_project (now pid : Z) (f : Project.t -> Project.t) (d : DB) : DB :=
  set_projects
    (map (fun p => if Project.id p =? pid
                   then Project.set_updated_at now (f p) else p) (projects d))
    d.

Definition update_step (sid : Z) (f : ProjectStep.t -> ProjectStep.t) (d : DB) : DB :=
  set_steps
    (map (fun s => if ProjectStep.id s =? sid then f s else s) (steps d)) d.

(** ** Queries *)

(** [db.session.get(User, id)], [User.query.get(id)] *)
Definition User_get (d : DB) (uid : Z) : option User.t :=
  find (fun u => User.id u =? uid) (users d).

(** [db.session.get(Project, project_id)] *)
Definition Project_get (d : DB) (pid : Z) : option Project.t :=
  find (fun p => Project.id p =? pid) (projects d).

Definition ProjectStep_get (d : DB) (sid : Z) : option ProjectStep.t :=
  find (fun s => ProjectStep.id s =? sid) (steps d).

(** [ProjectStep.query.filter_by(project_id=pid)] *)
Definition steps_of (d : DB) (pid : Z) : list ProjectStep.t :=
  filter (fun s => ProjectStep.project_id s =? pid) (steps d).

(** [order_by]: a stable insertion sort, so rows with equal keys stay in
    insertion order (the order SQLite returns them in). *)
Section OrderBy.
Context {A : Type} (le : A -> A -> bool).

Fixpoint insert_by (x : A) (l : list A) : list A :=
  match l with
  | [] => [x]
  | y :: t => if le x y then x :: y :: t else y :: insert_by x t
  end.

Definition order_by (l : list A) : list A := fold_right insert_by [] l.
End OrderBy.

Definition step_number_asc (a b : ProjectStep.t) : bool :=
  ProjectStep.step_number a <=? ProjectStep.step_number b.
Definition step_number_desc (a b : ProjectStep.t) : bool :=
  ProjectStep.step_number b <=? ProjectStep.step_number a.

(** ** Helper functions *)

(** [create_notification]: adds the row and commits. *)
Definition create_notification (now user_id project_id : Z) (message : string)
    (s : Session) : Session :=
  let notification :=
    Notification.mk (next_id (map Notification.id (notifications (db s))))
                    user_id (Some project_id) message false now in
  commit (with_db (fun d => set_notifications (notifications d ++ [notification]) d) s).

(** [log_action]: adds the row and commits. *)
Definition log_action (now project_id user_id : Z) (action : string)
    (step_number step_id : option Z) (comments : option string)
    (s : Session) : Session :=
  let workflow_action :=
    WorkflowAction.mk (next_id (map WorkflowAction.id (actions (db s))))
                      project_id step_id user_id action step_number comments now in
  commit (with_db (fun d => set_actions (actions d ++ [workflow_action]) d) s).

(** [get_current_step] *)
Definition get_current_step (d : DB) (project : Project.t) : option ProjectStep.t :=
  if negb (truthy (Project.current_step_number project)) then None
  else
    match Project.current_step_number project with
    | None => None   (* step_number = NULL selects no row *)
    | Some n =>
        find (fun s => (ProjectStep.project_id s =? Project.id project)
                       && (ProjectStep.step_number s =? n))
             (steps d)
    end.

(** [get_next_step] *)
Definition get_next_step (d : DB) (project : Project.t) : option ProjectStep.t :=
  if negb (truthy (Project.current_step_number project)) then None
  else
    match Project.current_step_number project with
    | None => None
    | Some n =>
        hd_error
          (order_by step_number_desc
             (filter (fun s => ProjectStep.step_number s <? n)
                     (steps_of d (Project.id project))))
    end.

(** [get_previous_step] *)
Definition get_previous_step (d : DB) (project : Project.t) : option ProjectStep.t :=
  if negb (truthy (Project.current_step_number project)) then None
  else
    match Project.current_step_number project with
    | None => None
    | Some n =>
        hd_error
          (order_by step_number_asc
             (filter (fun s => ProjectStep.step_number s >? n)
                     (steps_of d (Project.id project))))
    end.

(** ** Requests and responses *)

(** The JSON body of a create or edit request; a key may be missing. *)
Module StepData.
Record t := mk
  { step_number : option Z;
    step_name : option string;
    task_description : option string;
    assigned_user_id : option Z }.

(** [all(k in step_data for k in [...])], with the four values when it holds. *)
Definition fields (step_data : t) : option (Z * string * string * Z) :=
  match step_number step_data, step_name step_data,
        task_description step_data, assigned_user_id step_data with
  | Some n, Some name, Some task, Some uid => Some (n, name, task, uid)
  | _, _, _, _ => None
  end.
End StepData.

Module ProjectData.
Record t := mk
  { project_name : option string;
    description : option string;
    steps : option (list StepData.t) }.
End ProjectData.

(** A value as [json.loads] returns it; a number is kept as its literal. *)
#[warnings="-register-all"]
Inductive Json :=
| JNull
| JBool (b : bool)
| JNumber (literal : string)
| JString (s : string)
| JArray (items : list Json)
| JObject (members : list (string * Json)).

Inductive Body :=
| Error (error : string)
| Message (message : string)
| MessageProject (message : string) (project : Project.t * list ProjectStep.t)
| ProjectJson (project : Project.t * list ProjectStep.t)
| ActionsJson (l : list WorkflowAction.t)
| AssetsJson (l : list (ProjectAsset.t * option Json)).

(** [jsonify(body), status_code] *)
Record Response := mkResponse
  { body : Body;
    status_code : Z }.

(** An exception that no handler catches ([KeyError], [ValueError]). *)
Definition internal_server_error : Response :=
  mkResponse (Error "Internal Server Error") 500.

(** [Project.to_dict]: the row as it is now, with its steps by descending
    step number. *)
Definition to_dict (d : DB) (project : Project.t) : Project.t * list ProjectStep.t :=
  (match Project_get d (Project.id project) with
   | Some p => p
   | None => project
   end,
   order_by step_number_desc (steps_of d (Project.id project))).

Definition Handler : Type := Session -> Response * Session.

(** A request runs its handler in a fresh session; the result is the response
    and the states committed on the way. *)
Definition request (h : Handler) (d : DB) : Response * list DB :=
  let (r, s) := h (mkSession d []) in (r, commits s).

(** The database after a request: the last committed state. *)
Definition persisted (d : DB) (tr : list DB) : DB := last tr d.

(** [project_owner_required] *)
Definition project_owner_required
    (f : User.t -> Project.t -> Handler)
    (current_user : User.t) (project_id : Z) : Handler :=
  fun s =>
    match Project_get (db s) project_id with
    | None => (mkResponse (Error "Project not found") 404, s)
    | Some project =>
        if negb (Project.owner_id project =? User.id current_user)
        then (mkResponse (Error "Only project owner can perform this action") 403, s)
        else f current_user project s
    end.

(** ** Routes: workflow

    Each route takes the authenticated [current_user] that [token_required]
    passes on, and [now], the clock as the request reads it
    ([datetime.utcnow()] and the columns' time defaults). *)

(** The validation loop of [create_project]; [None] when every step passes. *)
Fixpoint validate_steps (d : DB) (l : list StepData.t) : option Response :=
  match l with
  | [] => None
  | step_data :: rest =>
      match StepData.fields step_data with
      | None => Some (mkResponse (Error "Invalid step data") 400)
      | Some (_, _, _, uid) =>
          match User_get d uid with
          | None => Some (mkResponse (Error ("User " ++ str uid ++ " not found")) 404)
          | Some _ => validate_steps d rest
          end
      end
  end.

(** [db.session.add(ProjectStep(..., status='Pending'))] *)
Definition add_step (now pid : Z) (f : Z * string * string * Z) (s : Session) : Session :=
  let '(n, name, task, uid) := f in
  with_db (fun d =>
             set_steps
               (steps d ++ [ProjectStep.mk (next_id (map ProjectStep.id (steps d)))
                                           pid n name task uid "Pending" None now])
               d) s.

(** [[s['step_number'] for s in data['steps']]]; [None] is a [KeyError]. *)
Fixpoint step_numbers (l : list StepData.t) : option (list Z) :=
  match l with
  | [] => Some []
  | step_data :: rest =>
      match StepData.step_number step_data, step_numbers rest with
      | Some n, Some ns => Some (n :: ns)
      | _, _ => None
      end
  end.

(** The step-creating loop of [create_project]; [None] is a [KeyError]. *)
Fixpoint create_steps (now pid : Z) (l : list StepData.t) (s : Session) : option Session :=
  match l with
  | [] => Some s
  | step_data :: rest =>
      match StepData.fields step_data with
      | None => None
      | Some f => create_steps now pid rest (add_step now pid f s)
      end
  end.

(** The first step of the project with the given number. *)
Definition step_by_number (d : DB) (pid n : Z) : option ProjectStep.t :=
  find (fun s => (ProjectStep.project_id s =? pid) && (ProjectStep.step_number s =? n))
       (steps d).

(** [create_project] *)
Definition create_project (now : Z) (current_user : User.t) (data : ProjectData.t)
    : Handler :=
  fun s =>
    match ProjectData.project_name data, ProjectData.description data,
          ProjectData.steps data with
    | Some project_name, Some description, Some steps_data =>
        match steps_data with
        | [] => (mkResponse (Error "At least one step is required") 400, s)
        | _ :: _ =>
            match validate_steps (db s) steps_data with
            | Some resp => (resp, s)
            | None =>
                (* Create project *)
                let pid := next_id (map Project.id (projects (db s))) in
                let project :=
                  Project.mk pid project_name description (User.id current_user)
                             "In Progress" None now now in
                let s := with_db (fun d => set_projects (projects d ++ [project]) d) s in
                (* Create steps *)
                match step_numbers steps_data with
                | None => (internal_server_error, s)
                | Some numbers =>
                    match max_list numbers with
                    | None => (internal_server_error, s)
                    | Some highest_step =>
                        match create_steps now pid steps_data s with
                        | None => (internal_server_error, s)
                        | Some s =>
                            (* Set current step to highest number *)
                            let s := with_db (update_project now pid
                                       (Project.set_current_step_number (Some highest_step))) s in
                            (* Mark highest step as In Progress *)
                            let highest_step_obj := step_by_number (db s) pid highest_step in
                            let s := match highest_step_obj with
                                     | Some o => with_db (update_step (ProjectStep.id o)
                                                   (ProjectStep.set_status "In Progress")) s
                                     | None => s
                                     end in
                            let s := commit s in
                            (* Log action *)
                            let s := log_action now pid (User.id current_user) "create"
                                                None None (Some "Project created") s in
                            (* Notify the user assigned to the highest step *)
                            let s := match highest_step_obj with
                                     | Some o =>
                                         create_notification now
                                           (ProjectStep.assigned_user_id o) pid
                                           ("New project assigned: " ++ project_name
                                            ++ ". You are at Step " ++ str highest_step
                                            ++ ": " ++ ProjectStep.step_name o) s
                                     | None => s
                                     end in
                            (mkResponse (MessageProject "Project created successfully"
                                                        (to_dict (db s) project)) 201, s)
                        end
                    end
                end
            end
        end
    | _, _, _ => (mkResponse (Error "Missing required fields") 400, s)
    end.

(** The step-creating loop of [edit_project], which checks each step's keys
    as it goes. *)
Fixpoint edit_steps (now pid : Z) (l : list StepData.t) (s : Session)
    : Response + Session :=
  match l with
  | [] => inr s
  | step_data :: rest =>
      match StepData.fields step_data with
      | None => inl (mkResponse (Error "Invalid step data") 400)
      | Some f => edit_steps now pid rest (add_step now pid f s)
      end
  end.

(** [edit_project], under [project_owner_required] *)
Definition edit_project_body (now : Z) (data : ProjectData.t)
    (current_user : User.t) (project : Project.t) : Handler :=
  fun s =>
    let pid := Project.id project in
    (* Update basic project info *)
    let s := match ProjectData.project_name data with
             | Some v => with_db (update_project now pid (Project.set_project_name v)) s
             | None => s
             end in
    let s := match ProjectData.description data with
             | Some v => with_db (update_project now pid (Project.set_description v)) s
             | None => s
             end in
    (* Update steps if provided *)
    let r :=
      match ProjectData.steps data with
      | Some steps_data =>
          (* Delete existing steps *)
          let s := with_db (fun d =>
                     set_steps (filter (fun st => negb (ProjectStep.project_id st =? pid))
                                       (steps d)) d) s in
          (* Create new steps *)
          match edit_steps now pid steps_data s with
          | inl resp => inl (resp, s)
          | inr s =>
              (* Reset to highest step *)
              match step_numbers steps_data with
              | None => inl (internal_server_error, s)
              | Some numbers =>
                  match max_list numbers with
                  | None => inl (internal_server_error, s)
                  | Some highest_step =>
                      inr (with_db (update_project now pid
                             (Project.set_current_step_number (Some highest_step))) s)
                  end
              end
          end
      | None => inr s
      end in
    match r with
    | inl early => early
    | inr s =>
        let s := with_db (update_project now pid (fun p => p)) s in
        let s := commit s in
        (* Log action *)
        let s := log_action now pid (User.id current_user) "edit"
                            None None (Some "Project edited") s in
        (mkResponse (MessageProject "Project updated successfully"
                                    (to_dict (db s) project)) 200, s)
    end.

Definition edit_project (now : Z) (current_user : User.t) (project_id : Z)
    (data : ProjectData.t) : Handler :=
  project_owner_required (edit_project_body now data) current_user project_id.

(** [db.session.delete(project)], as the flush of the commit that follows
    carries it out.  Only [Project.steps] is declared with a delete cascade
    ([cascade='all, delete-orphan']): the steps go with the project, and an
    audit row that refers to one of them has its [step_id] set to NULL (the
    [actions] backref of [ProjectStep], a nullable column).  The audit rows
    and the assets of the project hang on the backrefs [Project.actions] and
    [Project.assets], which have no delete cascade: the flush sets their
    [project_id] to NULL, and the column is NOT NULL.  [None] is the
    [IntegrityError] this raises, whatever the code's comment (cascade will
    delete steps, actions, etc.) expects.  Notifications are not reached from
    the project and stay. *)
Definition delete_cascade (pid : Z) (d : DB) : option DB :=
  if existsb (fun a => WorkflowAction.project_id a =? pid) (actions d)
     || existsb (fun a => ProjectAsset.project_id a =? pid) (assets d)
  then None
  else
    let deleted_steps := filter (fun s => ProjectStep.project_id s =? pid) (steps d) in
    Some (mkDB (users d)
               (filter (fun p => negb (Project.id p =? pid)) (projects d))
               (filter (fun s => negb (ProjectStep.project_id s =? pid)) (steps d))
               (map (fun a =>
                       match WorkflowAction.step_id a with
                       | Some sid =>
                           if existsb (fun s => ProjectStep.id s =? sid) deleted_steps
                           then WorkflowAction.set_step_id None a
                           else a
                       | None => a
                       end) (actions d))
               (assets d)
               (notifications d)).

Definition dquote : string := String "034"%char EmptyString.

(** [delete_project], under [project_owner_required].  The
    [IntegrityError] of the commit is caught nowhere: the request answers 500
    and nothing is committed. *)
Definition delete_project_body (current_user : User.t) (project : Project.t) : Handler :=
  fun s =>
    let project_name := Project.project_name project in
    (* Delete project *)
    match delete_cascade (Project.id project) (db s) with
    | None => (internal_server_error, s)
    | Some d =>
        let s := with_db (fun _ => d) s in
        let s := commit s in
        (mkResponse (Message ("Project " ++ dquote ++ project_name ++ dquote
                              ++ " deleted successfully")) 200, s)
    end.

Definition delete_project (current_user : User.t) (project_id : Z) : Handler :=
  project_owner_required delete_project_body current_user project_id.

(** [forward_step]; [comments] is the request's optional [comments] key. *)
Definition forward_step (now : Z) (current_user : User.t) (project_id : Z)
    (comments : option string) : Handler :=
  fun s =>
    match Project_get (db s) project_id with
    | None => (mkResponse (Error "Project not found") 404, s)
    | Some project =>
        (* Get current step *)
        match get_current_step (db s) project with
        | None => (mkResponse (Error "No active step found") 400, s)
        | Some current_step =>
            (* Verify user is assigned to current step *)
            if negb (ProjectStep.assigned_user_id current_step =? User.id current_user)
            then (mkResponse (Error "You are not assigned to the current step") 403, s)
            else
              let comments := match comments with Some c => c | None => "" end in
              (* Mark current step as completed *)
              let s := with_db (update_step (ProjectStep.id current_step)
                         (fun st => ProjectStep.set_completed_at (Some now)
                                      (ProjectStep.set_status "Completed" st))) s in
              (* Get next step (lower number) *)
              match get_next_step (db s) project with
              | Some next_step =>
                  (* Move to next step *)
                  let s := with_db (update_project now project_id
                             (Project.set_current_step_number
                                (Some (ProjectStep.step_number next_step)))) s in
                  let s := with_db (update_step (ProjectStep.id next_step)
                             (ProjectStep.set_status "In Progress")) s in
                  let s := log_action now project_id (User.id current_user) "forward"
                             (Some (ProjectStep.step_number current_step))
                             (Some (ProjectStep.id current_step)) (Some comments) s in
                  let s := create_notification now
                             (ProjectStep.assigned_user_id next_step) project_id
                             ("Project forwarded to you: " ++ Project.project_name project
                              ++ ". Step " ++ str (ProjectStep.step_number next_step)
                              ++ ": " ++ ProjectStep.step_name next_step) s in
                  let s := commit s in
                  (mkResponse
                     (MessageProject ("Project forwarded to Step "
                                      ++ str (ProjectStep.step_number next_step))
                                     (to_dict (db s) project)) 200, s)
              | None =>
                  (* No more steps *)
                  let s := with_db (update_project now project_id
                             (fun p => Project.set_current_step_number None
                                         (Project.set_status "Completed" p))) s in
                  let s := log_action now project_id (User.id current_user) "complete"
                             (Some (ProjectStep.step_number current_step))
                             (Some (ProjectStep.id current_step)) (Some comments) s in
                  let s := create_notification now (Project.owner_id project) project_id
                             ("Project completed: " ++ Project.project_name project
                              ++ ". All steps finished.") s in
                  let s := commit s in
                  (mkResponse (MessageProject "Project completed successfully"
                                              (to_dict (db s) project)) 200, s)
              end
        end
    end.

(** [send_back_step]; [comments] is the request's optional [comments] key. *)
Definition send_back_step (now : Z) (current_user : User.t) (project_id : Z)
    (comments : option string) : Handler :=
  fun s =>
    match Project_get (db s) project_id with
    | None => (mkResponse (Error "Project not found") 404, s)
    | Some project =>
        (* Get current step *)
        match get_current_step (db s) project with
        | None => (mkResponse (Error "No active step found") 400, s)
        | Some current_step =>
            (* Verify user is assigned to current step *)
            if negb (ProjectStep.assigned_user_id current_step =? User.id current_user)
            then (mkResponse (Error "You are not assigned to the current step") 403, s)
            else if negb (truthy_str comments)
            then (mkResponse (Error "Comments are required when sending back") 400, s)
            else
              let comments := match comments with Some c => c | None => "" end in
              (* Get previous step (higher number) *)
              match get_previous_step (db s) project with
              | None => (mkResponse (Error "No previous step to send back to") 400, s)
              | Some previous_step =>
                  (* Mark current step as sent back *)
                  let s := with_db (update_step (ProjectStep.id current_step)
                             (ProjectStep.set_status "Sent Back")) s in
                  (* Move to previous step *)
                  let s := with_db (update_project now project_id
                             (Project.set_current_step_number
                                (Some (ProjectStep.step_number previous_step)))) s in
                  let s := with_db (update_step (ProjectStep.id previous_step)
                             (fun st => ProjectStep.set_completed_at None
                                          (ProjectStep.set_status "In Progress" st))) s in
                  (* Log action *)
                  let s := log_action now project_id (User.id current_user) "send_back"
                             (Some (ProjectStep.step_number current_step))
                             (Some (ProjectStep.id current_step)) (Some comments) s in
                  (* Notify previous user *)
                  let s := create_notification now
                             (ProjectStep.assigned_user_id previous_step) project_id
                             ("Project sent back to you: " ++ Project.project_name project
                              ++ ". Step " ++ str (ProjectStep.step_number previous_step)
                              ++ ": " ++ ProjectStep.step_name previous_step
                              ++ ". Reason: " ++ comments) s in
                  let s := commit s in
                  (mkResponse
                     (MessageProject ("Project sent back to Step "
                                      ++ str (ProjectStep.step_number previous_step))
                                     (to_dict (db s) project)) 200, s)
              end
        end
    end.

(** ** Routes: data retrieval *)

Definition timestamp_desc (a b : WorkflowAction.t) : bool :=
  WorkflowAction.timestamp b <=? WorkflowAction.timestamp a.
Definition uploaded_at_desc (a b : ProjectAsset.t) : bool :=
  ProjectAsset.uploaded_at b <=? ProjectAsset.uploaded_at a.

(** [get_project] *)
Definition get_project (current_user : User.t) (project_id : Z) : Handler :=
  fun s =>
    match Project_get (db s) project_id with
    | None => (mkResponse (Error "Project not found") 404, s)
    | Some project =>
        (* Check if user has access (owner or assigned to any step) *)
        let is_owner := Project.owner_id project =? User.id current_user in
        let is_assigned :=
          match find (fun st => (ProjectStep.project_id st =? project_id)
                                && (ProjectStep.assigned_user_id st =? User.id current_user))
                     (steps (db s)) with
          | Some _ => true
          | None => false
          end in
        if negb (is_owner || is_assigned)
        then (mkResponse (Error "Access denied") 403, s)
        else (mkResponse (ProjectJson (to_dict (db s) project)) 200, s)
    end.

(** [get_project_actions] *)
Definition get_project_actions (current_user : User.t) (project_id : Z) : Handler :=
  fun s =>
    match Project_get (db s) project_id with
    | None => (mkResponse (Error "Project not found") 404, s)
    | Some project =>
        let actions :=
          order_by timestamp_desc
            (filter (fun a => WorkflowAction.project_id a =? project_id)
                    (actions (db s))) in
        (mkResponse (ActionsJson actions) 200, s)
    end.

Section Json.
(** [json.loads]; [None] is the [JSONDecodeError] it raises on a text that is
    not JSON. *)
Variable json_loads : string -> option Json.

(** [ProjectAsset.to_dict]: the row with its metadata parsed,
    [json.loads(self.metadata_assets) if self.metadata_assets else None]. *)
Definition asset_to_dict (a : ProjectAsset.t) : option (ProjectAsset.t * option Json) :=
  match ProjectAsset.metadata_assets a with
  | None => Some (a, None)
  | Some text =>
      if (text =? "")%string then Some (a, None)
      else
        match json_loads text with
        | Some v => Some (a, Some v)
        | None => None
        end
  end.

(** [[asset.to_dict() for asset in assets]] *)
Fixpoint assets_to_dict (l : list ProjectAsset.t)
    : option (list (ProjectAsset.t * option Json)) :=
  match l with
  | [] => Some []
  | a :: rest =>
      match asset_to_dict a with
      | None => None
      | Some x =>
          match assets_to_dict rest with
          | None => None
          | Some xs => Some (x :: xs)
          end
      end
  end.

(** [get_project_assets]; an asset whose metadata does not parse makes
    [to_dict] raise, and the request answers 500. *)
Definition get_project_assets (current_user : User.t) (project_id : Z) : Handler :=
  fun s =>
    match Project_get (db s) project_id with
    | None => (mkResponse (Error "Project not found") 404, s)
    | Some project =>
        let assets :=
          order_by uploaded_at_desc
            (filter (fun a => ProjectAsset.project_id a =? project_id)
                    (assets (db s))) in
        match assets_to_dict assets with
        | Some l => (mkResponse (AssetsJson l) 200, s)
        | None => (internal_server_error, s)
        end
    end.
End Json.

(** * Vocabulary of the properties *)

(** ** The database after a request *)

(** The database a request leaves behind. *)
Definition after (h : Handler) (d : DB) : DB := persisted d (snd (request h d)).

(** What Forward writes to the row of the current step. *)
Definition complete (now : Z) (st : ProjectStep.t) : ProjectStep.t :=
  ProjectStep.set_completed_at (Some now) (ProjectStep.set_status "Completed" st).

(** What SendBack writes to the row of the previous step. *)
Definition rework (st : ProjectStep.t) : ProjectStep.t :=
  ProjectStep.set_completed_at None (ProjectStep.set_status "In Progress" st).

(** [data.get('comments', '')] *)
Definition default_comments (comments : option string) : string :=
  match comments with Some c => c | None => "" end.

(** The row [log_action] adds to [d]. *)
Definition logged (now project_id user_id : Z) (action : string)
    (step_number step_id : option Z) (comments : option string) (d : DB) : DB :=
  set_actions
    (actions d ++ [WorkflowAction.mk (next_id (map WorkflowAction.id (actions d)))
                                     project_id step_id user_id action step_number
                                     comments now]) d.

(** The row [create_notification] adds to [d]. *)
Definition notified (now user_id project_id : Z) (message : string) (d : DB) : DB :=
  set_notifications
    (notifications d ++ [Notification.mk (next_id (map Notification.id (notifications d)))
                                         user_id (Some project_id) message false now]) d.

(** The state of the first commit of a Forward that moves to [next_step]. *)
Definition forwarded_db (now : Z) (actor : User.t) (comments : option string)
    (project : Project.t) (current_step next_step : ProjectStep.t) (d : DB) : DB :=
  logged now (Project.id project) (User.id actor) "forward"
         (Some (ProjectStep.step_number current_step))
         (Some (ProjectStep.id current_step)) (Some (default_comments comments))
    (update_step (ProjectStep.id next_step) (ProjectStep.set_status "In Progress")
       (update_project now (Project.id project)
          (Project.set_current_step_number (Some (ProjectStep.step_number next_step)))
          (update_step (ProjectStep.id current_step) (complete now) d))).

(** The state of the first commit of a Forward from the last step. *)
Definition completed_db (now : Z) (actor : User.t) (comments : option string)
    (project : Project.t) (current_step : ProjectStep.t) (d : DB) : DB :=
  logged now (Project.id project) (User.id actor) "complete"
         (Some (ProjectStep.step_number current_step))
         (Some (ProjectStep.id current_step)) (Some (default_comments comments))
    (update_project now (Project.id project)
       (fun p => Project.set_current_step_number None (Project.set_status "Completed" p))
       (update_step (ProjectStep.id current_step) (complete now) d)).

(** The state of the first commit of a SendBack to [previous_step]. *)
Definition sent_back_db (now : Z) (actor : User.t) (comment : string)
    (project : Project.t) (current_step previous_step : ProjectStep.t) (d : DB) : DB :=
  logged now (Project.id project) (User.id actor) "send_back"
         (Some (ProjectStep.step_number current_step))
         (Some (ProjectStep.id current_step)) (Some comment)
    (update_step (ProjectStep.id previous_step) rework
       (update_project now (Project.id project)
          (Project.set_current_step_number (Some (ProjectStep.step_number previous_step)))
          (update_step (ProjectStep.id current_step) (ProjectStep.set_status "Sent Back") d))).

(** The texts of the notifications. *)
Definition forward_message (project : Project.t) (next_step : ProjectStep.t) : string :=
  "Project forwarded to you: " ++ Project.project_name project
  ++ ". Step " ++ str (ProjectStep.step_number next_step)
  ++ ": " ++ ProjectStep.step_name next_step.

Definition complete_message (project : Project.t) : string :=
  "Project completed: " ++ Project.project_name project ++ ". All steps finished.".


Definition send_back_message (project : Project.t) (previous_step : ProjectStep.t)
    (comments : string) : string :=
  "Project sent back to you: " ++ Project.project_name project
  ++ ". Step " ++ str (ProjectStep.step_number previous_step)
  ++ ": " ++ ProjectStep.step_name previous_step ++ ". Reason: " ++ comments.

(** ** The order of the steps *)

(** What the specification calls the next step: [m] is the greatest step
    number of the project strictly below [n]. *)
Definition next_lower (d : DB) (pid n m : Z) : Prop :=
  m < n
  /\ (exists s, In s (steps d) /\ ProjectStep.project_id s = pid
                /\ ProjectStep.step_number s = m)
  /\ forall s, In s (steps d) -> ProjectStep.project_id s = pid ->
               ProjectStep.step_number s < n -> ProjectStep.step_number s <= m.

(** What it calls the previous step: [m] is the smallest step number of the
    project strictly above [n]. *)
Definition next_higher (d : DB) (pid n m : Z) : Prop :=
  n < m
  /\ (exists s, In s (steps d) /\ ProjectStep.project_id s = pid
                /\ ProjectStep.step_number s = m)
  /\ forall s, In s (steps d) -> ProjectStep.project_id s = pid ->
               n < ProjectStep.step_number s -> m <= ProjectStep.step_number s.


Definition is_max_step (d : DB) (pid n : Z) : Prop :=
  forall s, In s (steps d) -> ProjectStep.project_id s = pid ->
            ProjectStep.step_number s <= n.

(** ** Keys and the current-step invariant *)

(** Primary keys of the step rows are distinct. *)
Definition unique_step_ids (d : DB) : Prop := NoDup (map ProjectStep.id (steps d)).

(** The steps of a project have distinct numbers. *)
Definition unique_step_numbers (d : DB) (pid : Z) : Prop :=
  NoDup (map ProjectStep.step_number (steps_of d pid)).

(** The step's status is In Progress. *)
Definition in_progress (s : ProjectStep.t) : bool :=
  (ProjectStep.status s =? "In Progress")%string.

(** From the specification's words: [current_step_number] is null exactly
    when the project is Completed; when it is a number, exactly one step of
    the project is In Progress and that step has this number; when it is
    null, no step is In Progress. *)
Definition current_step_invariant (d : DB) (project : Project.t) : Prop :=
  (Project.current_step_number project = None
   <-> Project.status project = "Completed")
  /\ match Project.current_step_number project with
     | None =>
         forall s, In s (steps d) -> ProjectStep.project_id s = Project.id project ->
                   ProjectStep.status s <> "In Progress"
     | Some n =>
         exists current_step,
           In current_step (steps d)
           /\ ProjectStep.project_id current_step = Project.id project
           /\ ProjectStep.step_number current_step = n
           /\ forall s, In s (steps d) ->
                        ProjectStep.project_id s = Project.id project ->
                        (ProjectStep.status s = "In Progress" <-> s = current_step)
     end.

(** The step belongs to the project and is assigned to the user. *)
Definition assigned_to (user_id project_id : Z) (st : ProjectStep.t) : bool :=
  (ProjectStep.project_id st =? project_id)
  && (ProjectStep.assigned_user_id st =? user_id).

(** ** Requests and answers *)

(** A step of a request that has all four keys. *)
Definition well_formed (step_data : StepData.t) : Prop :=
  StepData.fields step_data <> None.

(** Its assigned user is not, respectively is, in the users table. *)
Definition assignee_missing (d : DB) (step_data : StepData.t) : Prop :=
  exists uid, StepData.assigned_user_id step_data = Some uid /\ User_get d uid = None.

Definition assignee_exists (d : DB) (step_data : StepData.t) : Prop :=
  exists uid, StepData.assigned_user_id step_data = Some uid /\ User_get d uid <> None.

(** The row that [add_step] builds from the values of a step of the request. *)
Definition row_fields (r : ProjectStep.t) : option (Z * string * string * Z) :=
  Some (ProjectStep.step_number r, ProjectStep.step_name r,
        ProjectStep.task_description r, ProjectStep.assigned_user_id r).

(** A row as [add_step] creates it for project [pid]. *)
Definition pending_row (now pid : Z) (r : ProjectStep.t) : Prop :=
  ProjectStep.project_id r = pid
  /\ ProjectStep.status r = "Pending"
  /\ ProjectStep.completed_at r = None
  /\ ProjectStep.created_at r = now.

(** The error answers of Forward and SendBack. *)
Definition no_active_step : Response := mkResponse (Error "No active step found") 400.
Definition forbidden : Response :=
  mkResponse (Error "You are not assigned to the current step") 403.
Definition comments_required : Response :=
  mkResponse (Error "Comments are required when sending back") 400.
Definition no_previous_step : Response :=
  mkResponse (Error "No previous step to send back to") 400.

(** ** Sequences of transitions *)

(** A forward or send-back request by some user at some time. *)
Inductive Transition :=
| Forward (now : Z) (actor : User.t) (comments : option string)
| SendBack (now : Z) (actor : User.t) (comments : option string).

Definition transition (project_id : Z) (t : Transition) : Handler :=
  match t with
  | Forward now actor comments => forward_step now actor project_id comments
  | SendBack now actor comments => send_back_step now actor project_id comments
  end.

(** The database after a sequence of such requests on one project. *)
Fixpoint run (project_id : Z) (ts : list Transition) (d : DB) : DB :=
  match ts with
  | [] => d
  | t :: rest => run project_id rest (after (transition project_id t) d)
  end.

(** ** Commits *)

(** From the specification's words: an operation is all-or-nothing when every
    state it makes durable is either the state it started from or its final
    state, so that nothing in between can be observed. *)
Definition all_or_nothing (d : DB) (tr : list DB) : Prop :=
  forall x, In x tr -> x = d \/ x = persisted d tr.

(** [d'] is [d] with one more audit row. *)
Definition adds_audit_row (d d' : DB) : Prop :=
  exists a, d' = set_actions (actions d ++ [a]) d.

(** [d'] is [d] with one more notification. *)
Definition adds_notification (d d' : DB) : Prop :=
  exists n, d' = set_notifications (notifications d ++ [n]) d.

(** ** The scenario of the specification *)

(** The users that [init_db] creates. *)
Definition alice : User.t := User.mk 1 "alice" "alice@example.com" "Alice Johnson" true.
Definition bob : User.t := User.mk 2 "bob" "bob@example.com" "Bob Smith" true.
Definition charlie : User.t := User.mk 3 "charlie" "charlie@example.com" "Charlie Davis" true.
Definition diana : User.t := User.mk 4 "diana" "diana@example.com" "Diana Wilson" true.
Definition emma : User.t := User.mk 5 "emma" "emma@example.com" "Emma Martinez" true.

Definition db_users : DB := mkDB [alice; bob; charlie; diana; emma] [] [] [] [] [].

(** A step of a request, with all its keys. *)
Definition step_data (n : Z) (name : string) (u : User.t) : StepData.t :=
  StepData.mk (Some n) (Some name) (Some "task") (Some (User.id u)).

(** Owner diana; Draft (3) for alice, Review (2) for bob, Publish (1) for
    charlie. *)
Definition scenario_data : ProjectData.t :=
  ProjectData.mk (Some "P") (Some "news item")
    (Some [step_data 3 "Draft" alice; step_data 2 "Review" bob;
           step_data 1 "Publish" charlie]).

(** After CreateProject by diana, and after Forward by alice. *)
Definition db_created : DB := after (create_project 100 diana scenario_data) db_users.
Definition db_forwarded : DB := after (forward_step 101 alice 1 None) db_created.

(** The project row and the current step in these two states. *)
Definition created_project : Project.t :=
  Project.mk 1 "P" "news item" 4 "In Progress" (Some 3) 100 100.
Definition forwarded_project : Project.t :=
  Project.mk 1 "P" "news item" 4 "In Progress" (Some 2) 100 101.
Definition draft_step : ProjectStep.t :=
  ProjectStep.mk 1 1 3 "Draft" "task" 1 "In Progress" None 100.
Definition review_step : ProjectStep.t :=
  ProjectStep.mk 2 1 2 "Review" "task" 2 "In Progress" None 100.

(** After Forward by bob, and then by charlie: the project is Completed. *)
Definition db_reviewed : DB := after (forward_step 102 bob 1 None) db_forwarded.
Definition db_completed : DB := after (forward_step 103 charlie 1 None) db_reviewed.


(** Edit requests that supply a new list of steps. *)
Definition restart_patch : ProjectData.t :=
  ProjectData.mk None None
    (Some [step_data 2 "Rewrite" bob; step_data 1 "Publish" charlie]).

Definition renumber_patch : ProjectData.t :=
  ProjectData.mk None None
    (Some [step_data 5 "Draft" alice; step_data 4 "Review" bob]).

(** A second project, owned by alice, next to the first. *)
Definition db_two_projects : DB :=
  after (create_project 105 alice scenario_data) db_created.

(** What the first commit of the CreateProject request of the scenario makes
    durable: project 1 and its steps, before [log_action] has added the
    audit row and before the notification. *)
Definition db_first_commit : DB :=
  hd db_users (snd (request (create_project 100 diana scenario_data) db_users)).

(** Create requests: two steps with the same number; a step assigned to a
    user that does not exist; no steps. *)
Definition duplicate_data : ProjectData.t :=
  ProjectData.mk (Some "D") (Some "two steps numbered 2")
    (Some [step_data 2 "Draft" alice; step_data 2 "Review" bob]).

Definition ghost : User.t := User.mk 9 "ghost" "ghost@example.com" "No Such User" true.

Definition ghost_data : ProjectData.t :=
  ProjectData.mk (Some "G") (Some "assigned to nobody")
    (Some [step_data 2 "Draft" alice; step_data 1 "Review" ghost]).

Definition empty_data : ProjectData.t :=
  ProjectData.mk (Some "E") (Some "no steps") (Some []).

(** A project with steps 1 and 0, forwarded once: step 0 is In Progress and
    [current_step_number] is 0. *)
Definition zero_data : ProjectData.t :=
  ProjectData.mk (Some "Z") (Some "ends at step 0")
    (Some [step_data 1 "Write" alice; step_data 0 "Publish" bob]).

Definition db_zero : DB :=
  after (forward_step 101 alice 1 None)
        (after (create_project 100 diana zero_data) db_users).

Definition zero_project : Project.t :=
  Project.mk 1 "Z" "ends at step 0" 4 "In Progress" (Some 0) 100 101.

(** * Further routes *)

(** ** Python dictionaries *)

(** [m[k] = v] on a dict, kept as the list of its items in insertion order: a
    key that is present keeps its place and takes the new value. *)
Fixpoint dict_set {V : Type} (k : Z) (v : V) (m : list (Z * V)) : list (Z * V) :=
  match m with
  | [] => [(k, v)]
  | (k', v') :: t => if k' =? k then (k, v) :: t else (k', v') :: dict_set k v t
  end.

(** [{key(x): x for x in l}] *)
Definition dict_by {V : Type} (key : V -> Z) (l : list V) : list (Z * V) :=
  fold_left (fun m x => dict_set (key x) x m) l [].

(** [m.values()] *)
Definition values {V : Type} (m : list (Z * V)) : list V := map snd m.

(** ** Routes: lists, notifications, statistics

    The read routes answer 200 and commit nothing; they are given as the
    payload they compute from the database. *)

(** [get_projects]: the projects the user owns or is assigned to a step of,
    one entry per project id. *)
Definition get_projects (current_user : User.t) (d : DB)
    : list (Project.t * list ProjectStep.t) :=
  (* Get projects owned by user *)
  let owned_projects :=
    filter (fun p => Project.owner_id p =? User.id current_user) (projects d) in
  (* Get projects where user is assigned to any step *)
  let assigned_steps :=
    filter (fun st => ProjectStep.assigned_user_id st =? User.id current_user)
           (steps d) in
  let assigned_project_ids := map ProjectStep.project_id assigned_steps in
  let assigned_projects :=
    match assigned_project_ids with
    | [] => []
    | _ :: _ =>
        filter (fun p => existsb (Z.eqb (Project.id p)) assigned_project_ids)
               (projects d)
    end in
  (* Combine and deduplicate *)
  let all_projects := dict_by Project.id (owned_projects ++ assigned_projects) in
  map (to_dict d) (values all_projects).

Definition created_at_desc (a b : Notification.t) : bool :=
  Notification.created_at b <=? Notification.created_at a.

(** [get_notifications]: the user's fifty newest notifications. *)
Definition get_notifications (current_user : User.t) (d : DB) : list Notification.t :=
  firstn 50
    (order_by created_at_desc
       (filter (fun n => Notification.user_id n =? User.id current_user)
               (notifications d))).

(** [notification.is_read = v] *)
Definition set_is_read (v : bool) (n : Notification.t) : Notification.t :=
  Notification.mk (Notification.id n) (Notification.user_id n)
                  (Notification.project_id n) (Notification.message n) v
                  (Notification.created_at n).

Definition update_notification (nid : Z) (f : Notification.t -> Notification.t)
    (d : DB) : DB :=
  set_notifications
    (map (fun n => if Notification.id n =? nid then f n else n) (notifications d)) d.

(** [Notification.query.get(notif_id)] *)
Definition Notification_get (d : DB) (nid : Z) : option Notification.t :=
  find (fun n => Notification.id n =? nid) (notifications d).

(** [mark_notification_read] *)
Definition mark_notification_read (current_user : User.t) (notif_id : Z) : Handler :=
  fun s =>
    match Notification_get (db s) notif_id with
    | None => (mkResponse (Error "Notification not found") 404, s)
    | Some notification =>
        if negb (Notification.user_id notification =? User.id current_user)
        then (mkResponse (Error "Access denied") 403, s)
        else
          let s := with_db (update_notification (Notification.id notification)
                              (set_is_read true)) s in
          let s := commit s in
          (mkResponse (Message "Notification marked as read") 200, s)
    end.

(** The payload of [get_dashboard_stats]. *)
Record Stats := mkStats
  { total_projects : nat;
    active_projects : nat;
    completed_projects : nat;
    my_pending_tasks : nat;
    unread_notifications : nat }.

(** [get_dashboard_stats] *)
Definition get_dashboard_stats (current_user : User.t) (d : DB) : Stats :=
  let uid := User.id current_user in
  (* Projects owned by user *)
  let owned_projects :=
    List.length (filter (fun p => Project.owner_id p =? uid) (projects d)) in
  (* Projects where user is assigned *)
  let assigned_steps :=
    filter (fun st => ProjectStep.assigned_user_id st =? uid) (steps d) in
  let assigned_project_ids := map ProjectStep.project_id assigned_steps in
  let assigned_projects_count := List.length (nodup Z.eq_dec assigned_project_ids) in
  let total_projects := (owned_projects + assigned_projects_count)%nat in
  let with_status (st : string) :=
    let owned :=
      List.length (filter (fun p => (Project.owner_id p =? uid)
                                    && (Project.status p =? st)%string) (projects d)) in
    let assigned :=
      match assigned_project_ids with
      | [] => 0%nat
      | _ :: _ =>
          List.length
            (filter (fun p => existsb (Z.eqb (Project.id p)) assigned_project_ids
                              && (Project.status p =? st)%string) (projects d))
      end in
    (owned + assigned)%nat in
  (* My pending tasks (steps assigned to me that are In Progress) *)
  let my_pending_tasks :=
    List.length (filter (fun st => (ProjectStep.assigned_user_id st =? uid)
                                   && (ProjectStep.status st =? "In Progress")%string)
                        (steps d)) in
  let unread_notifications :=
    List.length (filter (fun n => (Notification.user_id n =? uid)
                                  && negb (Notification.is_read n))
                        (notifications d)) in
  mkStats total_projects (with_status "In Progress") (with_status "Completed")
          my_pending_tasks unread_notifications.

(** ** Routes: users *)

Definition set_users (v : list User.t) (d : DB) : DB :=
  mkDB v (projects d) (steps d) (actions d) (assets d) (notifications d).

(** The JSON body of a register request; a key may be missing. *)
Module RegisterData.
Record t := mk
  { username : option string;
    email : option string;
    password : option string;
    full_name : option string }.
End RegisterData.

Inductive RegisterBody :=
| RegisterError (error : string)
| Registered (message : string) (user : User.t).

(** [register].  The password's hash goes into a column that [User.t] does
    not carry. *)
Definition register (data : RegisterData.t) (s : Session)
    : (RegisterBody * Z) * Session :=
  match RegisterData.username data, RegisterData.email data,
        RegisterData.password data, RegisterData.full_name data with
  | Some username, Some email, Some password, Some full_name =>
      match find (fun u => (User.username u =? username)%string) (users (db s)) with
      | Some _ => ((RegisterError "Username already exists", 400), s)
      | None =>
          match find (fun u => (User.email u =? email)%string) (users (db s)) with
          | Some _ => ((RegisterError "Email already exists", 400), s)
          | None =>
              let user := User.mk (next_id (map User.id (users (db s))))
                                  username email full_name true in
              let s := with_db (fun d => set_users (users d ++ [user]) d) s in
              let s := commit s in
              ((Registered "User registered successfully" user, 201), s)
          end
      end
  | _, _, _, _ => ((RegisterError "Missing required fields", 400), s)
  end.

(** The database after a register request. *)
Definition after_register (data : RegisterData.t) (d : DB) : DB :=
  persisted d (commits (snd (register data (mkSession d [])))).

(** [get_users]: all active users except the current one. *)
Definition get_users (current_user : User.t) (d : DB) : list User.t :=
  filter (fun u => User.is_active u && negb (User.id u =? User.id current_user))
         (users d).

(** The sample users of [init_db]: username, email, full name. *)
Definition users_data : list (string * string * string) :=
  [("alice", "alice@example.com", "Alice Johnson");
   ("bob", "bob@example.com", "Bob Smith");
   ("charlie", "charlie@example.com", "Charlie Davis");
   ("diana", "diana@example.com", "Diana Wilson");
   ("emma", "emma@example.com", "Emma Martinez")].

(** [init_db]: the sample users are created when the users table is empty. *)
Definition init_db (d : DB) : DB :=
  if (List.length (users d) =? 0)%nat
  then
    fold_left
      (fun d user_data =>
         let '(username, email, full_name) := user_data in
         set_users (users d ++ [User.mk (next_id (map User.id (users d)))
                                        username email full_name true]) d)
      users_data d
  else d.

(** ** Routes: file upload

    Of an uploaded file the model keeps the name; the bytes go to the upload
    folder, outside the database.  [secure_filename] is werkzeug's,
    [strftime] prints a time as year, month, day, hour, minute, second, and
    [clock k] is what the [k]-th reading of [datetime.utcnow()] during the
    request returns, counted from 0. *)

Inductive UploadBody :=
| UploadError (error : string)
| Uploaded (message : string) (assets : list (ProjectAsset.t * option Json)).

Section Upload.
Variable secure_filename : string -> string.
Variable strftime : Z -> string.
Variable json_loads : string -> option Json.
Variable clock : nat -> Z.

(** The loop of [upload_files] over the files of the request: for each file
    with a name, the [filename] and the [unique_filename] of the asset it
    adds to the session.  Each of them reads the clock; [tick] counts the
    readings. *)
Fixpoint upload_loop (project_id : Z) (files : list string) (tick : nat)
    : list (string * string) :=
  match files with
  | [] => []
  | file :: rest =>
      if (file =? "")%string then upload_loop project_id rest tick
      else
        let filename := secure_filename file in
        let timestamp := strftime (clock tick) in
        let unique_filename :=
          (str project_id ++ "_" ++ timestamp ++ "_" ++ filename)%string in
        (filename, unique_filename) :: upload_loop project_id rest (S tick)
  end.

(** The INSERTs of the commit that follows the loop, one per added asset in
    the order they were added: each row takes the next key, [version] 1 and,
    for [uploaded_at], a reading of the clock of its own. *)
Fixpoint insert_assets (project_id uploaded_by : Z) (asset_type metadata_assets : string)
    (added : list (string * string)) (tick : nat) (d : DB)
    : DB * list ProjectAsset.t :=
  match added with
  | [] => (d, [])
  | (filename, unique_filename) :: rest =>
      let asset :=
        ProjectAsset.mk (next_id (map ProjectAsset.id (assets d)))
                        project_id uploaded_by asset_type filename
                        unique_filename (Some metadata_assets) 1 (clock tick) in
      let (d', uploaded_assets) :=
        insert_assets project_id uploaded_by asset_type metadata_assets rest
                      (S tick) (set_assets (assets d ++ [asset]) d) in
      (d', asset :: uploaded_assets)
  end.

(** [upload_files]; [files] is the request's optional [files[]] part.  The
    answer is built from [to_dict] of the new rows after both commits, so a
    metadata text that does not parse gives 500 with the rows stored. *)
Definition upload_files (current_user : User.t) (project_id : Z)
    (files : option (list string)) (asset_type metadata_assets : option string)
    (s : Session) : (UploadBody * Z) * Session :=
  match Project_get (db s) project_id with
  | None => ((UploadError "Project not found", 404), s)
  | Some project =>
      (* Check if user has access *)
      let is_owner := Project.owner_id project =? User.id current_user in
      let is_assigned :=
        match find (fun st => (ProjectStep.project_id st =? project_id)
                              && (ProjectStep.assigned_user_id st =? User.id current_user))
                   (steps (db s)) with
        | Some _ => true
        | None => false
        end in
      if negb (is_owner || is_assigned)
      then ((UploadError "Access denied", 403), s)
      else
        match files with
        | None => ((UploadError "No files uploaded", 400), s)
        | Some files =>
            let asset_type := match asset_type with Some v => v | None => "general" end in
            let metadata_assets :=
              match metadata_assets with Some v => v | None => "{}" end in
            let added := upload_loop project_id files 0 in
            let readings := List.length added in
            let '(d, uploaded_assets) :=
              insert_assets (Project.id project) (User.id current_user) asset_type
                            metadata_assets added readings (db s) in
            let s := commit (with_db (fun _ => d) s) in
            (* Log action *)
            let count := str (Z.of_nat (List.length uploaded_assets)) in
            let s := log_action (clock (readings + readings)) (Project.id project)
                       (User.id current_user) "upload" None None
                       (Some ("Uploaded " ++ count ++ " file(s)")%string) s in
            match assets_to_dict json_loads uploaded_assets with
            | Some dicts =>
                ((Uploaded (count ++ " file(s) uploaded successfully")%string dicts,
                  200), s)
            | None => ((UploadError "Internal Server Error", 500), s)
            end
        end
  end.
End Upload.

(** ** Further scenarios *)

(** A create request whose steps are not given in workflow order. *)
Definition shuffled_data : ProjectData.t :=
  ProjectData.mk (Some "S") (Some "steps out of order")
    (Some [step_data 1 "Publish" charlie; step_data 3 "Draft" alice;
           step_data 2 "Review" bob]).

Definition db_shuffled : DB := after (create_project 100 diana shuffled_data) db_users.

Definition shuffled_project : Project.t :=
  Project.mk 1 "S" "steps out of order" 4 "In Progress" (Some 3) 100 100.

(** The error answers of the owner's routes. *)
Definition project_not_found : Response := mkResponse (Error "Project not found") 404.
Definition owner_only : Response :=
  mkResponse (Error "Only project owner can perform this action") 403.

(** What a step row says about who does what: everything but its status and
    completion time. *)
Definition assignment (s : ProjectStep.t) : Z * Z * Z * string * string * Z * Z :=
  (ProjectStep.id s, ProjectStep.project_id s, ProjectStep.step_number s,
   ProjectStep.step_name s, ProjectStep.task_description s,
   ProjectStep.assigned_user_id s, ProjectStep.created_at s).

(** The audit rows of a project, in insertion order. *)
Definition actions_of (d : DB) (pid : Z) : list WorkflowAction.t :=
  filter (fun a => WorkflowAction.project_id a =? pid) (actions d).

(** Primary keys of the notifications are distinct. *)
Definition unique_notification_ids (d : DB) : Prop :=
  NoDup (map Notification.id (notifications d)).

(** After SendBack by bob: alice has the notifications of the creation and of
    the send-back (keys 1 and 3), bob the one of the Forward (key 2). *)
Definition db_sent_back : DB :=
  after (send_back_step 102 bob 1 (Some "redo")) db_forwarded.

(** The files of an upload request that have a name. *)
Definition named (files : list string) : list string :=
  filter (fun file => negb (file =? "")%string) files.

(** Primary keys of the assets are distinct. *)
Definition unique_asset_ids (d : DB) : Prop := NoDup (map ProjectAsset.id (assets d)).

(** What every row of an upload request carries, whichever file it is
    for. *)
Definition stored_asset (current_user : User.t) (project_id : Z)
    (asset_type metadata_assets : string) (a : ProjectAsset.t) : Prop :=
  ProjectAsset.project_id a = project_id
  /\ ProjectAsset.uploaded_by a = User.id current_user
  /\ ProjectAsset.asset_type a = asset_type
  /\ ProjectAsset.metadata_assets a = Some metadata_assets
  /\ ProjectAsset.version a = 1.

(** The path stored for the [k]-th named file of a request, of secured name
    [name]. *)
Definition stored_path (strftime : Z -> string) (clock : nat -> Z) (project_id : Z)
    (k : nat) (name : string) : string :=
  (str project_id ++ "_" ++ strftime (clock k) ++ "_" ++ name)%string.

(** A metadata text that [to_dict] has to parse and cannot. *)
Definition unreadable (json_loads : string -> option Json) (text : string) : Prop :=
  text <> "" /\ json_loads text = None.

(** An asset with such a text. *)
Definition unreadable_asset (json_loads : string -> option Json)
    (a : ProjectAsset.t) : Prop :=
  exists text, ProjectAsset.metadata_assets a = Some text /\ unreadable json_loads text.

(** A stand-in for [json.loads] that reads the empty object and nothing
    else, and a clock that advances by one at each reading. *)
Definition json_sample (text : string) : option Json :=
  if (text =? "{}")%string then Some (JObject []) else None.

Definition clock_sample (k : nat) : Z := 105 + Z.of_nat k.

(** After an upload by bob for project 1 whose metadata is not JSON: the
    asset is stored with that text. *)
Definition db_uploaded : DB :=
  persisted db_created
    (commits (snd (upload_files (fun name => name) str json_sample clock_sample
                                bob 1 (Some ["a.txt"]) None (Some "not json")
                                (mkSession db_created [])))).

(** * Properties *)

(** ** Ordered queries *)

Section OrderByFacts.
Context {A : Type} (le : A -> A -> bool).
Hypothesis le_total : forall a b, le a b = true \/ le b a = true.
Hypothesis le_trans : forall a b c, le a b = true -> le b c = true -> le a c = true.

Lemma insert_by_hd (x : A) (l : list A) :
  hd_error (insert_by le x l)
  = Some (match hd_error l with
          | None => x
          | Some y => if le x y then x else y
          end).
Proof.
  destruct l as [|y t]; simpl; [reflexivity|].
  destruct (le x y); reflexivity.
Qed.

Lemma insert_by_not_nil (x : A) (l : list A) : insert_by le x l <> [].
Proof. destruct l as [|y t]; simpl; [|destruct (le x y)]; discriminate. Qed.

Lemma order_by_nil (l : list A) : order_by le l = [] -> l = [].
Proof.
  destruct l as [|a l]; [reflexivity|].
  simpl. intros H. now apply insert_by_not_nil in H.
Qed.

(** The first row of an ordered query is a row of the query, and no row
    comes before it in the order. *)
Lemma order_by_first (l : list A) (x : A) :
  hd_error (order_by le l) = Some x ->
  In x l /\ forall y, In y l -> le x y = true.
Proof.
  revert x. induction l as [|a l IH]; intros x; simpl; [discriminate|].
  rewrite insert_by_hd.
  destruct (hd_error (order_by le l)) as [y|] eqn:Hhd.
  - destruct (IH y eq_refl) as [Hin Hle].
    destruct (le a y) eqn:Hay; intros [= <-].
    + split; [now left|].
      intros z [<-|Hz].
      * destruct (le_total a a); assumption.
      * eapply le_trans; [exact Hay | now apply Hle].
    + split; [now right|].
      intros z [<-|Hz]; [|now apply Hle].
      destruct (le_total y a) as [H|H]; [exact H | congruence].
  - intros [= <-].
    assert (l = []) as ->.
    { apply order_by_nil. now destruct (order_by le l). }
    split; [now left|].
    intros z [<-|[]]. destruct (le_total a a); assumption.
Qed.

Lemma order_by_no_first (l : list A) :
  hd_error (order_by le l) = None -> l = [].
Proof.
  intros H. apply order_by_nil. now destruct (order_by le l).
Qed.
End OrderByFacts.

Lemma step_number_desc_total (a b : ProjectStep.t) :
  step_number_desc a b = true \/ step_number_desc b a = true.
Proof. unfold step_number_desc. rewrite !Z.leb_le. lia. Qed.

Lemma step_number_desc_trans (a b c : ProjectStep.t) :
  step_number_desc a b = true -> step_number_desc b c = true ->
  step_number_desc a c = true.
Proof. unfold step_number_desc. rewrite !Z.leb_le. lia. Qed.

Lemma step_number_asc_total (a b : ProjectStep.t) :
  step_number_asc a b = true \/ step_number_asc b a = true.
Proof. unfold step_number_asc. rewrite !Z.leb_le. lia. Qed.

Lemma step_number_asc_trans (a b c : ProjectStep.t) :
  step_number_asc a b = true -> step_number_asc b c = true ->
  step_number_asc a c = true.
Proof. unfold step_number_asc. rewrite !Z.leb_le. lia. Qed.

Section MapFacts.
Context {A : Type} (g : A -> A).

Lemma insert_by_map (le : A -> A -> bool) (x : A) (l : list A) :
  (forall a b, le (g a) (g b) = le a b) ->
  insert_by le (g x) (map g l) = map g (insert_by le x l).
Proof.
  intros Hle. induction l as [|y t IH]; simpl; [reflexivity|].
  rewrite Hle. destruct (le x y); simpl; [reflexivity|].
  now rewrite IH.
Qed.

Lemma order_by_map (le : A -> A -> bool) (l : list A) :
  (forall a b, le (g a) (g b) = le a b) ->
  order_by le (map g l) = map g (order_by le l).
Proof.
  intros Hle. induction l as [|x l IH]; simpl; [reflexivity|].
  rewrite IH. now apply insert_by_map.
Qed.

Lemma filter_map_same (P : A -> bool) (l : list A) :
  (forall a, P (g a) = P a) ->
  filter P (map g l) = map g (filter P l).
Proof.
  intros HP. induction l as [|x l IH]; simpl; [reflexivity|].
  rewrite HP, IH. now destruct (P x).
Qed.

Lemma hd_error_map (l : list A) :
  hd_error (map g l) = option_map g (hd_error l).
Proof. now destruct l. Qed.
End MapFacts.

(** ** The step lookups *)

Lemma steps_of_In (d : DB) (pid : Z) (s : ProjectStep.t) :
  In s (steps_of d pid) <-> In s (steps d) /\ ProjectStep.project_id s = pid.
Proof. unfold steps_of. rewrite filter_In, Z.eqb_eq. reflexivity. Qed.

Lemma Project_get_id (d : DB) (pid : Z) (p : Project.t) :
  Project_get d pid = Some p -> Project.id p = pid.
Proof.
  unfold Project_get. intros H. apply find_some in H.
  now rewrite Z.eqb_eq in H.
Qed.

Lemma get_current_step_Some (d : DB) (p : Project.t) (cs : ProjectStep.t) :
  get_current_step d p = Some cs ->
  Project.current_step_number p = Some (ProjectStep.step_number cs)
  /\ ProjectStep.step_number cs <> 0
  /\ In cs (steps d)
  /\ ProjectStep.project_id cs = Project.id p.
Proof.
  unfold get_current_step, truthy.
  destruct (Project.current_step_number p) as [n|]; [|discriminate].
  destruct (Z.eqb_spec n 0) as [->|Hn]; simpl; [discriminate|].
  intros H. apply find_some in H. destruct H as [Hin H].
  apply andb_prop in H. rewrite !Z.eqb_eq in H. destruct H as [H1 H2].
  subst n. auto.
Qed.

Lemma get_next_step_Some (d : DB) (p : Project.t) (n : Z) (ns : ProjectStep.t) :
  Project.current_step_number p = Some n ->
  get_next_step d p = Some ns ->
  In ns (steps d) /\ ProjectStep.project_id ns = Project.id p
  /\ next_lower d (Project.id p) n (ProjectStep.step_number ns).
Proof.
  unfold get_next_step. intros ->.
  destruct (negb (truthy (Some n))); [discriminate|].
  intros H.
  apply (order_by_first _ step_number_desc_total step_number_desc_trans) in H.
  destruct H as [Hin Hle].
  rewrite filter_In, steps_of_In, Z.ltb_lt in Hin.
  destruct Hin as [[Hin Hp] Hlt].
  split; [exact Hin|]. split; [exact Hp|].
  split; [exact Hlt|]. split; [now exists ns|].
  intros s Hs Hsp Hsn.
  assert (step_number_desc ns s = true) as Hd.
  { apply Hle. rewrite filter_In, steps_of_In, Z.ltb_lt. auto. }
  unfold step_number_desc in Hd. now rewrite Z.leb_le in Hd.
Qed.


Lemma get_previous_step_Some (d : DB) (p : Project.t) (n : Z) (ps : ProjectStep.t) :
  Project.current_step_number p = Some n ->
  get_previous_step d p = Some ps ->
  In ps (steps d) /\ ProjectStep.project_id ps = Project.id p
  /\ next_higher d (Project.id p) n (ProjectStep.step_number ps).
Proof.
  unfold get_previous_step. intros ->.
  destruct (negb (truthy (Some n))); [discriminate|].
  intros H.
  apply (order_by_first _ step_number_asc_total step_number_asc_trans) in H.
  destruct H as [Hin Hle].
  rewrite filter_In, steps_of_In, Z.gtb_lt in Hin.
  destruct Hin as [[Hin Hp] Hlt].
  split; [exact Hin|]. split; [exact Hp|].
  split; [exact Hlt|]. split; [now exists ps|].
  intros s Hs Hsp Hsn.
  assert (step_number_asc ps s = true) as Hd.
  { apply Hle. rewrite filter_In, steps_of_In, Z.gtb_lt. auto. }
  unfold step_number_asc in Hd. now rewrite Z.leb_le in Hd.
Qed.

Lemma get_previous_step_None (d : DB) (p : Project.t) (n : Z) :
  Project.current_step_number p = Some n -> n <> 0 ->
  get_previous_step d p = None ->
  is_max_step d (Project.id p) n.
Proof.
  unfold get_previous_step, truthy. intros -> Hn.
  destruct (Z.eqb_spec n 0) as [|_]; [contradiction|]. simpl.
  intros H. apply order_by_no_first in H.
  intros s Hs Hp.
  destruct (Z.le_gt_cases (ProjectStep.step_number s) n) as [Hle|Hgt]; [exact Hle|].
  assert (In s []) as [].
  rewrite <- H, filter_In, steps_of_In, Z.gtb_lt. auto with zarith.
Qed.

Lemma step_by_number_found (d : DB) (pid n : Z) (r : ProjectStep.t) :
  In r (steps d) -> ProjectStep.project_id r = pid -> ProjectStep.step_number r = n ->
  exists o, step_by_number d pid n = Some o
            /\ In o (steps d)
            /\ ProjectStep.project_id o = pid /\ ProjectStep.step_number o = n.
Proof.
  intros Hin Hp Hn. unfold step_by_number.
  destruct (find _ (steps d)) as [o|] eqn:Hf.
  - apply find_some in Hf. destruct Hf as [Ho Hb].
    apply andb_prop in Hb. rewrite !Z.eqb_eq in Hb. exists o. tauto.
  - apply (find_none _ _ Hf) in Hin.
    rewrite Hp, Hn, !Z.eqb_refl in Hin. discriminate.
Qed.

(** ** Row updates *)

Lemma find_map_key {A : Type} (key : A -> Z) (g : A -> A) (i : Z) (l : list A) :
  (forall x, key (g x) = key x) ->
  find (fun x => key x =? i) (map g l)
  = option_map g (find (fun x => key x =? i) l).
Proof.
  intros Hg. induction l as [|a l IH]; simpl; [reflexivity|].
  rewrite Hg. destruct (key a =? i); [reflexivity | exact IH].
Qed.

Lemma NoDup_key_inj {A : Type} (key : A -> Z) (l : list A) (x y : A) :
  NoDup (map key l) -> In x l -> In y l -> key x = key y -> x = y.
Proof.
  induction l as [|a l IH]; simpl; [intros _ []|].
  intros Hnd Hx Hy Hk. inversion Hnd as [|? ? Hnotin Hnd']; subst.
  destruct Hx as [<-|Hx], Hy as [<-|Hy].
  - reflexivity.
  - exfalso. apply Hnotin. rewrite Hk. now apply in_map.
  - exfalso. apply Hnotin. rewrite <- Hk. now apply in_map.
  - now apply IH.
Qed.

Lemma find_by_key {A : Type} (key : A -> Z) (l : list A) (x : A) :
  NoDup (map key l) -> In x l ->
  find (fun y => key y =? key x) l = Some x.
Proof.
  intros Hnd Hx.
  destruct (find (fun y => key y =? key x) l) as [y|] eqn:Hf.
  - apply find_some in Hf. destruct Hf as [Hy Hk]. rewrite Z.eqb_eq in Hk.
    f_equal. now apply (NoDup_key_inj key l).
  - apply (find_none _ _ Hf) in Hx. now rewrite Z.eqb_refl in Hx.
Qed.

Lemma ProjectStep_get_update_step (d : DB) (sid i : Z)
      (f : ProjectStep.t -> ProjectStep.t) :
  (forall s, ProjectStep.id (f s) = ProjectStep.id s) ->
  ProjectStep_get (update_step sid f d) i
  = option_map (fun s => if ProjectStep.id s =? sid then f s else s)
               (ProjectStep_get d i).
Proof.
  intros Hf. unfold ProjectStep_get, update_step. simpl.
  apply (find_map_key ProjectStep.id). intros s.
  destruct (ProjectStep.id s =? sid); [apply Hf | reflexivity].
Qed.

Lemma Project_get_update_project (d : DB) (now pid i : Z)
      (f : Project.t -> Project.t) :
  (forall p, Project.id (f p) = Project.id p) ->
  Project_get (update_project now pid f d) i
  = option_map (fun p => if Project.id p =? pid
                         then Project.set_updated_at now (f p) else p)
               (Project_get d i).
Proof.
  intros Hf. unfold Project_get, update_project. simpl.
  apply (find_map_key Project.id). intros p.
  destruct (Project.id p =? pid); [simpl; apply Hf | reflexivity].
Qed.

Lemma ProjectStep_get_logged now pid uid a n sid c d i :
  ProjectStep_get (logged now pid uid a n sid c d) i = ProjectStep_get d i.
Proof. reflexivity. Qed.

Lemma ProjectStep_get_notified now uid pid m d i :
  ProjectStep_get (notified now uid pid m d) i = ProjectStep_get d i.
Proof. reflexivity. Qed.

Lemma ProjectStep_get_update_project now pid f d i :
  ProjectStep_get (update_project now pid f d) i = ProjectStep_get d i.
Proof. reflexivity. Qed.

Lemma Project_get_logged now pid uid a n sid c d i :
  Project_get (logged now pid uid a n sid c d) i = Project_get d i.
Proof. reflexivity. Qed.

Lemma Project_get_notified now uid pid m d i :
  Project_get (notified now uid pid m d) i = Project_get d i.
Proof. reflexivity. Qed.

Lemma Project_get_update_step sid f d i :
  Project_get (update_step sid f d) i = Project_get d i.
Proof. reflexivity. Qed.

(** An update that keeps a step's project and number does not change which
    step is next, only the content of that row. *)
Lemma get_next_step_update_step (d : DB) (p : Project.t) (sid : Z)
      (f : ProjectStep.t -> ProjectStep.t) :
  (forall s, ProjectStep.project_id (f s) = ProjectStep.project_id s) ->
  (forall s, ProjectStep.step_number (f s) = ProjectStep.step_number s) ->
  get_next_step (update_step sid f d) p
  = option_map (fun s => if ProjectStep.id s =? sid then f s else s)
               (get_next_step d p).
Proof.
  intros Hp Hn. unfold get_next_step.
  destruct (negb (truthy (Project.current_step_number p))); [reflexivity|].
  destruct (Project.current_step_number p) as [n|]; [|reflexivity].
  unfold steps_of, update_step. simpl.
  set (g := fun s => if ProjectStep.id s =? sid then f s else s).
  assert (forall s, ProjectStep.project_id (g s) = ProjectStep.project_id s) as Hgp.
  { intros s. unfold g. destruct (ProjectStep.id s =? sid); [apply Hp | reflexivity]. }
  assert (forall s, ProjectStep.step_number (g s) = ProjectStep.step_number s) as Hgn.
  { intros s. unfold g. destruct (ProjectStep.id s =? sid); [apply Hn | reflexivity]. }
  rewrite (filter_map_same g), (filter_map_same g), (order_by_map g), hd_error_map.
  - reflexivity.
  - intros a b. unfold step_number_desc. now rewrite !Hgn.
  - intros a. now rewrite Hgn.
  - intros a. now rewrite Hgp.
Qed.

Lemma step_in_update_step (sid : Z) (f : ProjectStep.t -> ProjectStep.t) (d : DB)
      (s' : ProjectStep.t) :
  In s' (steps (update_step sid f d)) <->
  exists s, In s (steps d) /\ s' = if ProjectStep.id s =? sid then f s else s.
Proof.
  unfold update_step. cbn [steps set_steps]. rewrite in_map_iff.
  split; intros (s & H1 & H2); exists s; [split; [exact H2 | now symmetry] |].
  split; [now symmetry | exact H1].
Qed.

Lemma same_id_same_step (d : DB) (a b : ProjectStep.t) :
  unique_step_ids d -> In a (steps d) -> In b (steps d) ->
  ProjectStep.id a = ProjectStep.id b -> a = b.
Proof. intros Hu. now apply (NoDup_key_inj ProjectStep.id). Qed.

(** ** Primary keys of the steps *)

Lemma next_id_above (l : list Z) (x : Z) : In x l -> x < next_id l.
Proof.
  unfold next_id. induction l as [|a l IH]; cbn [fold_right In]; [intros []|].
  intros [<-|Hx].
  - pose proof (Z.le_max_l a (fold_right Z.max 0 l)). lia.
  - specialize (IH Hx). pose proof (Z.le_max_r a (fold_right Z.max 0 l)). lia.
Qed.

Lemma next_id_fresh (l : list Z) : ~ In (next_id l) l.
Proof. intros H. apply next_id_above in H. lia. Qed.

Lemma NoDup_map_filter {A : Type} (key : A -> Z) (P : A -> bool) (l : list A) :
  NoDup (map key l) -> NoDup (map key (filter P l)).
Proof.
  induction l as [|a l IH]; simpl; [auto|].
  intros H. inversion H as [|? ? Hnotin Hnd]; subst.
  destruct (P a); simpl; [|now apply IH].
  constructor; [|now apply IH].
  intros Hin. apply Hnotin. apply in_map_iff in Hin.
  destruct Hin as (x & Hx & Hin). apply filter_In in Hin.
  apply in_map_iff. exists x. tauto.
Qed.

Lemma unique_step_ids_update_step (sid : Z) (f : ProjectStep.t -> ProjectStep.t) (d : DB) :
  (forall s, ProjectStep.id (f s) = ProjectStep.id s) ->
  unique_step_ids d -> unique_step_ids (update_step sid f d).
Proof.
  intros Hf H. unfold unique_step_ids, update_step. cbn [steps set_steps].
  rewrite map_map.
  match goal with
  | |- NoDup ?l => replace l with (map ProjectStep.id (steps d)); [exact H|]
  end.
  apply map_ext. intros s.
  destruct (ProjectStep.id s =? sid); [now rewrite Hf | reflexivity].
Qed.

Lemma unique_step_ids_add_step now pid f (s : Session) :
  unique_step_ids (db s) -> unique_step_ids (db (add_step now pid f s)).
Proof.
  destruct f as [[[n name] task] uid].
  unfold unique_step_ids, add_step. cbn [db with_db steps set_steps].
  rewrite map_app. simpl. intros H.
  apply NoDup_app; [exact H | repeat constructor; intros [] |].
  intros x Hx [<-|[]]. now apply next_id_fresh in Hx.
Qed.

Lemma unique_step_ids_create_steps now pid l (s s' : Session) :
  create_steps now pid l s = Some s' ->
  unique_step_ids (db s) -> unique_step_ids (db s').
Proof.
  revert s. induction l as [|sd l IH]; intros s; simpl.
  - now intros [= <-].
  - destruct (StepData.fields sd) as [f|]; [|discriminate].
    intros H Hu. apply (IH _ H). now apply unique_step_ids_add_step.
Qed.

(** ** The loops over the steps of a request *)

Lemma fields_assigned_user_id (step_data : StepData.t) n name task uid :
  StepData.fields step_data = Some (n, name, task, uid) ->
  StepData.assigned_user_id step_data = Some uid
  /\ StepData.step_number step_data = Some n.
Proof.
  unfold StepData.fields.
  destruct (StepData.step_number step_data), (StepData.step_name step_data),
    (StepData.task_description step_data), (StepData.assigned_user_id step_data);
    try discriminate.
  intros [= -> -> -> ->]. auto.
Qed.

Lemma validate_steps_not_found (d : DB) (l : list StepData.t) :
  Forall well_formed l -> Exists (assignee_missing d) l ->
  exists uid,
    User_get d uid = None
    /\ validate_steps d l
       = Some (mkResponse (Error ("User " ++ str uid ++ " not found")) 404).
Proof.
  induction l as [|sd l IH]; intros Hwf Hex; [inversion Hex|].
  inversion Hwf as [|? ? Hsd Hl]; subst. simpl.
  destruct (StepData.fields sd) as [[[[n name] task] uid]|] eqn:Hf;
    [|now contradiction Hsd].
  destruct (User_get d uid) as [u|] eqn:Hu.
  - apply IH; [exact Hl|].
    inversion Hex as [? ? (uid' & Ha & Hm)|]; subst; [|assumption].
    apply fields_assigned_user_id in Hf. destruct Hf as [Hf _].
    congruence.
  - exists uid. auto.
Qed.

Lemma validate_steps_passes (d : DB) (l : list StepData.t) :
  Forall well_formed l -> Forall (assignee_exists d) l ->
  validate_steps d l = None.
Proof.
  induction l as [|sd l IH]; intros Hwf Hex; [reflexivity|].
  inversion Hwf as [|? ? Hsd Hl]; subst.
  inversion Hex as [|? ? (uid' & Ha & Hu') Hl']; subst. simpl.
  destruct (StepData.fields sd) as [[[[n name] task] uid]|] eqn:Hf;
    [|now contradiction Hsd].
  apply fields_assigned_user_id in Hf. destruct Hf as [Hf _].
  assert (uid' = uid) as -> by congruence.
  destruct (User_get d uid); [now apply IH | now contradiction Hu'].
Qed.

Lemma validate_steps_status (d : DB) (l : list StepData.t) (resp : Response) :
  validate_steps d l = Some resp -> status_code resp = 400 \/ status_code resp = 404.
Proof.
  induction l as [|sd l IH]; simpl; [discriminate|].
  destruct (StepData.fields sd) as [[[[n name] task] uid]|].
  - destruct (User_get d uid); [exact IH|]. intros [= <-]. now right.
  - intros [= <-]. now left.
Qed.

Lemma step_numbers_well_formed (l : list StepData.t) :
  Forall well_formed l ->
  exists ns, step_numbers l = Some ns /\ List.length ns = List.length l.
Proof.
  induction l as [|sd l IH]; intros Hwf; [now exists []|].
  inversion Hwf as [|? ? Hsd Hl]; subst. simpl.
  destruct (IH Hl) as (ns & -> & Hlen).
  destruct (StepData.fields sd) as [[[[n name] task] uid]|] eqn:Hf;
    [|now contradiction Hsd].
  apply fields_assigned_user_id in Hf. destruct Hf as [_ ->].
  exists (n :: ns). simpl. auto.
Qed.

Lemma create_steps_well_formed (now pid : Z) (l : list StepData.t) (s : Session) :
  Forall well_formed l -> exists s', create_steps now pid l s = Some s'.
Proof.
  revert s. induction l as [|sd l IH]; intros s Hwf; [now exists s|].
  inversion Hwf as [|? ? Hsd Hl]; subst. simpl.
  destruct (StepData.fields sd) as [f|] eqn:Hf; [|now contradiction Hsd].
  now apply IH.
Qed.

Lemma add_step_commits now pid f s : commits (add_step now pid f s) = commits s.
Proof. now destruct f as [[[n name] task] uid]. Qed.

Lemma create_steps_commits (now pid : Z) (l : list StepData.t) (s s' : Session) :
  create_steps now pid l s = Some s' -> commits s' = commits s.
Proof.
  revert s. induction l as [|sd l IH]; intros s; simpl.
  - now intros [= <-].
  - destruct (StepData.fields sd) as [f|]; [|discriminate].
    intros H. apply IH in H. now rewrite H, add_step_commits.
Qed.

Lemma fold_left_max_ge (l : list Z) (x : Z) :
  x <= fold_left Z.max l x /\ forall y, In y l -> y <= fold_left Z.max l x.
Proof.
  revert x. induction l as [|a l IH]; intros x; simpl.
  - split; [lia | intros y []].
  - destruct (IH (Z.max x a)) as [H1 H2]. split; [lia|].
    intros y [<-|Hy]; [lia | now apply H2].
Qed.

Lemma fold_left_max_In (l : list Z) (x : Z) :
  fold_left Z.max l x = x \/ In (fold_left Z.max l x) l.
Proof.
  revert x. induction l as [|a l IH]; intros x; simpl; [now left|].
  destruct (IH (Z.max x a)) as [H|H]; [|now right; right].
  rewrite H. destruct (Z.max_spec x a) as [[_ ->]|[_ ->]]; auto.
Qed.

(** [max] returns an element of the list that no element exceeds. *)
Lemma max_list_Some (l : list Z) (m : Z) :
  max_list l = Some m -> In m l /\ forall y, In y l -> y <= m.
Proof.
  destruct l as [|x l]; simpl; [discriminate|]. intros [= <-].
  destruct (fold_left_max_ge l x) as [H1 H2].
  split.
  - destruct (fold_left_max_In l x) as [->|H]; auto.
  - intros y [<-|Hy]; auto.
Qed.

Lemma set_steps_same (d : DB) : set_steps (steps d ++ []) d = d.
Proof. destruct d. unfold set_steps. simpl. now rewrite app_nil_r. Qed.

(** The creating loop appends one Pending row per step of the request, in
    the request's order, and touches nothing else. *)
Lemma create_steps_db (now pid : Z) (l : list StepData.t) (s s' : Session) :
  create_steps now pid l s = Some s' ->
  commits s' = commits s
  /\ exists rows,
      db s' = set_steps (steps (db s) ++ rows) (db s)
      /\ Forall (pending_row now pid) rows
      /\ map row_fields rows = map StepData.fields l.
Proof.
  revert s. induction l as [|sd l IH]; intros s; simpl.
  - intros [= <-]. split; [reflexivity|].
    exists []. rewrite set_steps_same. auto.
  - destruct (StepData.fields sd) as [[[[n name] task] uid]|] eqn:Hf; [|discriminate].
    intros H. apply IH in H. destruct H as (Hc & rows & Hdb & Hrows & Hmap).
    split; [now rewrite Hc|].
    eexists (_ :: rows). split; [|split].
    + rewrite Hdb. unfold add_step, with_db, set_steps. simpl.
      rewrite <- app_assoc. reflexivity.
    + constructor; [|exact Hrows]. repeat split.
    + simpl. now rewrite Hmap.
Qed.

Lemma step_numbers_fields (l : list StepData.t) (rows : list ProjectStep.t) :
  map row_fields rows = map StepData.fields l ->
  step_numbers l = Some (map ProjectStep.step_number rows).
Proof.
  revert rows. induction l as [|sd l IH]; intros [|r rows]; simpl;
    try discriminate; [reflexivity|].
  intros [= Hr Hrest]. rewrite (IH _ Hrest).
  symmetry in Hr. apply fields_assigned_user_id in Hr. destruct Hr as [_ ->].
  reflexivity.
Qed.

Lemma edit_steps_create_steps (now pid : Z) (l : list StepData.t) (s : Session) :
  edit_steps now pid l s
  = match create_steps now pid l s with
    | Some s' => inr s'
    | None => inl (mkResponse (Error "Invalid step data") 400)
    end.
Proof.
  revert s. induction l as [|sd l IH]; intros s; simpl; [reflexivity|].
  destruct (StepData.fields sd); [apply IH | reflexivity].
Qed.

Lemma pending_rows_of_project (now pid : Z) (rows : list ProjectStep.t) :
  Forall (pending_row now pid) rows ->
  filter (fun s => ProjectStep.project_id s =? pid) rows = rows.
Proof.
  induction 1 as [|r rows (Hr & _) _ IH]; [reflexivity|].
  simpl. rewrite Hr, Z.eqb_refl. now f_equal.
Qed.

Lemma filter_after_delete {A : Type} (P : A -> bool) (l : list A) :
  filter P (filter (fun x => negb (P x)) l) = [].
Proof.
  induction l as [|x l IH]; simpl; [reflexivity|].
  destruct (P x) eqn:Hx; simpl; [exact IH|]. now rewrite Hx.
Qed.

Lemma find_new_project (l : list Project.t) (project : Project.t) :
  Project.id project = next_id (map Project.id l) ->
  find (fun p => Project.id p =? Project.id project) (l ++ [project]) = Some project.
Proof.
  intros Hid.
  assert (forall p, In p l -> (Project.id p =? Project.id project) = false) as Hfresh.
  { intros p Hp. apply Z.eqb_neq. rewrite Hid.
    pose proof (next_id_above (map Project.id l) (Project.id p) (in_map _ _ _ Hp)).
    lia. }
  induction l as [|a l IH]; simpl.
  - now rewrite Z.eqb_refl.
  - rewrite (Hfresh a (or_introl eq_refl)).
    assert (find (fun p => Project.id p =? Project.id project) (l ++ [project])
            = Some project) as Hl; [|exact Hl].
    clear IH.
    assert (forall p, In p l -> (Project.id p =? Project.id project) = false) as Hl.
    { intros p Hp. apply Hfresh. now right. }
    clear Hfresh Hid. induction l as [|b l IH]; simpl.
    + now rewrite Z.eqb_refl.
    + rewrite (Hl b (or_introl eq_refl)). apply IH.
      intros p Hp. apply Hl. now right.
Qed.

(** ** What each route commits *)



Section Transitions.
Variables (d : DB) (project_id : Z) (project : Project.t)
          (current_step : ProjectStep.t) (now : Z) (actor : User.t).
Hypothesis Hproject : Project_get d project_id = Some project.
Hypothesis Hcurrent : get_current_step d project = Some current_step.
Hypothesis Hactor : ProjectStep.assigned_user_id current_step = User.id actor.

Lemma forward_step_to_next (comments : option string) (next_step : ProjectStep.t) :
  get_next_step (update_step (ProjectStep.id current_step) (complete now) d) project
  = Some next_step ->
  let d1 := forwarded_db now actor comments project current_step next_step d in
  let d2 := notified now (ProjectStep.assigned_user_id next_step) project_id
                     (forward_message project next_step) d1 in
  request (forward_step now actor project_id comments) d
  = (mkResponse (MessageProject ("Project forwarded to Step "
                                 ++ str (ProjectStep.step_number next_step))
                                (to_dict d2 project)) 200,
     [d1; d2; d2]).
Proof.
  intros Hnext. unfold request, forward_step. simpl.
  rewrite Hproject, Hcurrent, Hactor, Z.eqb_refl. simpl.
  unfold complete in Hnext. rewrite Hnext.
  rewrite <- (Project_get_id _ _ _ Hproject). reflexivity.
Qed.

Lemma forward_step_to_end (comments : option string) :
  get_next_step (update_step (ProjectStep.id current_step) (complete now) d) project
  = None ->
  let d1 := completed_db now actor comments project current_step d in
  let d2 := notified now (Project.owner_id project) project_id
                     (complete_message project) d1 in
  request (forward_step now actor project_id comments) d
  = (mkResponse (MessageProject "Project completed successfully"
                                (to_dict d2 project)) 200,
     [d1; d2; d2]).
Proof.
  intros Hnext. unfold request, forward_step. simpl.
  rewrite Hproject, Hcurrent, Hactor, Z.eqb_refl. simpl.
  unfold complete in Hnext. rewrite Hnext.
  rewrite <- (Project_get_id _ _ _ Hproject). reflexivity.
Qed.

Lemma send_back_step_to_previous (comment : string) (previous_step : ProjectStep.t) :
  comment <> "" ->
  get_previous_step d project = Some previous_step ->
  let d1 := sent_back_db now actor comment project current_step previous_step d in
  let d2 := notified now (ProjectStep.assigned_user_id previous_step) project_id
                     (send_back_message project previous_step comment) d1 in
  request (send_back_step now actor project_id (Some comment)) d
  = (mkResponse (MessageProject ("Project sent back to Step "
                                 ++ str (ProjectStep.step_number previous_step))
                                (to_dict d2 project)) 200,
     [d1; d2; d2]).
Proof.
  intros Hc Hprev. unfold request, send_back_step. simpl.
  rewrite Hproject, Hcurrent, Hactor, Z.eqb_refl. simpl.
  destruct (String.eqb_spec comment "") as [|_]; [contradiction|]. simpl.
  rewrite Hprev.
  rewrite <- (Project_get_id _ _ _ Hproject). reflexivity.
Qed.
End Transitions.

(** [forward_step] answers with an error and commits nothing, or moves the
    project to the next step, or completes it. *)
Lemma forward_step_cases (now : Z) (actor : User.t) (project_id : Z)
      (comments : option string) (d : DB) :
  (400 <= status_code (fst (request (forward_step now actor project_id comments) d))
   /\ snd (request (forward_step now actor project_id comments) d) = [])
  \/ (exists project current_step next_step,
         let d1 := forwarded_db now actor comments project current_step next_step d in
         let d2 := notified now (ProjectStep.assigned_user_id next_step) project_id
                            (forward_message project next_step) d1 in
         status_code (fst (request (forward_step now actor project_id comments) d)) = 200
         /\ snd (request (forward_step now actor project_id comments) d) = [d1; d2; d2])
  \/ (exists project current_step,
         let d1 := completed_db now actor comments project current_step d in
         let d2 := notified now (Project.owner_id project) project_id
                            (complete_message project) d1 in
         status_code (fst (request (forward_step now actor project_id comments) d)) = 200
         /\ snd (request (forward_step now actor project_id comments) d) = [d1; d2; d2]).
Proof.
  destruct (Project_get d project_id) as [project|] eqn:Hp.
  2:{ left. unfold request, forward_step. cbn [db]. rewrite Hp.
      simpl. split; [lia | reflexivity]. }
  destruct (get_current_step d project) as [current_step|] eqn:Hcs.
  2:{ left. unfold request, forward_step. cbn [db]. rewrite Hp, Hcs.
      simpl. split; [lia | reflexivity]. }
  destruct (Z.eqb_spec (ProjectStep.assigned_user_id current_step) (User.id actor))
    as [Hactor|Hne].
  2:{ left. unfold request, forward_step. cbn [db]. rewrite Hp, Hcs.
      destruct (Z.eqb_spec (ProjectStep.assigned_user_id current_step) (User.id actor));
        [contradiction|].
      simpl. split; [lia | reflexivity]. }
  right.
  destruct (get_next_step (update_step (ProjectStep.id current_step) (complete now) d)
                          project) as [next_step|] eqn:Hnext.
  - left. exists project, current_step, next_step.
    rewrite (forward_step_to_next d project_id project current_step now actor
               Hp Hcs Hactor comments next_step Hnext).
    split; reflexivity.
  - right. exists project, current_step.
    rewrite (forward_step_to_end d project_id project current_step now actor
               Hp Hcs Hactor comments Hnext).
    split; reflexivity.
Qed.

(** [send_back_step] answers with an error and commits nothing, or moves the
    project to the previous step. *)
Lemma send_back_step_cases (now : Z) (actor : User.t) (project_id : Z)
      (comments : option string) (d : DB) :
  (400 <= status_code (fst (request (send_back_step now actor project_id comments) d))
   /\ snd (request (send_back_step now actor project_id comments) d) = [])
  \/ (exists project current_step previous_step comment,
         let d1 := sent_back_db now actor comment project current_step previous_step d in
         let d2 := notified now (ProjectStep.assigned_user_id previous_step) project_id
                            (send_back_message project previous_step comment) d1 in
         comments = Some comment
         /\ status_code (fst (request (send_back_step now actor project_id comments) d))
            = 200
         /\ snd (request (send_back_step now actor project_id comments) d)
            = [d1; d2; d2]).
Proof.
  destruct (Project_get d project_id) as [project|] eqn:Hp.
  2:{ left. unfold request, send_back_step. cbn [db]. rewrite Hp.
      simpl. split; [lia | reflexivity]. }
  destruct (get_current_step d project) as [current_step|] eqn:Hcs.
  2:{ left. unfold request, send_back_step. cbn [db]. rewrite Hp, Hcs.
      simpl. split; [lia | reflexivity]. }
  destruct (Z.eqb_spec (ProjectStep.assigned_user_id current_step) (User.id actor))
    as [Hactor|Hne].
  2:{ left. unfold request, send_back_step. cbn [db]. rewrite Hp, Hcs.
      destruct (Z.eqb_spec (ProjectStep.assigned_user_id current_step) (User.id actor));
        [contradiction|].
      simpl. split; [lia | reflexivity]. }
  destruct (truthy_str comments) eqn:Hc.
  2:{ left. unfold request, send_back_step. cbn [db].
      rewrite Hp, Hcs, Hactor, Z.eqb_refl, Hc.
      simpl. split; [lia | reflexivity]. }
  destruct comments as [comment|]; [|discriminate].
  assert (comment <> "") as Hcomment.
  { intros ->. discriminate. }
  destruct (get_previous_step d project) as [previous_step|] eqn:Hprev.
  2:{ left. unfold request, send_back_step. cbn [db].
      rewrite Hp, Hcs, Hactor, Z.eqb_refl, Hc, Hprev.
      simpl. split; [lia | reflexivity]. }
  right. exists project, current_step, previous_step, comment.
  rewrite (send_back_step_to_previous d project_id project current_step now actor
             Hp Hcs Hactor comment previous_step Hcomment Hprev).
  split; [reflexivity|]. split; reflexivity.
Qed.

(** An error response of [create_project] comes with nothing committed. *)
Lemma create_project_failure (now : Z) (current_user : User.t)
      (data : ProjectData.t) (d : DB) :
  status_code (fst (request (create_project now current_user data) d)) <> 201 ->
  snd (request (create_project now current_user data) d) = [].
Proof.
  unfold request, create_project.
  destruct (ProjectData.project_name data) as [project_name|]; [|reflexivity].
  destruct (ProjectData.description data) as [description|]; [|reflexivity].
  destruct (ProjectData.steps data) as [[|sd l]|]; [reflexivity| |reflexivity].
  cbn [db].
  destruct (validate_steps d (sd :: l)) as [resp|]; [reflexivity|].
  destruct (step_numbers (sd :: l)) as [numbers|]; [|reflexivity].
  destruct (max_list numbers) as [highest_step|]; [|reflexivity].
  match goal with
  | |- context [create_steps ?n ?p ?l ?s] => destruct (create_steps n p l s) as [s'|]
  end; [|reflexivity].
  simpl. intros H. now contradiction H.
Qed.

(** [create_project] either answers with an error and commits nothing, or
    answers 201 after three commits: the project and its steps, then the
    audit row, then the notification. *)
Lemma create_project_run (now : Z) (current_user : User.t)
      (data : ProjectData.t) (d : DB) :
  (400 <= status_code (fst (request (create_project now current_user data) d))
   /\ snd (request (create_project now current_user data) d) = [])
  \/ exists d1 highest_step_obj message,
      status_code (fst (request (create_project now current_user data) d)) = 201
      /\ snd (request (create_project now current_user data) d)
         = [d1;
            logged now (next_id (map Project.id (projects d))) (User.id current_user)
                   "create" None None (Some "Project created") d1;
            notified now (ProjectStep.assigned_user_id highest_step_obj)
                     (next_id (map Project.id (projects d))) message
              (logged now (next_id (map Project.id (projects d))) (User.id current_user)
                      "create" None None (Some "Project created") d1)]
      /\ actions d1 = actions d
      /\ notifications d1 = notifications d
      /\ (unique_step_ids d -> unique_step_ids d1).
Proof.
  unfold request, create_project.
  destruct (ProjectData.project_name data) as [project_name|];
    [|left; simpl; split; [lia | reflexivity]].
  destruct (ProjectData.description data) as [description|];
    [|left; simpl; split; [lia | reflexivity]].
  destruct (ProjectData.steps data) as [[|sd l]|];
    [left; simpl; split; [lia | reflexivity] | |left; simpl; split; [lia | reflexivity]].
  cbn [db].
  destruct (validate_steps d (sd :: l)) as [resp|] eqn:Hv.
  { left. simpl. split; [|reflexivity].
    destruct (validate_steps_status _ _ _ Hv) as [-> | ->]; lia. }
  destruct (step_numbers (sd :: l)) as [numbers|] eqn:Hnum;
    [|left; simpl; split; [lia | reflexivity]].
  destruct (max_list numbers) as [highest_step|] eqn:Hmax;
    [|left; simpl; split; [lia | reflexivity]].
  match goal with
  | |- context [create_steps ?n ?p ?l ?s] =>
      destruct (create_steps n p l s) as [s'|] eqn:Hcreate
  end; [|left; simpl; split; [lia | reflexivity]].
  right.
  pose proof (unique_step_ids_create_steps _ _ _ _ _ Hcreate) as Hu.
  apply create_steps_db in Hcreate.
  destruct Hcreate as (Hc & rows & Hdb & Hrows & Hmap).
  simpl in Hc, Hdb.
  rewrite (step_numbers_fields _ _ Hmap) in Hnum. injection Hnum as <-.
  apply max_list_Some in Hmax. destruct Hmax as [Hmax _].
  apply in_map_iff in Hmax. destruct Hmax as (r & Hr & Hrin).
  assert (ProjectStep.project_id r = next_id (map Project.id (projects d))) as Hrp.
  { rewrite Forall_forall in Hrows. now apply Hrows. }
  destruct s' as [d' c']. simpl in Hc, Hu. cbn [db] in Hdb. subst c'.
  cbn [db with_db commits].
  match goal with
  | |- context [step_by_number ?dd ?p ?n] =>
      destruct (step_by_number_found dd p n r) as (o & -> & _)
  end.
  { rewrite Hdb. simpl. apply in_or_app. now right. }
  { exact Hrp. }
  { exact Hr. }
  unfold create_notification, log_action, commit.
  cbn [db with_db commits fst snd app status_code].
  match goal with
  | |- context [update_step (ProjectStep.id o) ?f ?x] =>
      exists (update_step (ProjectStep.id o) f x)
  end.
  exists o. eexists.
  split; [reflexivity|]. split; [reflexivity|].
  split; [now rewrite Hdb|]. split; [now rewrite Hdb|].
  intros H. apply unique_step_ids_update_step; [reflexivity|]. now apply Hu.
Qed.

(** The database a successful [create_project] leaves: the new project, one
    Pending row per step of the request, the first row with the highest
    number marked In Progress, the create audit row and the notification. *)
Lemma create_project_created (now : Z) (current_user : User.t)
      (data : ProjectData.t) (d : DB) :
  status_code (fst (request (create_project now current_user data) d)) = 201 ->
  exists name description rows highest_step highest_step_obj message,
    let pid := next_id (map Project.id (projects d)) in
    let project := Project.mk pid name description (User.id current_user)
                              "In Progress" None now now in
    let d0 := set_steps (steps d ++ rows)
                (set_projects (projects d ++ [project]) d) in
    Forall (pending_row now pid) rows
    /\ max_list (map ProjectStep.step_number rows) = Some highest_step
    /\ step_by_number d0 pid highest_step = Some highest_step_obj
    /\ (unique_step_ids d -> unique_step_ids d0)
    /\ (forall l, ProjectData.steps data = Some l ->
                  step_numbers l = Some (map ProjectStep.step_number rows))
    /\ after (create_project now current_user data) d
       = notified now (ProjectStep.assigned_user_id highest_step_obj) pid message
           (logged now pid (User.id current_user) "create" None None
                   (Some "Project created")
              (update_step (ProjectStep.id highest_step_obj)
                 (ProjectStep.set_status "In Progress")
                 (update_project now pid
                    (Project.set_current_step_number (Some highest_step)) d0))).
Proof.
  unfold after, request, create_project.
  destruct (ProjectData.project_name data) as [project_name|]; [|simpl; discriminate].
  destruct (ProjectData.description data) as [description|]; [|simpl; discriminate].
  destruct (ProjectData.steps data) as [[|sd l]|]; [simpl; discriminate| |simpl; discriminate].
  cbn [db].
  destruct (validate_steps d (sd :: l)) as [resp|] eqn:Hv.
  { simpl. destruct (validate_steps_status _ _ _ Hv) as [-> | ->]; discriminate. }
  destruct (step_numbers (sd :: l)) as [numbers|] eqn:Hnum; [|simpl; discriminate].
  destruct (max_list numbers) as [highest_step|] eqn:Hmax; [|simpl; discriminate].
  match goal with
  | |- context [create_steps ?n ?p ?l ?s] =>
      destruct (create_steps n p l s) as [s'|] eqn:Hcreate
  end; [|simpl; discriminate].
  intros _.
  pose proof (unique_step_ids_create_steps _ _ _ _ _ Hcreate) as Hu.
  apply create_steps_db in Hcreate.
  destruct Hcreate as (Hc & rows & Hdb & Hrows & Hmap).
  pose proof Hnum as Hnum'.
  rewrite (step_numbers_fields _ _ Hmap) in Hnum. injection Hnum as <-.
  pose proof Hmax as Hmax'.
  apply max_list_Some in Hmax. destruct Hmax as [Hmax _].
  apply in_map_iff in Hmax. destruct Hmax as (r & Hr & Hrin).
  assert (ProjectStep.project_id r = next_id (map Project.id (projects d))) as Hrp.
  { rewrite Forall_forall in Hrows. now apply Hrows. }
  destruct s' as [d' c']. simpl in Hc, Hu. cbn [db with_db] in Hdb. subst c' d'.
  cbn [db with_db commits].
  match goal with
  | |- context [step_by_number ?dd ?p ?n] =>
      destruct (step_by_number_found dd p n r) as (o & Ho & _)
  end.
  { simpl. apply in_or_app. now right. }
  { exact Hrp. }
  { exact Hr. }
  rewrite Ho.
  unfold create_notification, log_action, commit.
  cbn [db with_db commits fst snd app status_code persisted last].
  exists project_name, description, rows, highest_step, o. eexists.
  cbv zeta.
  split; [exact Hrows|]. split; [exact Hmax'|].
  split; [rewrite <- Ho; reflexivity|].
  split; [intros H; now apply Hu|].
  split; [intros l' [= <-]; rewrite Hnum'; reflexivity|].
  reflexivity.
Qed.

(** A request whose steps are all well formed, with existing assignees, is
    accepted, whatever the step numbers are. *)
Lemma create_project_accepts (now : Z) (current_user : User.t) (d : DB)
      (name description : string) (l : list StepData.t) :
  l <> [] -> Forall well_formed l -> Forall (assignee_exists d) l ->
  status_code (fst (request (create_project now current_user
                               (ProjectData.mk (Some name) (Some description) (Some l))) d))
  = 201.
Proof.
  intros Hne Hwf Hex.
  unfold request, create_project. cbn [ProjectData.project_name
    ProjectData.description ProjectData.steps db].
  destruct l as [|sd l]; [now contradiction Hne|].
  rewrite (validate_steps_passes _ _ Hwf Hex).
  destruct (step_numbers_well_formed _ Hwf) as (ns & -> & Hlen).
  destruct ns as [|n ns]; [discriminate|].
  cbn [max_list].
  match goal with
  | |- context [create_steps ?n ?p ?l ?s] =>
      destruct (create_steps_well_formed n p l s Hwf) as (s' & ->)
  end.
  reflexivity.
Qed.

Lemma edit_project_run (now : Z) (current_user : User.t) (project_id : Z)
      (data : ProjectData.t) (d : DB) :
  (400 <= status_code (fst (request (edit_project now current_user project_id data) d))
   /\ snd (request (edit_project now current_user project_id data) d) = [])
  \/ exists d1,
      status_code (fst (request (edit_project now current_user project_id data) d)) = 200
      /\ snd (request (edit_project now current_user project_id data) d)
         = [d1; logged now project_id (User.id current_user) "edit" None None
                       (Some "Project edited") d1]
      /\ actions d1 = actions d
      /\ notifications d1 = notifications d
      /\ (unique_step_ids d -> unique_step_ids d1).
Proof.
  unfold request, edit_project, project_owner_required. cbn [db].
  destruct (Project_get d project_id) as [project|] eqn:Hp;
    [|left; simpl; split; [lia | reflexivity]].
  destruct (negb (Project.owner_id project =? User.id current_user));
    [left; simpl; split; [lia | reflexivity]|].
  pose proof (Project_get_id _ _ _ Hp) as Hid.
  unfold edit_project_body. rewrite Hid.
  set (s0 := match ProjectData.description data with
             | Some v => _
             | None => _
             end).
  assert (commits s0 = [] /\ actions (db s0) = actions d
          /\ notifications (db s0) = notifications d
          /\ steps (db s0) = steps d) as (Hc0 & Ha0 & Hn0 & Hs0).
  { unfold s0. destruct (ProjectData.description data),
      (ProjectData.project_name data); repeat split. }
  clearbody s0.
  destruct (ProjectData.steps data) as [l|].
  - rewrite edit_steps_create_steps.
    match goal with
    | |- context [create_steps ?n ?p ?l ?s] =>
        destruct (create_steps n p l s) as [s'|] eqn:Hcreate
    end; [|left; simpl; split; [lia | exact Hc0]].
    pose proof (unique_step_ids_create_steps _ _ _ _ _ Hcreate) as Hu.
    apply create_steps_db in Hcreate.
    destruct Hcreate as (Hc & rows & Hdb & _ & _).
    destruct s' as [d' c']. simpl in Hc, Hdb, Hu. subst c'.
    destruct (step_numbers l) as [numbers|];
      [|left; simpl; split; [lia | now rewrite Hc0]].
    destruct (max_list numbers) as [highest_step|];
      [|left; simpl; split; [lia | now rewrite Hc0]].
    right. unfold log_action, commit.
    cbn [db with_db commits fst snd app status_code]. rewrite Hc0.
    eexists. split; [reflexivity|]. split; [reflexivity|].
    split; [rewrite Hdb; simpl; auto|]. split; [rewrite Hdb; simpl; auto|].
    intros H. apply Hu. unfold unique_step_ids. cbn [steps set_steps].
    rewrite Hs0. now apply NoDup_map_filter.
  - right. unfold log_action, commit.
    cbn [db with_db commits fst snd app status_code]. rewrite Hc0.
    eexists. split; [reflexivity|]. split; [reflexivity|].
    split; [simpl; auto|]. split; [simpl; auto|].
    intros H. unfold unique_step_ids. cbn [steps update_project set_projects].
    now rewrite Hs0.
Qed.

(** What [edit_project] does with a list of steps, in general: when the
    request succeeds, the steps of the project are exactly the new rows, all
    of them Pending, [current_step_number] is the highest new number, and the
    project's status is what it was. *)
Lemma edit_project_replaces_steps (now : Z) (current_user : User.t) (project_id : Z)
      (data : ProjectData.t) (l : list StepData.t) (d : DB) (project : Project.t) :
  Project_get d project_id = Some project ->
  ProjectData.steps data = Some l ->
  status_code (fst (request (edit_project now current_user project_id data) d)) = 200 ->
  let d' := after (edit_project now current_user project_id data) d in
  Forall (pending_row now project_id) (steps_of d' project_id)
  /\ map row_fields (steps_of d' project_id) = map StepData.fields l
  /\ exists project' highest_step,
      Project_get d' project_id = Some project'
      /\ max_list (map ProjectStep.step_number (steps_of d' project_id))
         = Some highest_step
      /\ Project.current_step_number project' = Some highest_step
      /\ Project.status project' = Project.status project.
Proof.
  intros Hp Hl. unfold after, request, edit_project, project_owner_required.
  cbn [db]. rewrite Hp.
  destruct (negb (Project.owner_id project =? User.id current_user));
    [simpl; discriminate|].
  pose proof (Project_get_id _ _ _ Hp) as Hid.
  unfold edit_project_body. rewrite Hid, Hl.
  set (s0 := match ProjectData.description data with
             | Some v => _
             | None => _
             end).
  assert (commits s0 = [] /\ steps (db s0) = steps d
          /\ exists p0, Project_get (db s0) project_id = Some p0
                        /\ Project.status p0 = Project.status project)
    as (Hc0 & Hs0 & p0 & Hp0 & Hst0).
  { unfold s0.
    destruct (ProjectData.description data), (ProjectData.project_name data);
      (split; [reflexivity|]); (split; [reflexivity|]); cbn [db with_db];
      repeat (rewrite Project_get_update_project by reflexivity);
      rewrite Hp; simpl; rewrite ?Hid, ?Z.eqb_refl; simpl;
      rewrite ?Hid, ?Z.eqb_refl; eexists; split; reflexivity. }
  clearbody s0.
  rewrite edit_steps_create_steps.
  match goal with
  | |- context [create_steps ?n ?p ?l ?s] =>
      destruct (create_steps n p l s) as [s'|] eqn:Hcreate
  end; [|simpl; discriminate].
  apply create_steps_db in Hcreate.
  destruct Hcreate as (Hc & rows & Hdb & Hrows & Hmap).
  destruct s' as [d1 c1]. simpl in Hc, Hdb. subst c1.
  rewrite (step_numbers_fields _ _ Hmap).
  destruct (max_list (map ProjectStep.step_number rows)) as [highest_step|] eqn:Hmax;
    [|simpl; discriminate].
  intros _. unfold log_action, commit.
  cbn [db with_db commits fst snd app]. rewrite Hc0. cbn [app persisted last].
  assert (forall x, steps_of (logged now project_id (User.id current_user) "edit"
                               None None (Some "Project edited") x) project_id
                    = steps_of x project_id) as Hlog by reflexivity.
  unfold logged in Hlog. rewrite Hlog. clear Hlog.
  assert (forall f g x, steps_of (update_project now project_id f
                                    (update_project now project_id g x)) project_id
                        = steps_of x project_id) as Hup by reflexivity.
  rewrite Hup. clear Hup.
  assert (steps_of d1 project_id = rows) as Hrows_of.
  { rewrite Hdb. unfold steps_of. cbn [steps set_steps].
    rewrite filter_app, Hs0.
    rewrite (filter_after_delete (fun s => ProjectStep.project_id s =? project_id)).
    rewrite app_nil_l.
    clear -Hrows. induction Hrows as [|r rows (Hr & _) _ IH]; [reflexivity|].
    simpl. rewrite Hr, Z.eqb_refl. now f_equal. }
  rewrite Hrows_of.
  split; [exact Hrows|]. split; [exact Hmap|].
  eexists. exists highest_step.
  split.
  { unfold Project_get. cbn [projects set_actions].
    fold (Project_get (update_project now project_id (fun p => p)
                         (update_project now project_id
                            (Project.set_current_step_number (Some highest_step)) d1))
                      project_id).
    rewrite !Project_get_update_project by reflexivity.
    rewrite Hdb.
    change (Project_get (set_steps _ ?x) ?i) with (Project_get x i).
    change (Project_get (set_steps _ ?x) ?i) with (Project_get x i).
    rewrite Hp0. simpl.
    rewrite (Project_get_id _ _ _ Hp0), !Z.eqb_refl. simpl.
    rewrite (Project_get_id _ _ _ Hp0), !Z.eqb_refl. reflexivity. }
  split; [exact Hmax|]. split; [reflexivity | exact Hst0].
Qed.

(** After a successful edit that supplies steps, no step of the project is
    In Progress. *)
Lemma edit_project_none_in_progress (now : Z) (current_user : User.t) (project_id : Z)
      (data : ProjectData.t) (l : list StepData.t) (d : DB) (project : Project.t) :
  Project_get d project_id = Some project ->
  ProjectData.steps data = Some l ->
  status_code (fst (request (edit_project now current_user project_id data) d)) = 200 ->
  filter in_progress
         (steps_of (after (edit_project now current_user project_id data) d) project_id)
  = [].
Proof.
  intros Hp Hl H200.
  destruct (edit_project_replaces_steps now current_user project_id data l d project
              Hp Hl H200) as (Hrows & _).
  induction Hrows as [|r rows (_ & Hr & _) _ IH]; [reflexivity|].
  simpl. unfold in_progress at 1. rewrite Hr. exact IH.
Qed.

(** What a delete that goes through leaves: the project had no audit row
    and no asset; the project and its steps are gone; the audit log has the
    rows it had, with the same keys, projects and actions; users, assets and
    notifications are as before. *)
Lemma delete_cascade_Some (pid : Z) (d d' : DB) :
  delete_cascade pid d = Some d' ->
  actions_of d pid = []
  /\ filter (fun a => ProjectAsset.project_id a =? pid) (assets d) = []
  /\ projects d' = filter (fun p => negb (Project.id p =? pid)) (projects d)
  /\ steps d' = filter (fun s => negb (ProjectStep.project_id s =? pid)) (steps d)
  /\ map WorkflowAction.id (actions d') = map WorkflowAction.id (actions d)
  /\ map WorkflowAction.project_id (actions d')
     = map WorkflowAction.project_id (actions d)
  /\ map WorkflowAction.action (actions d') = map WorkflowAction.action (actions d)
  /\ users d' = users d /\ assets d' = assets d
  /\ notifications d' = notifications d.
Proof.
  unfold delete_cascade.
  destruct (existsb _ (actions d)) eqn:Ha; [discriminate|].
  destruct (existsb _ (assets d)) eqn:Hs; [discriminate|].
  cbn [orb]. intros [= <-]. cbn [projects steps actions users assets notifications].
  assert (forall (A : Type) (P : A -> bool) (l : list A),
             existsb P l = false -> filter P l = []) as Hnone.
  { intros A P l. induction l as [|x l IH]; [reflexivity|]. cbn [existsb filter].
    destruct (P x); [discriminate | exact IH]. }
  split; [exact (Hnone _ _ _ Ha)|]. split; [exact (Hnone _ _ _ Hs)|].
  split; [reflexivity|]. split; [reflexivity|].
  assert (forall (B : Type) (f : WorkflowAction.t -> B) g,
             (forall a, f (g a) = f a) ->
             map f (map g (actions d)) = map f (actions d)) as Hmap.
  { intros B f g Hfg. rewrite map_map. apply map_ext, Hfg. }
  clear Ha Hs Hnone.
  split; [|split; [|split; [|repeat split]]]; apply Hmap; intros a; cbv beta;
    (destruct (WorkflowAction.step_id a) as [sid|];
     [destruct (existsb _ _)|]; reflexivity).
Qed.

(** [delete_project] answers with an error and commits nothing, or deletes
    the project in one commit. *)
Lemma delete_project_run (current_user : User.t) (project_id : Z) (d : DB) :
  (400 <= status_code (fst (request (delete_project current_user project_id) d))
   /\ snd (request (delete_project current_user project_id) d) = [])
  \/ (exists d',
         delete_cascade project_id d = Some d'
         /\ status_code (fst (request (delete_project current_user project_id) d)) = 200
         /\ snd (request (delete_project current_user project_id) d) = [d']).
Proof.
  unfold request, delete_project, project_owner_required. cbn [db].
  destruct (Project_get d project_id) as [project|] eqn:Hp;
    [|left; simpl; split; [lia | reflexivity]].
  destruct (negb (Project.owner_id project =? User.id current_user));
    [left; simpl; split; [lia | reflexivity]|].
  unfold delete_project_body. cbn [db]. rewrite (Project_get_id _ _ _ Hp).
  destruct (delete_cascade project_id d) as [d'|] eqn:Hdel.
  - right. exists d'. split; [reflexivity|]. split; reflexivity.
  - left. simpl. split; [lia | reflexivity].
Qed.

(** A project that has an audit row cannot be deleted: the request answers
    500 and commits nothing. *)
Lemma delete_project_refused (current_user : User.t) (project_id : Z) (d : DB)
      (project : Project.t) :
  Project_get d project_id = Some project ->
  Project.owner_id project = User.id current_user ->
  actions_of d project_id <> [] ->
  request (delete_project current_user project_id) d = (internal_server_error, []).
Proof.
  intros Hp Ho Ha. unfold request, delete_project, project_owner_required. cbn [db].
  rewrite Hp, Ho, Z.eqb_refl. cbn [negb].
  unfold delete_project_body, delete_cascade. cbn [db].
  rewrite (Project_get_id _ _ _ Hp).
  destruct (existsb (fun a => WorkflowAction.project_id a =? project_id) (actions d))
    eqn:He; [reflexivity|].
  exfalso. apply Ha. unfold actions_of.
  induction (actions d) as [|a l IH]; [reflexivity|]. cbn [existsb filter] in *.
  destruct (WorkflowAction.project_id a =? project_id); [discriminate | auto].
Qed.

(** A delete that succeeds adds no audit row: the log has the rows it had,
    and none of them is a row of the project. *)
Lemma delete_project_actions (current_user : User.t) (project_id : Z) (d : DB) :
  status_code (fst (request (delete_project current_user project_id) d)) = 200 ->
  let d' := after (delete_project current_user project_id) d in
  map WorkflowAction.id (actions d') = map WorkflowAction.id (actions d)
  /\ map WorkflowAction.action (actions d') = map WorkflowAction.action (actions d)
  /\ actions_of d' project_id = [].
Proof.
  intros H200 d'. subst d'. unfold after.
  destruct (delete_project_run current_user project_id d)
    as [[H _] | (d' & Hdel & _ & ->)].
  - rewrite H200 in H. lia.
  - cbn [persisted last].
    destruct (delete_cascade_Some _ _ _ Hdel)
      as (Hnone & _ & _ & _ & Hid & Hpid & Hact & _).
    split; [exact Hid|]. split; [exact Hact|].
    unfold actions_of in *.
    assert (forall l l' : list WorkflowAction.t,
               map WorkflowAction.project_id l' = map WorkflowAction.project_id l ->
               filter (fun a => WorkflowAction.project_id a =? project_id) l = [] ->
               filter (fun a => WorkflowAction.project_id a =? project_id) l' = [])
      as Hsame.
    { intros l. induction l as [|a l IH]; intros [|a' l']; try discriminate;
        [reflexivity|].
      cbn [map filter]. intros [= Ha Hl]. rewrite Ha.
      destruct (WorkflowAction.project_id a =? project_id); [discriminate|].
      now apply IH. }
    exact (Hsame _ _ Hpid Hnone).
Qed.

Lemma forward_step_run (now : Z) (actor : User.t) (project_id : Z)
      (comments : option string) (d : DB) :
  (400 <= status_code (fst (request (forward_step now actor project_id comments) d))
   /\ snd (request (forward_step now actor project_id comments) d) = [])
  \/ exists d1 d2,
      status_code (fst (request (forward_step now actor project_id comments) d)) = 200
      /\ snd (request (forward_step now actor project_id comments) d) = [d1; d2; d2]
      /\ (exists a, actions d1 = (actions d ++ [a])%list)
      /\ notifications d1 = notifications d
      /\ adds_notification d1 d2.
Proof.
  destruct (forward_step_cases now actor project_id comments d)
    as [H | [(project & current_step & next_step & H200 & Htr)
            | (project & current_step & H200 & Htr)]]; [now left | |];
    right; do 2 eexists;
    (split; [exact H200|]); (split; [exact Htr|]);
    (split; [eexists; reflexivity|]); (split; [reflexivity|]);
    eexists; reflexivity.
Qed.

Lemma send_back_step_run (now : Z) (actor : User.t) (project_id : Z)
      (comments : option string) (d : DB) :
  (400 <= status_code (fst (request (send_back_step now actor project_id comments) d))
   /\ snd (request (send_back_step now actor project_id comments) d) = [])
  \/ exists d1 d2,
      status_code (fst (request (send_back_step now actor project_id comments) d)) = 200
      /\ snd (request (send_back_step now actor project_id comments) d) = [d1; d2; d2]
      /\ (exists a, actions d1 = (actions d ++ [a])%list)
      /\ notifications d1 = notifications d
      /\ adds_notification d1 d2.
Proof.
  destruct (send_back_step_cases now actor project_id comments d)
    as [H | (project & current_step & previous_step & comment & _ & H200 & Htr)];
    [now left|].
  right. do 2 eexists.
  split; [exact H200|]. split; [exact Htr|].
  split; [eexists; reflexivity|]. split; [reflexivity|].
  eexists; reflexivity.
Qed.

(** Every workflow operation leaves the primary keys of the steps distinct,
    so the uniqueness that the theorems on Forward and SendBack assume holds
    in every state the operations reach from a database that has it. *)
Lemma unique_step_ids_preserved (d : DB) :
  unique_step_ids d ->
  (forall now current_user data,
      unique_step_ids (after (create_project now current_user data) d))
  /\ (forall now current_user project_id data,
         unique_step_ids (after (edit_project now current_user project_id data) d))
  /\ (forall current_user project_id,
         unique_step_ids (after (delete_project current_user project_id) d))
  /\ (forall now actor project_id comments,
         unique_step_ids (after (forward_step now actor project_id comments) d))
  /\ (forall now actor project_id comments,
         unique_step_ids (after (send_back_step now actor project_id comments) d)).
Proof.
  intros Hd. split; [|split; [|split; [|split]]].
  - intros now current_user data. unfold after.
    destruct (create_project_run now current_user data d)
      as [[_ ->] | (d1 & o & message & _ & -> & _ & _ & Hu)]; [exact Hd|].
    exact (Hu Hd).
  - intros now current_user project_id data. unfold after.
    destruct (edit_project_run now current_user project_id data d)
      as [[_ ->] | (d1 & _ & -> & _ & _ & Hu)]; [exact Hd|].
    exact (Hu Hd).
  - intros current_user project_id. unfold after.
    destruct (delete_project_run current_user project_id d)
      as [[_ ->] | (d' & Hdel & _ & ->)]; [exact Hd|].
    destruct (delete_cascade_Some _ _ _ Hdel) as (_ & _ & _ & Hsteps & _).
    unfold unique_step_ids. cbn [persisted last]. rewrite Hsteps.
    now apply NoDup_map_filter.
  - intros now actor project_id comments. unfold after.
    destruct (forward_step_cases now actor project_id comments d)
      as [[_ ->] | [(project & current_step & next_step & _ & ->)
                   | (project & current_step & _ & ->)]]; [exact Hd | |].
    + apply (unique_step_ids_update_step (ProjectStep.id next_step)
               (ProjectStep.set_status "In Progress")
               (update_step (ProjectStep.id current_step) (complete now) d));
        [reflexivity|].
      now apply unique_step_ids_update_step.
    + now apply (unique_step_ids_update_step (ProjectStep.id current_step)
                   (complete now) d).
  - intros now actor project_id comments. unfold after.
    destruct (send_back_step_cases now actor project_id comments d)
      as [[_ ->] | (project & current_step & previous_step & comment & _ & _ & ->)];
      [exact Hd|].
    apply (unique_step_ids_update_step (ProjectStep.id previous_step) rework
             (update_step (ProjectStep.id current_step)
                          (ProjectStep.set_status "Sent Back") d));
      [reflexivity|].
    now apply unique_step_ids_update_step.
Qed.

(** ** The scenario of the specification *)

Lemma db_created_ids : NoDup (map ProjectStep.id (steps db_created)).
Proof.
  vm_compute. repeat constructor; simpl; intuition discriminate.
Defined.




Lemma db_created_max : is_max_step db_created 1 3.
Proof.
  intros s Hs _. vm_compute in Hs.
  destruct Hs as [<-|[<-|[<-|[]]]]; simpl; lia.
Defined.

Lemma step_data_well_formed n name u : well_formed (step_data n name u).
Proof. discriminate. Defined.

(** ** The current-step invariant *)

(** With distinct step numbers in the project, the step the lookup finds is
    the one the invariant speaks of. *)
Lemma invariant_current_step (d : DB) (project_id : Z) (project : Project.t)
      (current_step : ProjectStep.t) :
  unique_step_numbers d project_id ->
  Project_get d project_id = Some project ->
  current_step_invariant d project ->
  get_current_step d project = Some current_step ->
  Project.status project <> "Completed"
  /\ forall s, In s (steps d) -> ProjectStep.project_id s = project_id ->
               (ProjectStep.status s = "In Progress" <-> s = current_step).
Proof.
  intros Hnum Hp [Hiff Hinv] Hcs.
  destruct (get_current_step_Some _ _ _ Hcs) as (Hn & _ & Hin & Hpid).
  rewrite (Project_get_id _ _ _ Hp) in *.
  rewrite Hn in Hinv, Hiff.
  split; [intros Hst; apply Hiff in Hst; discriminate|].
  destruct Hinv as (cs & Hcin & Hcp & Hcn & Hu).
  assert (cs = current_step) as ->; [|exact Hu].
  apply (NoDup_key_inj ProjectStep.step_number (steps_of d project_id)); auto.
  - apply steps_of_In. auto.
  - apply steps_of_In. auto.
Qed.

Section MovedInProgress.
Variables (d : DB) (project_id : Z) (current_step target : ProjectStep.t)
          (f1 f2 : ProjectStep.t -> ProjectStep.t).
Hypothesis Hids : unique_step_ids d.
Hypothesis Hcurrent : In current_step (steps d).
Hypothesis Hf1 : forall s, ProjectStep.id (f1 s) = ProjectStep.id s.
Hypothesis Hf1_status : ProjectStep.status (f1 current_step) <> "In Progress".
Hypothesis Hunique :
  forall s, In s (steps d) -> ProjectStep.project_id s = project_id ->
            (ProjectStep.status s = "In Progress" <-> s = current_step).

(** Once the current step is given another status, no step of the project is
    In Progress. *)
Lemma none_in_progress_after (s' : ProjectStep.t) :
  (forall s, ProjectStep.project_id (f1 s) = ProjectStep.project_id s) ->
  In s' (steps (update_step (ProjectStep.id current_step) f1 d)) ->
  ProjectStep.project_id s' = project_id ->
  ProjectStep.status s' <> "In Progress".
Proof.
  intros Hf1p Hin Hp. apply step_in_update_step in Hin.
  destruct Hin as (s & Hs & ->).
  destruct (Z.eqb_spec (ProjectStep.id s) (ProjectStep.id current_step)) as [He|Hne].
  - assert (s = current_step) as -> by now apply (same_id_same_step d).
    exact Hf1_status.
  - intros Hst. apply Hunique in Hst; auto. now subst s.
Qed.

Hypothesis Htarget : In target (steps d).
Hypothesis Hdistinct : ProjectStep.id target <> ProjectStep.id current_step.
Hypothesis Hf2 : forall s, ProjectStep.id (f2 s) = ProjectStep.id s.
Hypothesis Hf2_status : ProjectStep.status (f2 target) = "In Progress".

(** When the target step is then made In Progress, it is the only one. *)
Lemma moved_in_progress (s' : ProjectStep.t) :
  In s' (steps (update_step (ProjectStep.id target) f2
                  (update_step (ProjectStep.id current_step) f1 d))) ->
  ProjectStep.project_id s' = project_id ->
  (ProjectStep.status s' = "In Progress" <-> s' = f2 target).
Proof.
  intros Hin Hp. apply step_in_update_step in Hin.
  destruct Hin as (s1 & Hs1 & ->). apply step_in_update_step in Hs1.
  destruct Hs1 as (s & Hs & ->).
  destruct (Z.eqb_spec (ProjectStep.id s) (ProjectStep.id current_step)) as [He|Hne].
  - assert (s = current_step) as -> by now apply (same_id_same_step d).
    rewrite Hf1.
    destruct (Z.eqb_spec (ProjectStep.id current_step) (ProjectStep.id target))
      as [E|_]; [symmetry in E; contradiction|].
    split; [intros Hst; contradiction|].
    intros E. apply (f_equal ProjectStep.id) in E. rewrite Hf1, Hf2 in E.
    symmetry in E. contradiction.
  - destruct (Z.eqb_spec (ProjectStep.id s) (ProjectStep.id target)) as [Het|Hnt].
    + assert (s = target) as -> by now apply (same_id_same_step d).
      split; [reflexivity | intros _; exact Hf2_status].
    + assert (s <> current_step) as Hsc by congruence.
      split.
      * intros Hst. apply Hunique in Hst; auto. contradiction.
      * intros E. apply (f_equal ProjectStep.id) in E. rewrite Hf2 in E.
        contradiction.
Qed.

Lemma target_in_moved :
  In (f2 target) (steps (update_step (ProjectStep.id target) f2
                           (update_step (ProjectStep.id current_step) f1 d))).
Proof.
  apply step_in_update_step. exists target. split.
  - apply step_in_update_step. exists target. split; [exact Htarget|].
    destruct (Z.eqb_spec (ProjectStep.id target) (ProjectStep.id current_step));
      [contradiction | reflexivity].
  - now rewrite Z.eqb_refl.
Qed.
End MovedInProgress.

Lemma unique_step_numbers_update_step (sid pid : Z)
      (f : ProjectStep.t -> ProjectStep.t) (d : DB) :
  (forall s, ProjectStep.project_id (f s) = ProjectStep.project_id s) ->
  (forall s, ProjectStep.step_number (f s) = ProjectStep.step_number s) ->
  unique_step_numbers d pid -> unique_step_numbers (update_step sid f d) pid.
Proof.
  intros Hp Hn H. unfold unique_step_numbers, steps_of, update_step in *.
  cbn [steps set_steps].
  set (g := fun s => if ProjectStep.id s =? sid then f s else s).
  rewrite (filter_map_same g).
  - rewrite map_map.
    match goal with
    | |- NoDup ?l =>
        replace l with (map ProjectStep.step_number
                          (filter (fun s => ProjectStep.project_id s =? pid) (steps d)));
        [exact H|]
    end.
    apply map_ext. intros s. unfold g.
    destruct (ProjectStep.id s =? sid); [now rewrite Hn | reflexivity].
  - intros s. unfold g.
    destruct (ProjectStep.id s =? sid); [now rewrite Hp | reflexivity].
Qed.

(** A successful CreateProject whose step numbers are distinct leaves the new
    project with exactly one step In Progress, the one whose number is
    [current_step_number].  (The new project's key must not be referred to
    by step rows left over in the table.) *)
Lemma create_project_establishes_invariant (now : Z) (current_user : User.t)
      (data : ProjectData.t) (l : list StepData.t) (ns : list Z) (d : DB) :
  status_code (fst (request (create_project now current_user data) d)) = 201 ->
  ProjectData.steps data = Some l ->
  step_numbers l = Some ns -> NoDup ns ->
  unique_step_ids d ->
  steps_of d (next_id (map Project.id (projects d))) = [] ->
  let pid := next_id (map Project.id (projects d)) in
  let d' := after (create_project now current_user data) d in
  unique_step_ids d'
  /\ unique_step_numbers d' pid
  /\ exists project',
      Project_get d' pid = Some project'
      /\ current_step_invariant d' project'.
Proof.
  intros H201 Hl Hns Hnodup Hids Hnone pid d'.
  destruct (create_project_created now current_user data d H201)
    as (name & description & rows & highest_step & o & message
        & Hrows & Hmax & Ho & Hu & Hnums & Hafter).
  fold pid in Hrows, Ho, Hu, Hafter.
  unfold d'. rewrite Hafter. clear Hafter.
  set (project := Project.mk pid name description (User.id current_user)
                             "In Progress" None now now) in *.
  set (d0 := set_steps (steps d ++ rows)
               (set_projects (projects d ++ [project]) d)) in *.
  specialize (Hu Hids).
  assert (forall s, In s (steps d0) -> ProjectStep.project_id s = pid -> In s rows)
    as Hnew.
  { intros s Hs Hp. apply in_app_or in Hs. destruct Hs as [Hs|Hs]; [|exact Hs].
    exfalso. assert (In s (steps_of d pid)) as Hin by (apply steps_of_In; auto).
    unfold pid in Hin. now rewrite Hnone in Hin. }
  unfold step_by_number in Ho. apply find_some in Ho. destruct Ho as [Hoin Hob].
  apply andb_prop in Hob. rewrite !Z.eqb_eq in Hob. destruct Hob as [Hop Hon].
  split; [|split].
  - now apply (unique_step_ids_update_step (ProjectStep.id o)
                 (ProjectStep.set_status "In Progress")
                 (update_project now pid
                    (Project.set_current_step_number (Some highest_step)) d0)).
  - apply (unique_step_numbers_update_step (ProjectStep.id o) pid
             (ProjectStep.set_status "In Progress")
             (update_project now pid
                (Project.set_current_step_number (Some highest_step)) d0));
      try reflexivity.
    unfold unique_step_numbers, steps_of. cbn [steps update_project set_projects d0 set_steps].
    rewrite filter_app. fold (steps_of d pid). unfold pid at 1. rewrite Hnone.
    rewrite app_nil_l, (pending_rows_of_project now pid rows Hrows).
    rewrite (Hnums l Hl) in Hns. now injection Hns as <-.
  - eexists. split.
    { rewrite Project_get_notified, Project_get_logged, Project_get_update_step.
      rewrite Project_get_update_project by reflexivity.
      unfold Project_get, d0. cbn [projects set_steps set_projects].
      assert (find (fun p => Project.id p =? pid) (projects d ++ [project])
              = Some project) as Hfind
          by exact (find_new_project (projects d) project eq_refl).
      rewrite Hfind. simpl. rewrite Z.eqb_refl. reflexivity. }
    split.
    + simpl. split; discriminate.
    + simpl. exists (ProjectStep.set_status "In Progress" o).
      split.
      { apply (step_in_update_step (ProjectStep.id o)
                 (ProjectStep.set_status "In Progress")
                 (update_project now pid
                    (Project.set_current_step_number (Some highest_step)) d0)).
        exists o. split; [exact Hoin | now rewrite Z.eqb_refl]. }
      split; [exact Hop|]. split; [exact Hon|].
      intros s' Hs' Hsp.
      apply (step_in_update_step (ProjectStep.id o)
               (ProjectStep.set_status "In Progress")
               (update_project now pid
                  (Project.set_current_step_number (Some highest_step)) d0)) in Hs'.
      destruct Hs' as (s & Hs & ->).
      destruct (Z.eqb_spec (ProjectStep.id s) (ProjectStep.id o)) as [He|Hne].
      * assert (s = o) as -> by now apply (same_id_same_step d0).
        split; reflexivity.
      * assert (ProjectStep.status s = "Pending") as Hpending.
        { apply Hnew in Hs; [|exact Hsp].
          rewrite Forall_forall in Hrows. now apply Hrows. }
        split.
        -- intros Hst. rewrite Hpending in Hst. discriminate.
        -- intros E. apply (f_equal ProjectStep.id) in E. contradiction.
Qed.

Lemma forward_step_keeps_invariant (d : DB) (project_id : Z) (project : Project.t)
      (now : Z) (actor : User.t) (comments : option string) :
  unique_step_ids d -> unique_step_numbers d project_id ->
  Project_get d project_id = Some project ->
  current_step_invariant d project ->
  let d' := after (forward_step now actor project_id comments) d in
  unique_step_numbers d' project_id
  /\ exists project',
      Project_get d' project_id = Some project'
      /\ current_step_invariant d' project'.
Proof.
  intros Hids Hnum Hp Hinv d'.
  pose proof (Project_get_id _ _ _ Hp) as Hid.
  destruct (get_current_step d project) as [current_step|] eqn:Hcs.
  2:{ unfold d', after, request, forward_step. cbn [db]. rewrite Hp, Hcs. simpl.
      split; [exact Hnum | now exists project]. }
  destruct (Z.eqb_spec (ProjectStep.assigned_user_id current_step) (User.id actor))
    as [Hactor|Hne].
  2:{ unfold d', after, request, forward_step. cbn [db]. rewrite Hp, Hcs.
      destruct (Z.eqb_spec (ProjectStep.assigned_user_id current_step) (User.id actor));
        [contradiction|].
      simpl. split; [exact Hnum | now exists project]. }
  destruct (invariant_current_step _ _ _ _ Hnum Hp Hinv Hcs) as [Hst Hunique].
  destruct (get_current_step_Some _ _ _ Hcs) as (Hn & Hn0 & Hin & Hpid).
  pose proof (get_next_step_update_step d project (ProjectStep.id current_step)
                (complete now) (fun _ => eq_refl) (fun _ => eq_refl)) as Hupd.
  destruct (get_next_step d project) as [next_step|] eqn:Hnext.
  - destruct (get_next_step_Some _ _ _ _ Hn Hnext) as (Hnin & Hnpid & Hlt & _).
    assert (ProjectStep.id next_step <> ProjectStep.id current_step) as Hdistinct.
    { intros He.
      assert (next_step = current_step) as -> by now apply (same_id_same_step d).
      lia. }
    simpl in Hupd.
    destruct (Z.eqb_spec (ProjectStep.id next_step) (ProjectStep.id current_step))
      as [|_]; [contradiction|].
    pose proof (forward_step_to_next d project_id project current_step now actor
                  Hp Hcs Hactor comments next_step Hupd) as Hrun.
    simpl in Hrun.
    unfold d', after. rewrite Hrun. simpl snd. unfold persisted. simpl last.
    split.
    + apply (unique_step_numbers_update_step (ProjectStep.id next_step) project_id
               (ProjectStep.set_status "In Progress")
               (update_step (ProjectStep.id current_step) (complete now) d));
        try reflexivity.
      now apply unique_step_numbers_update_step.
    + eexists. split.
      { rewrite Project_get_notified. unfold forwarded_db.
        rewrite Project_get_logged, Project_get_update_step.
        rewrite Project_get_update_project by reflexivity.
        rewrite Project_get_update_step, Hp.
        simpl. rewrite Z.eqb_refl. reflexivity. }
      split.
      * simpl. split; [discriminate | intros H; contradiction].
      * simpl. exists (ProjectStep.set_status "In Progress" next_step).
        split.
        { apply (target_in_moved d current_step next_step (complete now)
                   (ProjectStep.set_status "In Progress")); auto. }
        split; [exact Hnpid|]. split; [reflexivity|].
        intros s Hs Hsp.
        apply (moved_in_progress d (Project.id project) current_step next_step
                 (complete now) (ProjectStep.set_status "In Progress"));
          auto; try discriminate.
        rewrite Hid. exact Hunique.
  - simpl in Hupd.
    pose proof (forward_step_to_end d project_id project current_step now actor
                  Hp Hcs Hactor comments Hupd) as Hrun.
    simpl in Hrun.
    unfold d', after. rewrite Hrun. simpl snd. unfold persisted. simpl last.
    split.
    + now apply (unique_step_numbers_update_step (ProjectStep.id current_step)
                   project_id (complete now) d).
    + eexists. split.
      { rewrite Project_get_notified. unfold completed_db.
        rewrite Project_get_logged.
        rewrite Project_get_update_project by reflexivity.
        rewrite Project_get_update_step, Hp.
        simpl. rewrite Z.eqb_refl. reflexivity. }
      split.
      * simpl. split; reflexivity.
      * simpl. intros s Hs Hsp.
        apply (none_in_progress_after d (Project.id project) current_step
                 (complete now)); auto; try discriminate.
        rewrite Hid. exact Hunique.
Qed.

Lemma send_back_step_keeps_invariant (d : DB) (project_id : Z) (project : Project.t)
      (now : Z) (actor : User.t) (comments : option string) :
  unique_step_ids d -> unique_step_numbers d project_id ->
  Project_get d project_id = Some project ->
  current_step_invariant d project ->
  let d' := after (send_back_step now actor project_id comments) d in
  unique_step_numbers d' project_id
  /\ exists project',
      Project_get d' project_id = Some project'
      /\ current_step_invariant d' project'.
Proof.
  intros Hids Hnum Hp Hinv d'.
  pose proof (Project_get_id _ _ _ Hp) as Hid.
  destruct (get_current_step d project) as [current_step|] eqn:Hcs.
  2:{ unfold d', after, request, send_back_step. cbn [db]. rewrite Hp, Hcs. simpl.
      split; [exact Hnum | now exists project]. }
  destruct (Z.eqb_spec (ProjectStep.assigned_user_id current_step) (User.id actor))
    as [Hactor|Hne].
  2:{ unfold d', after, request, send_back_step. cbn [db]. rewrite Hp, Hcs.
      destruct (Z.eqb_spec (ProjectStep.assigned_user_id current_step) (User.id actor));
        [contradiction|].
      simpl. split; [exact Hnum | now exists project]. }
  destruct (truthy_str comments) eqn:Hc.
  2:{ unfold d', after, request, send_back_step. cbn [db].
      rewrite Hp, Hcs, Hactor, Z.eqb_refl, Hc. simpl.
      split; [exact Hnum | now exists project]. }
  destruct comments as [comment|]; [|discriminate].
  assert (comment <> "") as Hcomment by (intros ->; discriminate).
  destruct (get_previous_step d project) as [previous_step|] eqn:Hprev.
  2:{ unfold d', after, request, send_back_step. cbn [db].
      rewrite Hp, Hcs, Hactor, Z.eqb_refl, Hc, Hprev. simpl.
      split; [exact Hnum | now exists project]. }
  destruct (invariant_current_step _ _ _ _ Hnum Hp Hinv Hcs) as [Hst Hunique].
  destruct (get_current_step_Some _ _ _ Hcs) as (Hn & Hn0 & Hin & Hpid).
  destruct (get_previous_step_Some _ _ _ _ Hn Hprev) as (Hpin & Hppid & Hlt & _).
  assert (ProjectStep.id previous_step <> ProjectStep.id current_step) as Hdistinct.
  { intros He.
    assert (previous_step = current_step) as -> by now apply (same_id_same_step d).
    lia. }
  pose proof (send_back_step_to_previous d project_id project current_step now actor
                Hp Hcs Hactor comment previous_step Hcomment Hprev) as Hrun.
  simpl in Hrun.
  unfold d', after. rewrite Hrun. simpl snd. unfold persisted. simpl last.
  split.
  - apply (unique_step_numbers_update_step (ProjectStep.id previous_step) project_id
             rework
             (update_step (ProjectStep.id current_step)
                          (ProjectStep.set_status "Sent Back") d));
      try reflexivity.
    now apply unique_step_numbers_update_step.
  - eexists. split.
    { rewrite Project_get_notified. unfold sent_back_db.
      rewrite Project_get_logged, Project_get_update_step.
      rewrite Project_get_update_project by reflexivity.
      rewrite Project_get_update_step, Hp.
      simpl. rewrite Z.eqb_refl. reflexivity. }
    split.
    + simpl. split; [discriminate | intros H; contradiction].
    + simpl. exists (rework previous_step).
      split.
      { apply (target_in_moved d current_step previous_step
                 (ProjectStep.set_status "Sent Back") rework); auto. }
      split; [exact Hppid|]. split; [reflexivity|].
      intros s Hs Hsp.
      apply (moved_in_progress d (Project.id project) current_step previous_step
               (ProjectStep.set_status "Sent Back") rework);
        auto; try discriminate.
      rewrite Hid. exact Hunique.
Qed.

(** C1 at an edit of a finished project.  Before the edit the project is
    Completed, [current_step_number] is null and the invariant holds.  The
    owner supplies new steps: the request succeeds, the project keeps the
    status Completed, [current_step_number] becomes 2, no step of the project
    is In Progress, and the invariant no longer holds. *)
Theorem edit_project_leaves_no_step_in_progress :
  let d' := after (edit_project 110 diana 1 restart_patch) db_completed in
  (exists project,
      Project_get db_completed 1 = Some project
      /\ Project.status project = "Completed"
      /\ Project.current_step_number project = None
      /\ current_step_invariant db_completed project)
  /\ status_code (fst (request (edit_project 110 diana 1 restart_patch) db_completed))
     = 200
  /\ exists project',
      Project_get d' 1 = Some project'
      /\ Project.status project' = "Completed"
      /\ Project.current_step_number project' = Some 2
      /\ filter in_progress (steps_of d' 1) = []
      /\ ~ current_step_invariant d' project'.
Proof.
  split; [|split].
  - eexists. split; [vm_compute; reflexivity|].
    split; [reflexivity|]. split; [reflexivity|].
    split; [split; reflexivity|].
    simpl. intros s Hs _. vm_compute in Hs.
    destruct Hs as [<-|[<-|[<-|[]]]]; discriminate.
  - vm_compute. reflexivity.
  - eexists. split; [vm_compute; reflexivity|].
    split; [reflexivity|]. split; [reflexivity|].
    split; [vm_compute; reflexivity|].
    intros [[_ H] _]. simpl in H. specialize (H eq_refl). discriminate.
Qed.

(** ** Forward *)



(** ** Send back *)



(** ** Edit *)

(** C4 at an edit in the middle of the workflow.  Before the edit step 2 is
    In Progress and the invariant holds.  The owner supplies steps 5 and 4:
    the steps are replaced and [current_step_number] is the new maximum 5,
    but step 5 is Pending like step 4, and the invariant no longer holds. *)
Theorem edit_project_leaves_highest_step_pending :
  let d' := after (edit_project 110 diana 1 renumber_patch) db_forwarded in
  current_step_invariant db_forwarded forwarded_project
  /\ status_code (fst (request (edit_project 110 diana 1 renumber_patch) db_forwarded))
     = 200
  /\ map (fun s => (ProjectStep.step_number s, ProjectStep.status s))
         (steps_of db_forwarded 1)
     = [(3, "Completed"); (2, "In Progress"); (1, "Pending")]
  /\ map (fun s => (ProjectStep.step_number s, ProjectStep.status s)) (steps_of d' 1)
     = [(5, "Pending"); (4, "Pending")]
  /\ option_map ProjectStep.status (step_by_number d' 1 5) = Some "Pending"
  /\ exists project',
      Project_get d' 1 = Some project'
      /\ Project.current_step_number project' = Some 5
      /\ ~ current_step_invariant d' project'.
Proof.
  split.
  { split; [split; discriminate|]. simpl.
    exists review_step. split; [vm_compute; auto|].
    split; [reflexivity|]. split; [reflexivity|].
    intros s Hs _. vm_compute in Hs.
    destruct Hs as [<-|[<-|[<-|[]]]]; split; try discriminate; reflexivity. }
  split; [vm_compute; reflexivity|].
  split; [vm_compute; reflexivity|].
  split; [vm_compute; reflexivity|].
  split; [vm_compute; reflexivity|].
  eexists. split; [vm_compute; reflexivity|].
  split; [reflexivity|].
  intros [_ H]. simpl in H.
  destruct H as (cs & Hin & Hp & _ & Hcs).
  assert (ProjectStep.status cs = "In Progress") as Hst
      by (apply (Hcs cs Hin Hp); reflexivity).
  vm_compute in Hin.
  destruct Hin as [<-|[<-|[]]]; discriminate.
Qed.

(** ** Create *)

(** C5, as the code has it: CreateProject answers 400 when the steps list is
    empty or missing, and 404 when the request is well formed and some step's
    assignee does not exist; every error response comes with nothing
    committed, so no project, step, audit row or notification is created.
    Step numbers are not compared with one another: a non-empty list of
    well-formed steps with existing assignees is accepted. *)
Theorem create_project_validation (now : Z) (current_user : User.t)
    (data : ProjectData.t) (d : DB) :
  let r := request (create_project now current_user data) d in
  (ProjectData.steps data = Some [] \/ ProjectData.steps data = None ->
   status_code (fst r) = 400 /\ snd r = [])
  /\ (forall name description l,
         data = ProjectData.mk (Some name) (Some description) (Some l) ->
         Forall well_formed l -> Exists (assignee_missing d) l ->
         status_code (fst r) = 404 /\ snd r = [])
  /\ (status_code (fst r) <> 201 ->
      snd r = [] /\ after (create_project now current_user data) d = d)
  /\ (forall name description l,
         data = ProjectData.mk (Some name) (Some description) (Some l) ->
         l <> [] -> Forall well_formed l -> Forall (assignee_exists d) l ->
         status_code (fst r) = 201).
Proof.
  intros r. split; [|split; [|split]].
  - intros Hs. unfold r, request, create_project.
    destruct (ProjectData.project_name data), (ProjectData.description data);
      destruct Hs as [Hs | Hs]; try rewrite Hs; split; reflexivity.
  - intros name description l -> Hwf Hex.
    destruct (validate_steps_not_found d l Hwf Hex) as (uid & _ & Hv).
    unfold r, request, create_project.
    cbn [ProjectData.project_name ProjectData.description ProjectData.steps db].
    destruct l as [|sd l]; [inversion Hex|].
    rewrite Hv. split; reflexivity.
  - intros Hne.
    assert (snd r = []) as Hnil by now apply create_project_failure.
    split; [exact Hnil|].
    unfold after. fold r. now rewrite Hnil.
  - intros name description l -> Hne Hwf Hex.
    now apply create_project_accepts.
Qed.

Lemma create_project_validation_witness :
  (status_code (fst (request (create_project 100 diana empty_data) db_users)) = 400
   /\ snd (request (create_project 100 diana empty_data) db_users) = [])
  /\ (status_code (fst (request (create_project 100 diana ghost_data) db_users)) = 404
      /\ snd (request (create_project 100 diana ghost_data) db_users) = []
      /\ after (create_project 100 diana ghost_data) db_users = db_users)
  /\ status_code (fst (request (create_project 100 diana duplicate_data) db_users)) = 201.
Proof.
  split; [|split].
  - apply (proj1 (create_project_validation 100 diana empty_data db_users)).
    now left.
  - destruct (create_project_validation 100 diana ghost_data db_users)
      as (_ & Hmissing & Hfail & _).
    destruct (Hmissing _ _ _ eq_refl) as [H404 Hnil].
    + repeat constructor; apply step_data_well_formed.
    + apply Exists_cons_tl, Exists_cons_hd. exists 9. split; reflexivity.
    + split; [exact H404|]. split; [exact Hnil|].
      apply Hfail. rewrite H404. discriminate.
  - apply (proj2 (proj2 (proj2
             (create_project_validation 100 diana duplicate_data db_users)))
             _ _ _ eq_refl).
    + discriminate.
    + repeat constructor; apply step_data_well_formed.
    + repeat constructor.
      * exists 1. split; [reflexivity | discriminate].
      * exists 2. split; [reflexivity | discriminate].
Defined.

(** C5 as stated fails: a request with two steps numbered 2 is not rejected;
    it is answered 201 and the project and both steps are stored. *)
Lemma create_project_accepts_duplicate_step_numbers :
  step_numbers [step_data 2 "Draft" alice; step_data 2 "Review" bob] = Some [2; 2]
  /\ status_code (fst (request (create_project 100 diana duplicate_data) db_users)) = 201
  /\ map Project.project_name
         (projects (after (create_project 100 diana duplicate_data) db_users)) = ["D"]
  /\ map ProjectStep.step_number
         (steps (after (create_project 100 diana duplicate_data) db_users)) = [2; 2].
Proof. vm_compute. repeat split; reflexivity. Qed.

(** ** Rejected transitions *)

(** C6: on a project with a current step, (a) Forward and SendBack by a user
    who is not the step's assignee answer 403; (b) SendBack by the assignee
    with no comment or an empty one answers 400, comments required; (c)
    SendBack by the assignee with a comment, from the highest-numbered step,
    answers 400, no previous step.  Each of these commits nothing: project,
    steps, audit log and notifications stay as they were. *)
Theorem rejected_transition_changes_nothing
    (d : DB) (project_id : Z) (project : Project.t) (current_step : ProjectStep.t)
    (now : Z) (actor : User.t) :
  Project_get d project_id = Some project ->
  get_current_step d project = Some current_step ->
  (ProjectStep.assigned_user_id current_step <> User.id actor ->
   forall comments,
     request (forward_step now actor project_id comments) d = (forbidden, [])
     /\ request (send_back_step now actor project_id comments) d = (forbidden, [])
     /\ after (forward_step now actor project_id comments) d = d
     /\ after (send_back_step now actor project_id comments) d = d)
  /\ (ProjectStep.assigned_user_id current_step = User.id actor ->
      forall comments,
        comments = None \/ comments = Some "" ->
        request (send_back_step now actor project_id comments) d
        = (comments_required, [])
        /\ after (send_back_step now actor project_id comments) d = d)
  /\ (ProjectStep.assigned_user_id current_step = User.id actor ->
      forall comment,
        comment <> "" ->
        is_max_step d project_id (ProjectStep.step_number current_step) ->
        request (send_back_step now actor project_id (Some comment)) d
        = (no_previous_step, [])
        /\ after (send_back_step now actor project_id (Some comment)) d = d).
Proof.
  intros Hp Hcs.
  split; [|split].
  - intros Hne comments.
    assert (request (forward_step now actor project_id comments) d = (forbidden, [])
            /\ request (send_back_step now actor project_id comments) d = (forbidden, []))
      as [Hf Hs].
    { unfold request, forward_step, send_back_step; simpl.
      rewrite Hp, Hcs.
      destruct (Z.eqb_spec (ProjectStep.assigned_user_id current_step) (User.id actor));
        [contradiction|]. simpl. split; reflexivity. }
    unfold after. rewrite Hf, Hs. simpl. repeat split; reflexivity.
  - intros He comments Hc.
    assert (request (send_back_step now actor project_id comments) d
            = (comments_required, [])) as Hs.
    { unfold request, send_back_step; simpl.
      rewrite Hp, Hcs, He, Z.eqb_refl. simpl.
      destruct Hc as [-> | ->]; reflexivity. }
    unfold after. rewrite Hs. split; reflexivity.
  - intros He comment Hc Hmax.
    assert (request (send_back_step now actor project_id (Some comment)) d
            = (no_previous_step, [])) as Hs.
    { unfold request, send_back_step; simpl.
      rewrite Hp, Hcs, He, Z.eqb_refl. simpl.
      destruct (String.eqb_spec comment "") as [|_]; [contradiction|]. simpl.
      destruct (get_previous_step d project) as [ps|] eqn:Hprev; [|reflexivity].
      exfalso.
      destruct (get_current_step_Some _ _ _ Hcs) as (Hn & _ & _ & _).
      destruct (get_previous_step_Some _ _ _ _ Hn Hprev) as (Hin & Hpid & Hlt & _).
      rewrite (Project_get_id _ _ _ Hp) in Hpid.
      specialize (Hmax ps Hin Hpid). lia. }
    unfold after. rewrite Hs. split; reflexivity.
Qed.

Lemma rejected_transition_changes_nothing_witness :
  (request (forward_step 101 bob 1 None) db_created = (forbidden, [])
   /\ request (send_back_step 101 bob 1 (Some "no")) db_created = (forbidden, []))
  /\ request (send_back_step 101 alice 1 None) db_created = (comments_required, [])
  /\ request (send_back_step 101 alice 1 (Some "")) db_created = (comments_required, [])
  /\ request (send_back_step 101 alice 1 (Some "redo")) db_created
     = (no_previous_step, [])
  /\ after (send_back_step 101 alice 1 (Some "redo")) db_created = db_created.
Proof.
  pose proof (rejected_transition_changes_nothing db_created 1 created_project
                draft_step 101 bob eq_refl eq_refl) as (Hbob & _ & _).
  pose proof (rejected_transition_changes_nothing db_created 1 created_project
                draft_step 101 alice eq_refl eq_refl) as (_ & Hempty & Hmax).
  assert (ProjectStep.assigned_user_id draft_step <> User.id bob) as Hne
      by (simpl; lia).
  split.
  - split.
    + exact (proj1 (Hbob Hne None)).
    + exact (proj1 (proj2 (Hbob Hne (Some "no")))).
  - split; [exact (proj1 (Hempty eq_refl None (or_introl eq_refl)))|].
    split; [exact (proj1 (Hempty eq_refl (Some "") (or_intror eq_refl)))|].
    assert ("redo" <> "") as Hc by discriminate.
    exact (Hmax eq_refl "redo" Hc db_created_max).
Defined.

(** ** Commit points *)

(** C7, as the code has it: a workflow operation that answers with an error
    commits nothing; a successful one commits in stages.  CreateProject commits
    the project and its steps, then the audit row, then the notification;
    EditProject commits the changed rows, then the audit row; DeleteProject
    commits once, a state without the project and its steps and with the
    audit rows and notifications there were, and when its flush is refused
    it answers with an error like any other; Forward and SendBack commit the
    changed rows together with the audit row, then the notification. *)
Theorem commits_come_in_stages :
  (forall now current_user data d,
      let r := request (create_project now current_user data) d in
      (400 <= status_code (fst r) /\ snd r = [])
      \/ (status_code (fst r) = 201
          /\ exists d1 d2 d3,
              snd r = [d1; d2; d3]
              /\ actions d1 = actions d /\ notifications d1 = notifications d
              /\ adds_audit_row d1 d2 /\ adds_notification d2 d3))
  /\ (forall now current_user project_id data d,
         let r := request (edit_project now current_user project_id data) d in
         (400 <= status_code (fst r) /\ snd r = [])
         \/ (status_code (fst r) = 200
             /\ exists d1 d2,
                 snd r = [d1; d2]
                 /\ actions d1 = actions d /\ notifications d1 = notifications d
                 /\ adds_audit_row d1 d2))
  /\ (forall current_user project_id d,
         let r := request (delete_project current_user project_id) d in
         (400 <= status_code (fst r) /\ snd r = [])
         \/ (status_code (fst r) = 200
             /\ exists d',
                 delete_cascade project_id d = Some d' /\ snd r = [d']
                 /\ Project_get d' project_id = None
                 /\ steps_of d' project_id = []
                 /\ map WorkflowAction.id (actions d')
                    = map WorkflowAction.id (actions d)
                 /\ notifications d' = notifications d))
  /\ (forall now actor project_id comments d,
         let r := request (forward_step now actor project_id comments) d in
         (400 <= status_code (fst r) /\ snd r = [])
         \/ (status_code (fst r) = 200
             /\ exists d1 d2,
                 snd r = [d1; d2; d2]
                 /\ (exists a, actions d1 = (actions d ++ [a])%list)
                 /\ notifications d1 = notifications d
                 /\ adds_notification d1 d2))
  /\ (forall now actor project_id comments d,
         let r := request (send_back_step now actor project_id comments) d in
         (400 <= status_code (fst r) /\ snd r = [])
         \/ (status_code (fst r) = 200
             /\ exists d1 d2,
                 snd r = [d1; d2; d2]
                 /\ (exists a, actions d1 = (actions d ++ [a])%list)
                 /\ notifications d1 = notifications d
                 /\ adds_notification d1 d2)).
Proof.
  split; [|split; [|split; [|split]]].
  - intros now current_user data d r.
    destruct (create_project_run now current_user data d)
      as [H | (d1 & o & message & H201 & Htr & Ha & Hn & _)]; [now left|].
    right. split; [exact H201|].
    do 3 eexists. split; [exact Htr|].
    split; [exact Ha|]. split; [exact Hn|].
    split; eexists; reflexivity.
  - intros now current_user project_id data d r.
    destruct (edit_project_run now current_user project_id data d)
      as [H | (d1 & H200 & Htr & Ha & Hn & _)]; [now left|].
    right. split; [exact H200|].
    do 2 eexists. split; [exact Htr|].
    split; [exact Ha|]. split; [exact Hn|].
    eexists; reflexivity.
  - intros current_user project_id d r.
    destruct (delete_project_run current_user project_id d)
      as [H | (d' & Hdel & H200 & Htr)]; [now left|].
    right. split; [exact H200|]. exists d'.
    split; [exact Hdel|]. split; [exact Htr|].
    destruct (delete_cascade_Some _ _ _ Hdel)
      as (_ & _ & Hprojects & Hsteps & Hids & _ & _ & _ & _ & Hnotes).
    split; [|split; [|split; [exact Hids | exact Hnotes]]].
    + unfold Project_get. rewrite Hprojects. clear.
      induction (projects d) as [|p l IH]; [reflexivity|]. cbn [filter].
      destruct (Project.id p =? project_id) eqn:E; cbn [negb]; [exact IH|].
      cbn [find]. now rewrite E.
    + unfold steps_of. rewrite Hsteps.
      apply (filter_after_delete (fun s => ProjectStep.project_id s =? project_id)).
  - intros now actor project_id comments d r.
    destruct (forward_step_run now actor project_id comments d)
      as [H | (d1 & d2 & H)]; [now left|].
    right. split; [apply H|]. exists d1, d2. apply H.
  - intros now actor project_id comments d r.
    destruct (send_back_step_run now actor project_id comments d)
      as [H | (d1 & d2 & H)]; [now left|].
    right. split; [apply H|]. exists d1, d2. apply H.
Qed.

(** C7 as stated fails: the first commit of a CreateProject request holds the
    project and its steps with no audit row and no notification, and is
    neither the state before the request nor the state after it. *)
Lemma create_project_commits_before_audit_row :
  exists d1 d2 d3,
    snd (request (create_project 100 diana scenario_data) db_users) = [d1; d2; d3]
    /\ map Project.id (projects d1) = [1]
    /\ map ProjectStep.status (steps d1) = ["In Progress"; "Pending"; "Pending"]
    /\ actions d1 = [] /\ notifications d1 = []
    /\ map WorkflowAction.action (actions d3) = ["create"]
    /\ ~ all_or_nothing db_users
           (snd (request (create_project 100 diana scenario_data) db_users)).
Proof.
  do 3 eexists. split; [vm_compute; reflexivity|].
  repeat (split; [reflexivity|]).
  intros H.
  match type of H with
  | all_or_nothing _ ?tr =>
      assert (exists x, hd_error tr = Some x /\ In x tr
                        /\ projects x <> projects db_users
                        /\ actions x <> actions (persisted db_users tr))
        as (x & _ & Hin & Hp & Ha)
  end.
  { vm_compute. eexists. split; [reflexivity|].
    split; [left; reflexivity|]. split; discriminate. }
  destruct (H x Hin) as [-> | ->]; [now apply Hp | now apply Ha].
Qed.

(** ** The audit log *)

(** C8 at a delete.  On the state that the first commit of CreateProject
    leaves, project 1 with its steps and no audit row yet, the owner deletes
    the project: the request succeeds, the project and its steps are gone,
    and the audit log is as empty as before, so no row records the deletion.
    On the state at the end of the same CreateProject request the project has
    its create row, and the delete answers 500 and commits nothing. *)
Theorem delete_project_writes_no_audit_row :
  let d' := after (delete_project diana 1) db_first_commit in
  Project_get db_first_commit 1 = Some created_project
  /\ actions db_first_commit = []
  /\ status_code (fst (request (delete_project diana 1) db_first_commit)) = 200
  /\ Project_get d' 1 = None
  /\ steps_of d' 1 = []
  /\ actions d' = []
  /\ map WorkflowAction.action (actions db_created) = ["create"]
  /\ request (delete_project diana 1) db_created = (internal_server_error, []).
Proof.
  assert (status_code (fst (request (delete_project diana 1) db_first_commit)) = 200)
    as H200 by (vm_compute; reflexivity).
  split; [vm_compute; reflexivity|]. split; [reflexivity|].
  split; [exact H200|]. split; [vm_compute; reflexivity|].
  split; [vm_compute; reflexivity|].
  split.
  - destruct (delete_project_actions diana 1 db_first_commit H200) as (Hid & _).
    apply map_eq_nil in Hid. exact Hid.
  - split; [reflexivity|].
    apply (delete_project_refused diana 1 db_created created_project);
      [reflexivity | reflexivity | discriminate].
Qed.

(** ** Access to the read routes *)

(** [get_project] serves the owner and the assignees of the project's steps,
    and answers 403 to anyone else. *)
Lemma get_project_access (d : DB) (current_user : User.t) (project_id : Z)
      (project : Project.t) :
  Project_get d project_id = Some project ->
  status_code (fst (request (get_project current_user project_id) d))
  = if (Project.owner_id project =? User.id current_user)
       || existsb (assigned_to (User.id current_user) project_id) (steps d)
    then 200 else 403.
Proof.
  intros Hp. unfold request, get_project. cbn [db]. rewrite Hp.
  assert (match find (assigned_to (User.id current_user) project_id) (steps d) with
          | Some _ => true
          | None => false
          end = existsb (assigned_to (User.id current_user) project_id) (steps d)) as He.
  { induction (steps d) as [|s l IH]; simpl; [reflexivity|].
    destruct (assigned_to (User.id current_user) project_id s); [reflexivity | exact IH]. }
  unfold assigned_to in He at 1. rewrite He.
  destruct (_ || _); reflexivity.
Qed.

(** [get_project_actions] and [get_project_assets] look at the project
    only: the audit rows of an existing project are served to every user,
    and what [get_project_assets] answers, the assets or 500 when the
    metadata of one does not parse, is the same for every user and never a
    refusal. *)
Lemma actions_and_assets_unchecked (json_loads : string -> option Json) (d : DB)
      (current_user : User.t) (project_id : Z) (project : Project.t) :
  Project_get d project_id = Some project ->
  status_code (fst (request (get_project_actions current_user project_id) d)) = 200
  /\ status_code (fst (request (get_project_assets json_loads current_user project_id)
                               d)) <> 403
  /\ forall other,
      request (get_project_assets json_loads current_user project_id) d
      = request (get_project_assets json_loads other project_id) d.
Proof.
  intros Hp. unfold request, get_project_actions, get_project_assets. cbn [db].
  rewrite Hp. split; [reflexivity|]. split; [|reflexivity].
  destruct (assets_to_dict _ _); discriminate.
Qed.

(** C9 at a user who neither owns project 1 nor is assigned to one of its
    steps: the project's details are refused, its audit actions and its
    assets are served. *)
Theorem actions_and_assets_are_served_to_anyone
    (json_loads : string -> option Json) :
  Project.owner_id created_project <> User.id emma
  /\ filter (fun s => ProjectStep.assigned_user_id s =? User.id emma) (steps_of db_created 1)
     = []
  /\ status_code (fst (request (get_project emma 1) db_created)) = 403
  /\ status_code (fst (request (get_project_actions emma 1) db_created)) = 200
  /\ (exists l, body (fst (request (get_project_actions emma 1) db_created)) = ActionsJson l
                /\ map WorkflowAction.action l = ["create"])
  /\ fst (request (get_project_assets json_loads emma 1) db_created)
     = mkResponse (AssetsJson []) 200.
Proof.
  split; [discriminate|]. vm_compute.
  repeat split; try reflexivity.
  eexists. split; reflexivity.
Qed.

(** ** Step number zero *)

(** C10: a project whose [current_step_number] is 0 has no current step for
    the lookup, whatever the status of its step 0: Forward and SendBack by any
    user answer with the no-active-step error and commit nothing, so no
    sequence of such requests ever changes the database. *)
Theorem step_zero_never_moves (d : DB) (project_id : Z) (project : Project.t) :
  Project_get d project_id = Some project ->
  Project.current_step_number project = Some 0 ->
  (forall now actor comments,
      request (forward_step now actor project_id comments) d = (no_active_step, [])
      /\ request (send_back_step now actor project_id comments) d = (no_active_step, []))
  /\ forall ts, run project_id ts d = d.
Proof.
  intros Hp H0.
  assert (forall t, request (transition project_id t) d = (no_active_step, [])) as Ht.
  { intros [now actor comments | now actor comments];
      unfold request, transition, forward_step, send_back_step; simpl;
      rewrite Hp; unfold get_current_step; rewrite H0; reflexivity. }
  split.
  - intros now actor comments. split.
    + exact (Ht (Forward now actor comments)).
    + exact (Ht (SendBack now actor comments)).
  - intros ts. induction ts as [|t ts IH]; simpl; [reflexivity|].
    unfold after. rewrite Ht. simpl. exact IH.
Qed.

Lemma step_zero_never_moves_witness :
  (Project_get db_zero 1 = Some zero_project
   /\ option_map ProjectStep.status (step_by_number db_zero 1 0) = Some "In Progress")
  /\ request (forward_step 102 bob 1 None) db_zero = (no_active_step, [])
  /\ request (send_back_step 102 bob 1 (Some "redo")) db_zero = (no_active_step, [])
  /\ run 1 [Forward 102 bob None; SendBack 103 bob (Some "redo")] db_zero = db_zero.
Proof.
  assert (Project_get db_zero 1 = Some zero_project) as Hp by (vm_compute; reflexivity).
  split; [split; [exact Hp | vm_compute; reflexivity]|].
  destruct (step_zero_never_moves db_zero 1 zero_project Hp eq_refl) as [H1 H2].
  split; [exact (proj1 (H1 102 bob None))|].
  split; [exact (proj2 (H1 102 bob (Some "redo")))|].
  apply H2.
Defined.

(** * Further properties *)

(** ** Ordered queries are sorted and complete *)

Section OrderBySorted.
Context {A : Type} (le : A -> A -> bool).
Hypothesis le_total : forall a b, le a b = true \/ le b a = true.
Hypothesis le_trans : forall a b c, le a b = true -> le b c = true -> le a c = true.

Lemma insert_by_perm (x : A) (l : list A) : Permutation (insert_by le x l) (x :: l).
Proof.
  induction l as [|y t IH]; simpl; [reflexivity|].
  destruct (le x y); [reflexivity|].
  rewrite IH. apply perm_swap.
Qed.

Lemma order_by_perm (l : list A) : Permutation (order_by le l) l.
Proof.
  induction l as [|x l IH]; simpl; [reflexivity|].
  rewrite insert_by_perm. now constructor.
Qed.

Lemma insert_by_sorted (x : A) (l : list A) :
  StronglySorted (fun a b => le a b = true) l ->
  StronglySorted (fun a b => le a b = true) (insert_by le x l).
Proof.
  induction 1 as [|y t Ht IH Hy]; simpl; [repeat constructor|].
  destruct (le x y) eqn:Hxy.
  - constructor; [now constructor|].
    constructor; [exact Hxy|].
    rewrite Forall_forall in *. intros z Hz. eapply le_trans; eauto.
  - constructor; [exact IH|].
    assert (le y x = true) as Hyx.
    { destruct (le_total x y) as [H|H]; [congruence | exact H]. }
    rewrite Forall_forall in *. intros z Hz.
    apply (Permutation_in _ (insert_by_perm x t)) in Hz.
    destruct Hz as [<-|Hz]; auto.
Qed.

Lemma order_by_sorted (l : list A) :
  StronglySorted (fun a b => le a b = true) (order_by le l).
Proof.
  induction l as [|x l IH]; simpl; [constructor|].
  now apply insert_by_sorted.
Qed.
End OrderBySorted.

Lemma StronglySorted_weaken {A : Type} (R S : A -> A -> Prop) (l : list A) :
  (forall a b, R a b -> S a b) -> StronglySorted R l -> StronglySorted S l.
Proof.
  intros HRS. induction 1 as [|x l Hl IH Hx]; constructor; [exact IH|].
  rewrite Forall_forall in *. auto.
Qed.

(** X1: when [get_project] serves a project, the payload is the project's
    row together with all the steps of the project, each once, by descending
    step number; and the request commits nothing. *)
Theorem get_project_lists_steps_descending
    (d : DB) (current_user : User.t) (project_id : Z) (project : Project.t) :
  Project_get d project_id = Some project ->
  status_code (fst (request (get_project current_user project_id) d)) = 200 ->
  exists l,
    request (get_project current_user project_id) d
    = (mkResponse (ProjectJson (project, l)) 200, [])
    /\ Permutation l (steps_of d project_id)
    /\ StronglySorted
         (fun a b => ProjectStep.step_number b <= ProjectStep.step_number a) l.
Proof.
  intros Hp. unfold request, get_project. cbn [db]. rewrite Hp.
  destruct (negb _); [simpl; discriminate|]. intros _.
  unfold to_dict. rewrite (Project_get_id _ _ _ Hp), Hp.
  eexists. split; [reflexivity|]. split.
  - apply order_by_perm.
  - pose proof (order_by_sorted step_number_desc step_number_desc_total
                  step_number_desc_trans (steps_of d project_id)) as Hs.
    eapply StronglySorted_weaken; [|exact Hs].
    intros a b H. unfold step_number_desc in H. now apply Z.leb_le.
Qed.

Lemma get_project_lists_steps_descending_witness :
  exists l,
    request (get_project bob 1) db_shuffled
    = (mkResponse (ProjectJson (shuffled_project, l)) 200, [])
    /\ Permutation l (steps_of db_shuffled 1)
    /\ StronglySorted
         (fun a b => ProjectStep.step_number b <= ProjectStep.step_number a) l.
Proof.
  exact (get_project_lists_steps_descending db_shuffled bob 1 shuffled_project
           eq_refl eq_refl).
Defined.

(** ** The owner's routes *)

(** X2: [edit_project] and [delete_project] answer 404 for a project that
    does not exist and 403 for a caller who is not the project's owner, and
    in both cases commit nothing, whatever the request holds. *)
Theorem only_the_owner_edits_or_deletes
    (d : DB) (now : Z) (current_user : User.t) (project_id : Z)
    (data : ProjectData.t) :
  (Project_get d project_id = None ->
   request (edit_project now current_user project_id data) d = (project_not_found, [])
   /\ request (delete_project current_user project_id) d = (project_not_found, []))
  /\ (forall project,
         Project_get d project_id = Some project ->
         Project.owner_id project <> User.id current_user ->
         request (edit_project now current_user project_id data) d = (owner_only, [])
         /\ request (delete_project current_user project_id) d = (owner_only, [])
         /\ after (edit_project now current_user project_id data) d = d
         /\ after (delete_project current_user project_id) d = d).
Proof.
  split.
  - intros Hp. unfold request, edit_project, delete_project, project_owner_required.
    cbn [db]. rewrite Hp. split; reflexivity.
  - intros project Hp Hne.
    assert (request (edit_project now current_user project_id data) d = (owner_only, [])
            /\ request (delete_project current_user project_id) d = (owner_only, []))
      as [He Hd].
    { unfold request, edit_project, delete_project, project_owner_required.
      cbn [db]. rewrite Hp.
      destruct (Z.eqb_spec (Project.owner_id project) (User.id current_user));
        [contradiction|].
      split; reflexivity. }
    unfold after. rewrite He, Hd. repeat split; reflexivity.
Qed.

Lemma only_the_owner_edits_or_deletes_witness :
  (request (edit_project 110 alice 7 restart_patch) db_created = (project_not_found, [])
   /\ request (delete_project alice 7) db_created = (project_not_found, []))
  /\ request (edit_project 110 alice 1 restart_patch) db_created = (owner_only, [])
  /\ request (delete_project alice 1) db_created = (owner_only, [])
  /\ after (edit_project 110 alice 1 restart_patch) db_created = db_created
  /\ after (delete_project alice 1) db_created = db_created.
Proof.
  destruct (only_the_owner_edits_or_deletes db_created 110 alice 7 restart_patch)
    as [Hmissing _].
  destruct (only_the_owner_edits_or_deletes db_created 110 alice 1 restart_patch)
    as [_ Hother].
  split; [exact (Hmissing eq_refl)|].
  apply (Hother created_project eq_refl). simpl. lia.
Defined.

(** ** What Forward records *)

Lemma get_next_step_after_complete (d : DB) (project : Project.t)
      (current_step : ProjectStep.t) (now : Z) :
  get_next_step (update_step (ProjectStep.id current_step) (complete now) d) project
  = option_map (fun s => if ProjectStep.id s =? ProjectStep.id current_step
                         then complete now s else s)
               (get_next_step d project).
Proof. now apply get_next_step_update_step. Qed.



(** ** The invariant along a workflow *)

Lemma transition_keeps_invariant (d : DB) (project_id : Z) (project : Project.t)
      (t : Transition) :
  unique_step_ids d -> unique_step_numbers d project_id ->
  Project_get d project_id = Some project ->
  current_step_invariant d project ->
  let d' := after (transition project_id t) d in
  unique_step_ids d'
  /\ unique_step_numbers d' project_id
  /\ exists project',
      Project_get d' project_id = Some project'
      /\ current_step_invariant d' project'.
Proof.
  intros Hids Hnum Hp Hinv.
  destruct (unique_step_ids_preserved d Hids) as (_ & _ & _ & Hf & Hs).
  destruct t as [now actor comments | now actor comments]; simpl.
  - split; [apply Hf|].
    apply (forward_step_keeps_invariant d project_id project); assumption.
  - split; [apply Hs|].
    apply (send_back_step_keeps_invariant d project_id project); assumption.
Qed.

(** X4: on a project whose steps have distinct numbers, the current-step
    invariant survives every sequence of Forward and SendBack requests,
    whoever makes them and whether they succeed or not: at the end
    [current_step_number] is null exactly when the project is Completed, and
    otherwise exactly one step of the project is In Progress, the one with
    that number. *)
Theorem transitions_keep_invariant
    (project_id : Z) (ts : list Transition) (d : DB) (project : Project.t) :
  unique_step_ids d -> unique_step_numbers d project_id ->
  Project_get d project_id = Some project ->
  current_step_invariant d project ->
  exists project',
    Project_get (run project_id ts d) project_id = Some project'
    /\ current_step_invariant (run project_id ts d) project'.
Proof.
  revert d project. induction ts as [|t ts IH]; intros d project Hids Hnum Hp Hinv.
  - now exists project.
  - simpl.
    destruct (transition_keeps_invariant d project_id project t Hids Hnum Hp Hinv)
      as (Hids' & Hnum' & project' & Hp' & Hinv').
    exact (IH _ project' Hids' Hnum' Hp' Hinv').
Qed.

Lemma db_created_numbers : unique_step_numbers db_created 1.
Proof.
  vm_compute. repeat constructor; simpl; intuition discriminate.
Defined.

Lemma db_created_invariant : current_step_invariant db_created created_project.
Proof.
  split; [split; discriminate|]. simpl.
  exists draft_step. split; [vm_compute; auto|].
  split; [reflexivity|]. split; [reflexivity|].
  intros s Hs _. vm_compute in Hs.
  destruct Hs as [<-|[<-|[<-|[]]]]; split; try discriminate; reflexivity.
Defined.

Lemma transitions_keep_invariant_witness :
  exists project',
    Project_get (run 1 [Forward 101 alice None; SendBack 102 bob (Some "redo");
                        SendBack 103 bob (Some "again"); Forward 104 alice None]
                     db_created) 1 = Some project'
    /\ current_step_invariant
         (run 1 [Forward 101 alice None; SendBack 102 bob (Some "redo");
                 SendBack 103 bob (Some "again"); Forward 104 alice None]
              db_created) project'.
Proof.
  exact (transitions_keep_invariant 1 _ db_created created_project
           db_created_ids db_created_numbers eq_refl db_created_invariant).
Defined.

(** X5: a project whose [current_step_number] is null, as Forward leaves it
    when it completes the project, is closed to the workflow: Forward and
    SendBack by any user answer 400 and commit nothing, and no sequence of
    them changes the database. *)
Theorem completed_project_is_closed
    (d : DB) (project_id : Z) (project : Project.t) :
  Project_get d project_id = Some project ->
  Project.current_step_number project = None ->
  (forall t, request (transition project_id t) d = (no_active_step, []))
  /\ forall ts, run project_id ts d = d.
Proof.
  intros Hp Hnull.
  assert (forall t, request (transition project_id t) d = (no_active_step, [])) as Ht.
  { intros [now actor comments | now actor comments];
      unfold request, transition, forward_step, send_back_step; simpl;
      rewrite Hp; unfold get_current_step; rewrite Hnull; reflexivity. }
  split; [exact Ht|].
  intros ts. induction ts as [|t ts IH]; simpl; [reflexivity|].
  unfold after. rewrite Ht. exact IH.
Qed.

Lemma completed_project_is_closed_witness :
  request (transition 1 (Forward 104 charlie None)) db_completed = (no_active_step, [])
  /\ request (transition 1 (SendBack 104 charlie (Some "reopen"))) db_completed
     = (no_active_step, [])
  /\ run 1 [SendBack 104 charlie (Some "reopen"); Forward 105 alice None] db_completed
     = db_completed.
Proof.
  assert (exists project, Project_get db_completed 1 = Some project
                          /\ Project.current_step_number project = None)
    as (project & Hp & Hnull) by (eexists; split; vm_compute; reflexivity).
  destruct (completed_project_is_closed db_completed 1 project Hp Hnull) as [Ht Hrun].
  split; [apply Ht|]. split; [apply Ht | apply Hrun].
Defined.

(** ** What CreateProject stores *)

Lemma map_update_fresh {A : Type} (key : A -> Z) (k : Z) (F : A -> A) (l : list A) :
  (forall x, In x l -> key x <> k) ->
  map (fun x => if key x =? k then F x else x) l = l.
Proof.
  induction l as [|a l IH]; intros H; simpl; [reflexivity|].
  destruct (Z.eqb_spec (key a) k) as [E|_].
  - exfalso. exact (H a (or_introl eq_refl) E).
  - f_equal. apply IH. intros x Hx. apply H. now right.
Qed.

(** X6: a CreateProject request that is answered 201 adds one project row
    with the request's name and description, the caller as owner, the status
    In Progress and the highest step number of the request as
    [current_step_number]; one step row per step of the request, in the
    request's order and with its values, of which one with the highest number
    is In Progress and all others are Pending; exactly one audit row, a
    create action; and exactly one notification, for the assignee of the step
    that is In Progress.  (No step row left in the table may refer to the new
    project's key.) *)
Theorem create_project_stores_request
    (now : Z) (current_user : User.t) (name description : string)
    (l : list StepData.t) (d : DB) :
  let data := ProjectData.mk (Some name) (Some description) (Some l) in
  let pid := next_id (map Project.id (projects d)) in
  let d' := after (create_project now current_user data) d in
  status_code (fst (request (create_project now current_user data) d)) = 201 ->
  unique_step_ids d ->
  steps_of d pid = [] ->
  exists rows o a n,
    projects d'
    = (projects d ++ [Project.mk pid name description (User.id current_user)
                                 "In Progress" (Some (ProjectStep.step_number o))
                                 now now])%list
    /\ steps d' = (steps d ++ rows)%list
    /\ map row_fields rows = map StepData.fields l
    /\ Forall (fun r => ProjectStep.project_id r = pid
                        /\ ProjectStep.completed_at r = None) rows
    /\ In o rows
    /\ ProjectStep.status o = "In Progress"
    /\ max_list (map ProjectStep.step_number rows) = Some (ProjectStep.step_number o)
    /\ (forall r, In r rows -> r <> o -> ProjectStep.status r = "Pending")
    /\ actions d' = (actions d ++ [a])%list
    /\ a = WorkflowAction.mk (next_id (map WorkflowAction.id (actions d))) pid None
                             (User.id current_user) "create" None
                             (Some "Project created") now
    /\ notifications d' = (notifications d ++ [n])%list
    /\ Notification.user_id n = ProjectStep.assigned_user_id o
    /\ Notification.project_id n = Some pid.
Proof.
  intros data pid d' H201 Hids Hnone.
  unfold d', after. revert H201. unfold request, create_project, data.
  cbn [ProjectData.project_name ProjectData.description ProjectData.steps db].
  destruct l as [|sd l]; [simpl; discriminate|].
  destruct (validate_steps d (sd :: l)) as [resp|] eqn:Hv.
  { simpl. destruct (validate_steps_status _ _ _ Hv) as [-> | ->]; discriminate. }
  destruct (step_numbers (sd :: l)) as [numbers|] eqn:Hnum; [|simpl; discriminate].
  destruct (max_list numbers) as [highest_step|] eqn:Hmax; [|simpl; discriminate].
  match goal with
  | |- context [create_steps ?n ?p ?l ?s] =>
      destruct (create_steps n p l s) as [s'|] eqn:Hcreate
  end; [|simpl; discriminate].
  intros _. fold pid in Hcreate |- *.
  pose proof (unique_step_ids_create_steps _ _ _ _ _ Hcreate) as Hu.
  apply create_steps_db in Hcreate.
  destruct Hcreate as (Hc & rows0 & Hdb & Hrows & Hmap).
  rewrite (step_numbers_fields _ _ Hmap) in Hnum. injection Hnum as <-.
  pose proof Hmax as Hmax'.
  apply max_list_Some in Hmax. destruct Hmax as [Hmax _].
  apply in_map_iff in Hmax. destruct Hmax as (r & Hr & Hrin).
  assert (ProjectStep.project_id r = pid) as Hrp.
  { rewrite Forall_forall in Hrows. now apply Hrows. }
  destruct s' as [d0 c0]. simpl in Hc, Hu. cbn [db with_db] in Hdb. subst c0.
  specialize (Hu Hids).
  cbn [db with_db commits].
  assert (steps d0 = (steps d ++ rows0)%list) as Hsteps by (rewrite Hdb; reflexivity).
  match goal with
  | |- context [step_by_number ?dd ?p ?n] =>
      destruct (step_by_number_found dd p n r) as (o0 & Ho & Ho_in & Ho_p & Ho_n)
  end.
  { cbn [steps update_project set_projects]. rewrite Hsteps.
    apply in_or_app. now right. }
  { exact Hrp. }
  { exact Hr. }
  rewrite Ho. cbn [steps update_project set_projects] in Ho_in.
  assert (In o0 rows0) as Ho_rows.
  { rewrite Hsteps in Ho_in. apply in_app_or in Ho_in.
    destruct Ho_in as [Hin|Hin]; [|exact Hin].
    exfalso. assert (In o0 (steps_of d pid)) as Hin' by (apply steps_of_In; auto).
    fold pid in Hnone. now rewrite Hnone in Hin'. }
  assert (forall s, In s (steps d) -> ProjectStep.id s <> ProjectStep.id o0) as Hold.
  { intros s Hs He.
    assert (s = o0) as ->.
    { apply (same_id_same_step d0); auto.
      rewrite Hsteps. apply in_or_app. now left. }
    assert (In o0 (steps_of d pid)) as Hin' by (apply steps_of_In; auto).
    fold pid in Hnone. now rewrite Hnone in Hin'. }
  unfold create_notification, log_action, commit.
  cbn [db with_db commits fst snd app status_code persisted last].
  set (g := fun s => if ProjectStep.id s =? ProjectStep.id o0
                     then ProjectStep.set_status "In Progress" s else s).
  exists (map g rows0), (ProjectStep.set_status "In Progress" o0).
  do 2 eexists.
  split.
  { cbn [projects set_notifications set_actions update_step set_steps
           update_project set_projects].
    rewrite Hdb. cbn [projects set_steps set_projects].
    rewrite map_app, (map_update_fresh Project.id pid).
    - simpl. rewrite Z.eqb_refl. simpl. rewrite Ho_n. reflexivity.
    - intros p Hp E.
      pose proof (next_id_above (map Project.id (projects d)) (Project.id p)
                    (in_map _ _ _ Hp)).
      unfold pid in E. lia. }
  split.
  { cbn [steps set_notifications set_actions update_step set_steps
           update_project set_projects].
    rewrite Hsteps, map_app. f_equal.
    apply (map_update_fresh ProjectStep.id (ProjectStep.id o0)). exact Hold. }
  split.
  { rewrite <- Hmap, map_map. apply map_ext. intros s. unfold g.
    now destruct (ProjectStep.id s =? ProjectStep.id o0). }
  split.
  { rewrite Forall_forall in *. intros s Hs. apply in_map_iff in Hs.
    destruct Hs as (s0 & <- & Hs0). destruct (Hrows s0 Hs0) as (H1 & _ & H3 & _).
    unfold g. now destruct (ProjectStep.id s0 =? ProjectStep.id o0). }
  split.
  { apply in_map_iff. exists o0. split; [|exact Ho_rows].
    unfold g. now rewrite Z.eqb_refl. }
  split; [reflexivity|].
  split.
  { rewrite map_map.
    replace (map (fun x => ProjectStep.step_number (g x)) rows0)
      with (map ProjectStep.step_number rows0).
    - simpl. now rewrite Ho_n.
    - apply map_ext. intros s. unfold g.
      now destruct (ProjectStep.id s =? ProjectStep.id o0). }
  split.
  { intros s Hs Hne. apply in_map_iff in Hs. destruct Hs as (s0 & <- & Hs0).
    unfold g in *.
    destruct (Z.eqb_spec (ProjectStep.id s0) (ProjectStep.id o0)) as [E|_].
    - exfalso. apply Hne. f_equal.
      apply (same_id_same_step d0); auto; rewrite Hsteps; apply in_or_app; now right.
    - rewrite Forall_forall in Hrows. now apply Hrows. }
  split.
  { cbn [actions set_notifications set_actions]. rewrite Hdb. reflexivity. }
  split; [reflexivity|].
  split.
  { cbn [notifications set_notifications]. rewrite Hdb. reflexivity. }
  split; reflexivity.
Qed.

Lemma create_project_stores_request_witness :
  exists rows o a n,
    steps db_shuffled = (steps db_users ++ rows)%list
    /\ map row_fields rows
       = map StepData.fields [step_data 1 "Publish" charlie; step_data 3 "Draft" alice;
                              step_data 2 "Review" bob]
    /\ In o rows
    /\ ProjectStep.status o = "In Progress"
    /\ max_list (map ProjectStep.step_number rows) = Some (ProjectStep.step_number o)
    /\ actions db_shuffled = (actions db_users ++ [a])%list
    /\ notifications db_shuffled = (notifications db_users ++ [n])%list
    /\ Notification.user_id n = ProjectStep.assigned_user_id o.
Proof.
  assert (status_code (fst (request (create_project 100 diana shuffled_data) db_users))
          = 201) as H201 by (vm_compute; reflexivity).
  destruct (create_project_stores_request 100 diana "S" "steps out of order" _ db_users
              H201 (NoDup_nil Z) eq_refl)
    as (rows & o & a & n & _ & Hs & Hf & _ & Ho & Hst & Hmax & _ & Ha & _ & Hn & Hto & _).
  exists rows, o, a, n.
  repeat (split; [assumption|]). assumption.
Defined.

(** ** Forward and then SendBack *)

Lemma forward_step_after_next (d : DB) (project_id : Z) (project : Project.t)
      (current_step next_step : ProjectStep.t) (now : Z) (actor : User.t)
      (comments : option string) :
  unique_step_ids d ->
  Project_get d project_id = Some project ->
  get_current_step d project = Some current_step ->
  ProjectStep.assigned_user_id current_step = User.id actor ->
  get_next_step d project = Some next_step ->
  ProjectStep.id next_step <> ProjectStep.id current_step
  /\ after (forward_step now actor project_id comments) d
     = notified now (ProjectStep.assigned_user_id next_step) project_id
                (forward_message project next_step)
                (forwarded_db now actor comments project current_step next_step d).
Proof.
  intros Hids Hp Hcs Hactor Hnext.
  destruct (get_current_step_Some _ _ _ Hcs) as (Hn & _ & Hin & _).
  destruct (get_next_step_Some _ _ _ _ Hn Hnext) as (Hnin & _ & Hlt & _).
  assert (ProjectStep.id next_step <> ProjectStep.id current_step) as Hne.
  { intros He.
    assert (next_step = current_step) as -> by now apply (same_id_same_step d).
    lia. }
  split; [exact Hne|].
  pose proof (get_next_step_after_complete d project current_step now) as Hupd.
  rewrite Hnext in Hupd. simpl in Hupd.
  destruct (Z.eqb_spec (ProjectStep.id next_step) (ProjectStep.id current_step))
    as [|_]; [contradiction|].
  pose proof (forward_step_to_next d project_id project current_step now actor
                Hp Hcs Hactor comments next_step Hupd) as Hrun.
  simpl in Hrun. unfold after. rewrite Hrun. reflexivity.
Qed.

Lemma send_back_step_after (d : DB) (project_id : Z) (project : Project.t)
      (current_step previous_step : ProjectStep.t) (now : Z) (actor : User.t)
      (comment : string) :
  Project_get d project_id = Some project ->
  get_current_step d project = Some current_step ->
  ProjectStep.assigned_user_id current_step = User.id actor ->
  comment <> "" ->
  get_previous_step d project = Some previous_step ->
  after (send_back_step now actor project_id (Some comment)) d
  = notified now (ProjectStep.assigned_user_id previous_step) project_id
             (send_back_message project previous_step comment)
             (sent_back_db now actor comment project current_step previous_step d).
Proof.
  intros Hp Hcs Hactor Hc Hprev.
  pose proof (send_back_step_to_previous d project_id project current_step now actor
                Hp Hcs Hactor comment previous_step Hc Hprev) as Hrun.
  simpl in Hrun. unfold after. rewrite Hrun. reflexivity.
Qed.

(** With distinct step numbers, the lookups find the step of a given number. *)
Lemma get_current_step_found (d : DB) (project : Project.t) (s : ProjectStep.t) :
  unique_step_numbers d (Project.id project) ->
  Project.current_step_number project = Some (ProjectStep.step_number s) ->
  ProjectStep.step_number s <> 0 ->
  In s (steps d) -> ProjectStep.project_id s = Project.id project ->
  get_current_step d project = Some s.
Proof.
  intros Hnum Hcur Hn0 Hin Hp.
  unfold get_current_step, truthy. rewrite Hcur.
  destruct (Z.eqb_spec (ProjectStep.step_number s) 0) as [|_]; [contradiction|].
  simpl.
  destruct (step_by_number_found d (Project.id project) (ProjectStep.step_number s) s
              Hin Hp eq_refl) as (o & Ho & Hoin & Hop & Hon).
  unfold step_by_number in Ho. rewrite Ho. f_equal.
  apply (NoDup_key_inj ProjectStep.step_number (steps_of d (Project.id project)));
    auto; apply steps_of_In; auto.
Qed.

Lemma get_previous_step_found (d : DB) (project : Project.t) (n : Z)
      (s : ProjectStep.t) :
  unique_step_numbers d (Project.id project) ->
  Project.current_step_number project = Some n -> n <> 0 ->
  In s (steps d) -> ProjectStep.project_id s = Project.id project ->
  next_higher d (Project.id project) n (ProjectStep.step_number s) ->
  get_previous_step d project = Some s.
Proof.
  intros Hnum Hcur Hn0 Hin Hp (Hlt & _ & Hleast).
  destruct (get_previous_step d project) as [x|] eqn:Hprev.
  - destruct (get_previous_step_Some _ _ _ _ Hcur Hprev)
      as (Hxin & Hxp & Hxlt & _ & Hxleast).
    f_equal.
    apply (NoDup_key_inj ProjectStep.step_number (steps_of d (Project.id project)));
      auto; try (apply steps_of_In; auto).
    specialize (Hleast x Hxin Hxp Hxlt). specialize (Hxleast s Hin Hp Hlt). lia.
  - pose proof (get_previous_step_None _ _ _ Hcur Hn0 Hprev s Hin Hp). lia.
Qed.

(** The step above the greatest lower step is the step one came from. *)
Lemma next_lower_higher (d : DB) (pid n m : Z) :
  (exists s, In s (steps d) /\ ProjectStep.project_id s = pid
             /\ ProjectStep.step_number s = n) ->
  next_lower d pid n m -> next_higher d pid m n.
Proof.
  intros Hs (Hlt & _ & Hgreatest).
  split; [exact Hlt|]. split; [exact Hs|].
  intros s Hin Hp Hms.
  destruct (Z.lt_ge_cases (ProjectStep.step_number s) n) as [Hsn|Hsn]; [|lia].
  specialize (Hgreatest s Hin Hp Hsn). lia.
Qed.

Lemma next_higher_update_step (sid pid n m : Z) (f : ProjectStep.t -> ProjectStep.t)
      (d : DB) :
  (forall s, ProjectStep.project_id (f s) = ProjectStep.project_id s) ->
  (forall s, ProjectStep.step_number (f s) = ProjectStep.step_number s) ->
  next_higher d pid n m -> next_higher (update_step sid f d) pid n m.
Proof.
  intros Hfp Hfn (Hlt & (s & Hs & Hsp & Hsn) & Hleast).
  assert (forall x, ProjectStep.project_id
                      (if ProjectStep.id x =? sid then f x else x)
                    = ProjectStep.project_id x) as Hgp.
  { intros x. destruct (ProjectStep.id x =? sid); [apply Hfp | reflexivity]. }
  assert (forall x, ProjectStep.step_number
                      (if ProjectStep.id x =? sid then f x else x)
                    = ProjectStep.step_number x) as Hgn.
  { intros x. destruct (ProjectStep.id x =? sid); [apply Hfn | reflexivity]. }
  split; [exact Hlt|]. split.
  - exists (if ProjectStep.id s =? sid then f s else s).
    split; [apply step_in_update_step; now exists s|].
    now rewrite Hgp, Hgn.
  - intros x Hx Hxp Hxn. apply step_in_update_step in Hx.
    destruct Hx as (x0 & Hx0 & ->). rewrite Hgp in Hxp. rewrite Hgn in Hxn |- *.
    now apply Hleast.
Qed.

(** X7: Forward followed by SendBack is a round trip on the position of the
    workflow.  On a project with distinct step numbers, let the assignee of
    the current step forward to a next step whose number is not 0, and let
    that step's assignee send back with a comment.  Then
    the Forward leaves the first step Completed with the time of the request
    as its completion time and the next step In Progress; and after the
    SendBack [current_step_number] is again the number of the first step, the
    project's status is what it was, the first step is In Progress with no
    completion time, and the next step is left Sent Back. *)
Theorem forward_then_send_back_returns
    (d : DB) (project_id : Z) (project : Project.t)
    (current_step next_step : ProjectStep.t)
    (now1 now2 : Z) (actor returner : User.t)
    (comments : option string) (comment : string) :
  unique_step_ids d -> unique_step_numbers d project_id ->
  Project_get d project_id = Some project ->
  get_current_step d project = Some current_step ->
  ProjectStep.assigned_user_id current_step = User.id actor ->
  get_next_step d project = Some next_step ->
  ProjectStep.step_number next_step <> 0 ->
  ProjectStep.assigned_user_id next_step = User.id returner ->
  comment <> "" ->
  let d1 := after (forward_step now1 actor project_id comments) d in
  let d2 := after (send_back_step now2 returner project_id (Some comment)) d1 in
  ProjectStep_get d1 (ProjectStep.id current_step)
  = Some (ProjectStep.mk (ProjectStep.id current_step) (ProjectStep.project_id current_step)
            (ProjectStep.step_number current_step) (ProjectStep.step_name current_step)
            (ProjectStep.task_description current_step)
            (ProjectStep.assigned_user_id current_step)
            "Completed" (Some now1) (ProjectStep.created_at current_step))
  /\ ProjectStep_get d1 (ProjectStep.id next_step)
     = Some (ProjectStep.mk (ProjectStep.id next_step) (ProjectStep.project_id next_step)
               (ProjectStep.step_number next_step) (ProjectStep.step_name next_step)
               (ProjectStep.task_description next_step)
               (ProjectStep.assigned_user_id next_step)
               "In Progress" (ProjectStep.completed_at next_step) (ProjectStep.created_at next_step))
  /\ exists project2,
      Project_get d2 project_id = Some project2
      /\ Project.current_step_number project2
         = Some (ProjectStep.step_number current_step)
      /\ Project.status project2 = Project.status project
      /\ ProjectStep_get d2 (ProjectStep.id current_step)
         = Some (ProjectStep.mk (ProjectStep.id current_step) (ProjectStep.project_id current_step)
                   (ProjectStep.step_number current_step) (ProjectStep.step_name current_step)
                   (ProjectStep.task_description current_step)
                   (ProjectStep.assigned_user_id current_step)
                   "In Progress" None (ProjectStep.created_at current_step))
      /\ ProjectStep_get d2 (ProjectStep.id next_step)
         = Some (ProjectStep.mk (ProjectStep.id next_step) (ProjectStep.project_id next_step)
                   (ProjectStep.step_number next_step) (ProjectStep.step_name next_step)
                   (ProjectStep.task_description next_step)
                   (ProjectStep.assigned_user_id next_step)
                   "Sent Back" (ProjectStep.completed_at next_step) (ProjectStep.created_at next_step)).
Proof.
  intros Hids Hnum Hp Hcs Hactor Hnext Hn0 Hrev Hc d1 d2.
  pose proof (Project_get_id _ _ _ Hp) as Hid.
  destruct (get_current_step_Some _ _ _ Hcs) as (Hn & _ & Hin & Hpid).
  destruct (get_next_step_Some _ _ _ _ Hn Hnext) as (Hnin & Hnpid & Hlow).
  rewrite Hid in Hpid, Hnpid, Hlow.
  destruct (forward_step_after_next d project_id project current_step next_step
              now1 actor comments Hids Hp Hcs Hactor Hnext) as [Hne Hd1].
  fold d1 in Hd1.
  set (mark := ProjectStep.set_status "In Progress").
  set (dm := update_step (ProjectStep.id next_step) mark
               (update_step (ProjectStep.id current_step) (complete now1) d)).
  set (project1 := Project.set_updated_at now1
                     (Project.set_current_step_number
                        (Some (ProjectStep.step_number next_step)) project)).
  assert (steps d1 = steps dm) as Hsteps by (rewrite Hd1; reflexivity).
  assert (Project_get d1 project_id = Some project1) as Hp1.
  { rewrite Hd1, Project_get_notified. unfold forwarded_db.
    rewrite Project_get_logged, Project_get_update_step.
    rewrite Project_get_update_project by reflexivity.
    rewrite Project_get_update_step, Hp. simpl. now rewrite Z.eqb_refl. }
  assert (unique_step_ids dm) as Hids1.
  { apply unique_step_ids_update_step; [reflexivity|].
    now apply unique_step_ids_update_step. }
  assert (unique_step_numbers dm project_id) as Hnum1.
  { apply unique_step_numbers_update_step; try reflexivity.
    now apply unique_step_numbers_update_step. }
  assert (In (mark next_step) (steps dm)) as Hnin1.
  { apply (target_in_moved d current_step next_step (complete now1) mark); auto. }
  assert (In (complete now1 current_step) (steps dm)) as Hin1.
  { apply step_in_update_step. exists (complete now1 current_step). split.
    - apply step_in_update_step. exists current_step.
      split; [exact Hin | now rewrite Z.eqb_refl].
    - simpl.
      destruct (Z.eqb_spec (ProjectStep.id current_step) (ProjectStep.id next_step))
        as [E|_]; [symmetry in E; contradiction | reflexivity]. }
  assert (get_current_step d1 project1 = Some (mark next_step)) as Hcs1.
  { change (get_current_step d1 project1) with
      (if negb (truthy (Project.current_step_number project1)) then None
       else match Project.current_step_number project1 with
            | None => None
            | Some n => find (fun s => (ProjectStep.project_id s =? Project.id project1)
                                       && (ProjectStep.step_number s =? n)) (steps d1)
            end).
    rewrite Hsteps.
    apply (get_current_step_found dm project1 (mark next_step)); simpl; auto.
    - now rewrite Hid.
    - congruence. }
  assert (get_previous_step d1 project1 = Some (complete now1 current_step)) as Hprev1.
  { change (get_previous_step d1 project1) with
      (if negb (truthy (Project.current_step_number project1)) then None
       else match Project.current_step_number project1 with
            | None => None
            | Some n =>
                hd_error
                  (order_by step_number_asc
                     (filter (fun s => ProjectStep.step_number s >? n)
                        (filter (fun s => ProjectStep.project_id s
                                          =? Project.id project1) (steps d1))))
            end).
    rewrite Hsteps.
    apply (get_previous_step_found dm project1 (ProjectStep.step_number next_step)
             (complete now1 current_step)); simpl; auto.
    - now rewrite Hid.
    - congruence.
    - rewrite Hid. apply next_higher_update_step; try reflexivity.
      apply next_higher_update_step; try reflexivity.
      apply next_lower_higher; [|exact Hlow].
      exists current_step. auto. }
  pose proof (send_back_step_after d1 project_id project1 (mark next_step)
                (complete now1 current_step) now2 returner comment
                Hp1 Hcs1 Hrev Hc Hprev1) as Hd2.
  fold d2 in Hd2.
  assert (ProjectStep_get d1 (ProjectStep.id current_step)
          = Some (complete now1 current_step)) as Hget_cs.
  { unfold ProjectStep_get. rewrite Hsteps.
    apply (find_by_key ProjectStep.id (steps dm) (complete now1 current_step));
      assumption. }
  assert (ProjectStep_get d1 (ProjectStep.id next_step) = Some (mark next_step))
    as Hget_ns.
  { unfold ProjectStep_get. rewrite Hsteps.
    apply (find_by_key ProjectStep.id (steps dm) (mark next_step)); assumption. }
  split; [exact Hget_cs|]. split; [exact Hget_ns|].
  eexists. split.
  { rewrite Hd2, Project_get_notified. unfold sent_back_db.
    rewrite Project_get_logged, Project_get_update_step.
    rewrite Project_get_update_project by reflexivity.
    rewrite Project_get_update_step, Hp1. simpl. rewrite Hid, Z.eqb_refl.
    reflexivity. }
  split; [reflexivity|]. split; [reflexivity|].
  split.
  - rewrite Hd2, ProjectStep_get_notified. unfold sent_back_db.
    rewrite ProjectStep_get_logged.
    rewrite ProjectStep_get_update_step by reflexivity.
    rewrite ProjectStep_get_update_project.
    rewrite ProjectStep_get_update_step by reflexivity.
    rewrite Hget_cs. simpl.
    destruct (Z.eqb_spec (ProjectStep.id current_step) (ProjectStep.id next_step))
      as [E|_]; [symmetry in E; contradiction|].
    simpl. now rewrite Z.eqb_refl.
  - rewrite Hd2, ProjectStep_get_notified. unfold sent_back_db.
    rewrite ProjectStep_get_logged.
    rewrite ProjectStep_get_update_step by reflexivity.
    rewrite ProjectStep_get_update_project.
    rewrite ProjectStep_get_update_step by reflexivity.
    rewrite Hget_ns. simpl. rewrite Z.eqb_refl. simpl.
    destruct (Z.eqb_spec (ProjectStep.id next_step) (ProjectStep.id current_step))
      as [|_]; [contradiction | reflexivity].
Qed.

Lemma forward_then_send_back_returns_witness :
  let d2 := after (send_back_step 102 bob 1 (Some "redo")) db_forwarded in
  ProjectStep_get db_forwarded 1
  = Some (ProjectStep.mk 1 1 3 "Draft" "task" 1 "Completed" (Some 101) 100)
  /\ exists project2,
      Project_get d2 1 = Some project2
      /\ Project.current_step_number project2 = Some 3
      /\ Project.status project2 = "In Progress"
      /\ ProjectStep_get d2 1
         = Some (ProjectStep.mk 1 1 3 "Draft" "task" 1 "In Progress" None 100)
      /\ ProjectStep_get d2 2
         = Some (ProjectStep.mk 2 1 2 "Review" "task" 2 "Sent Back" None 100).
Proof.
  destruct (forward_then_send_back_returns db_created 1 created_project draft_step
              (ProjectStep.mk 2 1 2 "Review" "task" 2 "Pending" None 100)
              101 102 alice bob None "redo"
              db_created_ids db_created_numbers eq_refl eq_refl eq_refl eq_refl)
    as (Hdone & _ & project2 & Hp & Hcur & Hst & Hcs & Hns).
  - simpl. lia.
  - reflexivity.
  - discriminate.
  - split; [exact Hdone|]. exists project2. auto.
Defined.


(** ** What EditProject answers and changes *)

Lemma create_steps_malformed (now pid : Z) (l : list StepData.t) (s : Session) :
  Exists (fun step_data => StepData.fields step_data = None) l ->
  create_steps now pid l s = None.
Proof.
  revert s. induction l as [|sd l IH]; intros s Hex; [inversion Hex|]. simpl.
  destruct (StepData.fields sd) eqn:Hf; [|reflexivity].
  apply IH. inversion Hex; subst; [congruence | assumption].
Qed.

(** X8: the answer of EditProject to the owner is decided by the shape of
    the request alone.  Without a [steps] key, and with a non-empty list of
    steps that all have their four keys, the edit is accepted: unlike
    CreateProject, EditProject never looks the assigned users up, so a step
    may be assigned to a user that does not exist.  A step with a key missing
    is answered 400 and an empty list of steps 500 ([max] of an empty list),
    both with nothing committed. *)
Theorem edit_project_answers (now : Z) (current_user : User.t) (project_id : Z)
    (data : ProjectData.t) (d : DB) (project : Project.t) :
  Project_get d project_id = Some project ->
  Project.owner_id project = User.id current_user ->
  let r := request (edit_project now current_user project_id data) d in
  match ProjectData.steps data with
  | None => status_code (fst r) = 200
  | Some l =>
      (l = [] -> fst r = internal_server_error /\ snd r = [])
      /\ (Exists (fun step_data => StepData.fields step_data = None) l ->
          fst r = mkResponse (Error "Invalid step data") 400 /\ snd r = [])
      /\ (l <> [] -> Forall well_formed l -> status_code (fst r) = 200)
  end.
Proof.
  intros Hp Ho r. subst r.
  unfold request, edit_project, project_owner_required. cbn [db].
  rewrite Hp, Ho, Z.eqb_refl. cbn [negb].
  unfold edit_project_body.
  set (s0 := match ProjectData.description data with
             | Some v => _
             | None => _
             end).
  assert (commits s0 = []) as Hc0.
  { unfold s0. destruct (ProjectData.description data),
      (ProjectData.project_name data); reflexivity. }
  clearbody s0.
  destruct (ProjectData.steps data) as [l|]; [|reflexivity].
  rewrite edit_steps_create_steps.
  split; [|split].
  - intros ->. simpl. split; [reflexivity | exact Hc0].
  - intros Hex. rewrite create_steps_malformed by exact Hex.
    simpl. split; [reflexivity | exact Hc0].
  - intros Hne Hwf.
    match goal with
    | |- context [create_steps ?n ?p ?l ?s] =>
        destruct (create_steps_well_formed n p l s Hwf) as (s' & ->)
    end.
    destruct (step_numbers_well_formed l Hwf) as (ns & -> & Hlen).
    destruct ns as [|n ns]; [|reflexivity].
    destruct l; [now contradiction Hne | discriminate].
Qed.

Lemma edit_project_answers_witness :
  status_code (fst (request (edit_project 104 diana 1
                               (ProjectData.mk None None
                                  (Some [step_data 2 "Rewrite" ghost])))
                            db_created)) = 200
  /\ User_get db_created (User.id ghost) = None.
Proof.
  split; [|reflexivity].
  apply (edit_project_answers 104 diana 1
           (ProjectData.mk None None (Some [step_data 2 "Rewrite" ghost]))
           db_created created_project eq_refl eq_refl).
  - discriminate.
  - repeat constructor; discriminate.
Defined.

(** X9: an edit without a [steps] key leaves the workflow where it is.  The
    steps, users, assets and notifications are untouched; the project row
    takes the name and description the request gives, keeps its owner, status
    and [current_step_number], and has [updated_at] refreshed; the current
    step is the same row as before; and the audit log grows by one [edit] row
    of the caller. *)
Theorem edit_project_without_steps (now : Z) (current_user : User.t) (project_id : Z)
    (data : ProjectData.t) (d : DB) (project : Project.t) :
  Project_get d project_id = Some project ->
  Project.owner_id project = User.id current_user ->
  ProjectData.steps data = None ->
  let d' := after (edit_project now current_user project_id data) d in
  let project' :=
    Project.mk project_id
      (match ProjectData.project_name data with
       | Some v => v
       | None => Project.project_name project
       end)
      (match ProjectData.description data with
       | Some v => v
       | None => Project.description project
       end)
      (Project.owner_id project) (Project.status project)
      (Project.current_step_number project) (Project.created_at project) now in
  steps d' = steps d /\ users d' = users d /\ assets d' = assets d
  /\ notifications d' = notifications d
  /\ Project_get d' project_id = Some project'
  /\ get_current_step d' project' = get_current_step d project
  /\ exists a,
      actions d' = (actions d ++ [a])%list
      /\ WorkflowAction.action a = "edit"
      /\ WorkflowAction.project_id a = project_id
      /\ WorkflowAction.user_id a = User.id current_user.
Proof.
  intros Hp Ho Hs d' project'. subst d' project'.
  pose proof (Project_get_id _ _ _ Hp) as Hid.
  unfold after, request, edit_project, project_owner_required. cbn [db].
  rewrite Hp, Ho, Z.eqb_refl. cbn [negb].
  unfold edit_project_body. rewrite Hs, Hid.
  unfold log_action, commit.
  destruct project as [pi pn pd po ps pc pca pua]. simpl in Hid, Ho. subst pi po.
  destruct (ProjectData.project_name data) as [name|],
           (ProjectData.description data) as [description|];
    cbn [db with_db commits fst snd app persisted last];
    (split; [reflexivity|]); (split; [reflexivity|]); (split; [reflexivity|]);
    (split; [reflexivity|]);
    (split;
     [unfold Project_get; cbn [projects set_actions];
      match goal with
      | |- find _ (projects ?x) = _ => fold (Project_get x project_id)
      end;
      repeat (rewrite Project_get_update_project by reflexivity);
      rewrite Hp; simpl; rewrite ?Z.eqb_refl; simpl; rewrite ?Z.eqb_refl;
      reflexivity|]);
    (split; [reflexivity|]);
    eexists; (split; [reflexivity|]); repeat split.
Qed.

Lemma edit_project_without_steps_witness :
  let d' := after (edit_project 104 diana 1
                     (ProjectData.mk (Some "Q") None None)) db_forwarded in
  steps d' = steps db_forwarded
  /\ Project_get d' 1
     = Some (Project.mk 1 "Q" "news item" 4 "In Progress" (Some 2) 100 104).
Proof.
  destruct (edit_project_without_steps 104 diana 1
              (ProjectData.mk (Some "Q") None None) db_forwarded forwarded_project
              eq_refl eq_refl eq_refl) as (Hs & _ & _ & _ & Hp & _).
  split; [exact Hs | exact Hp].
Defined.


(** ** What a transition leaves alone *)

(** The database after a Forward: unchanged, or moved to the next step, or
    completed. *)
Lemma forward_step_after_cases (now : Z) (actor : User.t) (project_id : Z)
      (comments : option string) (d : DB) :
  after (forward_step now actor project_id comments) d = d
  \/ (exists project current_step next_step,
         Project_get d project_id = Some project
         /\ get_current_step d project = Some current_step
         /\ get_next_step (update_step (ProjectStep.id current_step) (complete now) d)
                          project = Some next_step
         /\ after (forward_step now actor project_id comments) d
            = notified now (ProjectStep.assigned_user_id next_step) project_id
                       (forward_message project next_step)
                       (forwarded_db now actor comments project current_step
                                     next_step d))
  \/ (exists project current_step,
         Project_get d project_id = Some project
         /\ get_current_step d project = Some current_step
         /\ after (forward_step now actor project_id comments) d
            = notified now (Project.owner_id project) project_id
                       (complete_message project)
                       (completed_db now actor comments project current_step d)).
Proof.
  destruct (Project_get d project_id) as [project|] eqn:Hp.
  2:{ left. unfold after, request, forward_step. cbn [db]. now rewrite Hp. }
  destruct (get_current_step d project) as [current_step|] eqn:Hcs.
  2:{ left. unfold after, request, forward_step. cbn [db]. now rewrite Hp, Hcs. }
  destruct (Z.eqb_spec (ProjectStep.assigned_user_id current_step) (User.id actor))
    as [Hactor|Hne].
  2:{ left. unfold after, request, forward_step. cbn [db]. rewrite Hp, Hcs.
      destruct (Z.eqb_spec (ProjectStep.assigned_user_id current_step) (User.id actor));
        [contradiction | reflexivity]. }
  right.
  destruct (get_next_step (update_step (ProjectStep.id current_step) (complete now) d)
                          project) as [next_step|] eqn:Hnext.
  - left. exists project, current_step, next_step.
    split; [reflexivity|]. split; [exact Hcs|]. split; [exact Hnext|].
    unfold after.
    now rewrite (forward_step_to_next d project_id project current_step now actor
                   Hp Hcs Hactor comments next_step Hnext).
  - right. exists project, current_step.
    split; [reflexivity|]. split; [exact Hcs|].
    unfold after.
    now rewrite (forward_step_to_end d project_id project current_step now actor
                   Hp Hcs Hactor comments Hnext).
Qed.

(** The database after a SendBack: unchanged, or moved to the previous step. *)
Lemma send_back_step_after_cases (now : Z) (actor : User.t) (project_id : Z)
      (comments : option string) (d : DB) :
  after (send_back_step now actor project_id comments) d = d
  \/ (exists project current_step previous_step comment,
         Project_get d project_id = Some project
         /\ get_current_step d project = Some current_step
         /\ get_previous_step d project = Some previous_step
         /\ after (send_back_step now actor project_id comments) d
            = notified now (ProjectStep.assigned_user_id previous_step) project_id
                       (send_back_message project previous_step comment)
                       (sent_back_db now actor comment project current_step
                                     previous_step d)).
Proof.
  destruct (send_back_step_cases now actor project_id comments d)
    as [[_ H] | (project & current_step & previous_step & comment & -> & H200 & Htr)].
  { left. unfold after. now rewrite H. }
  destruct (Project_get d project_id) as [project'|] eqn:Hp.
  2:{ left. unfold after, request, send_back_step. cbn [db]. now rewrite Hp. }
  destruct (get_current_step d project') as [current_step'|] eqn:Hcs.
  2:{ left. unfold after, request, send_back_step. cbn [db]. now rewrite Hp, Hcs. }
  destruct (Z.eqb_spec (ProjectStep.assigned_user_id current_step') (User.id actor))
    as [Hactor|Hne].
  2:{ left. unfold after, request, send_back_step. cbn [db]. rewrite Hp, Hcs.
      destruct (Z.eqb_spec (ProjectStep.assigned_user_id current_step') (User.id actor));
        [contradiction | reflexivity]. }
  destruct (String.eqb_spec comment "") as [->|Hc].
  { left. unfold after, request, send_back_step. cbn [db].
    now rewrite Hp, Hcs, Hactor, Z.eqb_refl. }
  destruct (get_previous_step d project') as [previous_step'|] eqn:Hprev.
  2:{ left. unfold after, request, send_back_step. cbn [db].
      rewrite Hp, Hcs, Hactor, Z.eqb_refl. cbn [negb truthy_str].
      destruct (String.eqb_spec comment "") as [|_]; [contradiction|].
      cbn [negb]. now rewrite Hprev. }
  right. exists project', current_step', previous_step', comment.
  split; [reflexivity|]. split; [exact Hcs|]. split; [exact Hprev|].
  unfold after.
  now rewrite (send_back_step_to_previous d project_id project' current_step' now actor
                 Hp Hcs Hactor comment previous_step' Hc Hprev).
Qed.

Lemma Project_get_update_project_other (d : DB) (now pid q : Z)
      (f : Project.t -> Project.t) :
  (forall p, Project.id (f p) = Project.id p) -> q <> pid ->
  Project_get (update_project now pid f d) q = Project_get d q.
Proof.
  intros Hf Hq. rewrite Project_get_update_project by exact Hf.
  destruct (Project_get d q) as [p|] eqn:Hp; [|reflexivity].
  simpl. rewrite (Project_get_id _ _ _ Hp).
  destruct (Z.eqb_spec q pid); [contradiction | reflexivity].
Qed.

(** Updating a row of one project leaves the rows of another as they are. *)
Lemma steps_of_update_step_other (d : DB) (sid pid q : Z)
      (f : ProjectStep.t -> ProjectStep.t) (s : ProjectStep.t) :
  unique_step_ids d -> In s (steps d) -> ProjectStep.id s = sid ->
  ProjectStep.project_id s = pid -> q <> pid ->
  (forall x, ProjectStep.project_id (f x) = ProjectStep.project_id x) ->
  steps_of (update_step sid f d) q = steps_of d q.
Proof.
  intros Hu Hs Hid Hpid Hq Hf.
  assert (forall x, In x (steps d) -> ProjectStep.id x = sid ->
                    ProjectStep.project_id x <> q) as Hown.
  { intros x Hx Hxid.
    assert (x = s) as -> by (apply (same_id_same_step d); congruence).
    congruence. }
  unfold steps_of, update_step. cbn [steps set_steps].
  clear Hu Hs. induction (steps d) as [|x l IH]; [reflexivity|].
  cbn [map filter].
  rewrite IH by (intros y Hy; apply Hown; now right).
  destruct (Z.eqb_spec (ProjectStep.id x) sid) as [E|_]; [|reflexivity].
  rewrite Hf.
  destruct (Z.eqb_spec (ProjectStep.project_id x) q) as [E'|_]; [|reflexivity].
  exfalso. exact (Hown x (or_introl eq_refl) E E').
Qed.

Lemma assignment_update_step (sid : Z) (f : ProjectStep.t -> ProjectStep.t) (d : DB) :
  (forall x, assignment (f x) = assignment x) ->
  map assignment (steps (update_step sid f d)) = map assignment (steps d).
Proof.
  intros Hf. unfold update_step. cbn [steps set_steps]. rewrite map_map.
  apply map_ext. intros x. destruct (ProjectStep.id x =? sid); [apply Hf | reflexivity].
Qed.

Lemma actions_of_logged (now pid uid : Z) (a : string) (n sid : option Z)
      (c : option string) (d : DB) (q : Z) :
  q <> pid -> actions_of (logged now pid uid a n sid c d) q = actions_of d q.
Proof.
  intros Hq. unfold actions_of, logged. cbn [actions set_actions].
  rewrite filter_app. cbn [filter WorkflowAction.project_id].
  destruct (Z.eqb_spec pid q); [now subst | apply app_nil_r].
Qed.

(** One Forward or SendBack on a project leaves the users, the assets, the
    assignment of every step and every row of the other projects as they
    are. *)
Lemma transition_is_local (d : DB) (project_id : Z) (t : Transition) :
  unique_step_ids d ->
  let d' := after (transition project_id t) d in
  users d' = users d /\ assets d' = assets d
  /\ map assignment (steps d') = map assignment (steps d)
  /\ forall q, q <> project_id ->
               Project_get d' q = Project_get d q
               /\ steps_of d' q = steps_of d q
               /\ actions_of d' q = actions_of d q.
Proof.
  intros Hu d'. subst d'. destruct t as [now actor comments | now actor comments];
    cbn [transition].
  - destruct (forward_step_after_cases now actor project_id comments d)
      as [-> | [(project & cs & ns & Hp & Hcs & Hnext & ->)
               | (project & cs & Hp & Hcs & ->)]]; [now auto | |].
    + pose proof (Project_get_id _ _ _ Hp) as Hid.
      destruct (get_current_step_Some _ _ _ Hcs) as (Hn & _ & Hin & Hpid).
      destruct (get_next_step_Some _ _ _ _ Hn Hnext) as (Hnin & Hnpid & _).
      rewrite Hid in Hpid, Hnpid.
      split; [reflexivity|]. split; [reflexivity|]. split.
      { transitivity (map assignment
                        (steps (update_step (ProjectStep.id ns)
                                  (ProjectStep.set_status "In Progress")
                                  (update_step (ProjectStep.id cs) (complete now) d))));
          [reflexivity|].
        now rewrite !assignment_update_step. }
      intros q Hq. split; [|split].
      * transitivity (Project_get
                        (update_project now (Project.id project)
                           (Project.set_current_step_number
                              (Some (ProjectStep.step_number ns))) d) q);
          [reflexivity|].
        rewrite Hid. now apply Project_get_update_project_other.
      * transitivity (steps_of (update_step (ProjectStep.id ns)
                                  (ProjectStep.set_status "In Progress")
                                  (update_step (ProjectStep.id cs) (complete now) d)) q);
          [reflexivity|].
        rewrite (steps_of_update_step_other _ _ project_id q _ ns);
          auto using unique_step_ids_update_step.
        now apply (steps_of_update_step_other _ _ project_id q _ cs).
      * unfold notified, forwarded_db.
        change (actions_of (set_notifications ?n ?x) q) with (actions_of x q).
        rewrite actions_of_logged by now rewrite Hid. reflexivity.
    + pose proof (Project_get_id _ _ _ Hp) as Hid.
      destruct (get_current_step_Some _ _ _ Hcs) as (Hn & _ & Hin & Hpid).
      rewrite Hid in Hpid.
      split; [reflexivity|]. split; [reflexivity|]. split.
      { transitivity (map assignment
                        (steps (update_step (ProjectStep.id cs) (complete now) d)));
          [reflexivity|].
        now rewrite assignment_update_step. }
      intros q Hq. split; [|split].
      * transitivity (Project_get
                        (update_project now (Project.id project)
                           (fun p => Project.set_current_step_number None
                                       (Project.set_status "Completed" p)) d) q);
          [reflexivity|].
        rewrite Hid. now apply Project_get_update_project_other.
      * transitivity (steps_of (update_step (ProjectStep.id cs) (complete now) d) q);
          [reflexivity|].
        now apply (steps_of_update_step_other _ _ project_id q _ cs).
      * unfold notified, completed_db.
        change (actions_of (set_notifications ?n ?x) q) with (actions_of x q).
        rewrite actions_of_logged by now rewrite Hid. reflexivity.
  - destruct (send_back_step_after_cases now actor project_id comments d)
      as [-> | (project & cs & ps & comment & Hp & Hcs & Hprev & ->)]; [now auto|].
    pose proof (Project_get_id _ _ _ Hp) as Hid.
    destruct (get_current_step_Some _ _ _ Hcs) as (Hn & _ & Hin & Hpid).
    destruct (get_previous_step_Some _ _ _ _ Hn Hprev) as (Hpin & Hppid & _).
    rewrite Hid in Hpid, Hppid.
    split; [reflexivity|]. split; [reflexivity|]. split.
    { transitivity (map assignment
                      (steps (update_step (ProjectStep.id ps) rework
                                (update_step (ProjectStep.id cs)
                                   (ProjectStep.set_status "Sent Back") d))));
        [reflexivity|].
      now rewrite !assignment_update_step. }
    intros q Hq. split; [|split].
    + transitivity (Project_get
                      (update_project now (Project.id project)
                         (Project.set_current_step_number
                            (Some (ProjectStep.step_number ps))) d) q);
        [reflexivity|].
      rewrite Hid. now apply Project_get_update_project_other.
    + transitivity (steps_of (update_step (ProjectStep.id ps) rework
                                (update_step (ProjectStep.id cs)
                                   (ProjectStep.set_status "Sent Back") d)) q);
        [reflexivity|].
      assert (exists ps', In ps' (steps (update_step (ProjectStep.id cs)
                                           (ProjectStep.set_status "Sent Back") d))
                          /\ ProjectStep.id ps' = ProjectStep.id ps
                          /\ ProjectStep.project_id ps' = project_id)
        as (ps' & Hin' & Hid' & Hpid').
      { eexists. split; [apply step_in_update_step; exists ps; split;
                         [exact Hpin | reflexivity]|].
        destruct (ProjectStep.id ps =? ProjectStep.id cs); auto. }
      rewrite (steps_of_update_step_other _ _ project_id q _ ps');
        auto using unique_step_ids_update_step.
      now apply (steps_of_update_step_other _ _ project_id q _ cs).
    + unfold notified, sent_back_db.
      change (actions_of (set_notifications ?n ?x) q) with (actions_of x q).
      rewrite actions_of_logged by now rewrite Hid. reflexivity.
Qed.

Lemma unique_step_ids_transition (d : DB) (project_id : Z) (t : Transition) :
  unique_step_ids d -> unique_step_ids (after (transition project_id t) d).
Proof.
  intros Hu. destruct (unique_step_ids_preserved d Hu) as (_ & _ & _ & Hf & Hs).
  destruct t; [apply Hf | apply Hs].
Qed.

(** X10: a workflow stays inside its project.  Whatever sequence of Forward
    and SendBack requests is sent for one project, by whichever users, the
    users and the assets are as before, every step keeps its project, number,
    name, task and assigned user (only status and completion time move), and
    the rows, steps and audit rows of every other project are untouched. *)
Theorem transitions_are_local (d : DB) (project_id : Z) (ts : list Transition) :
  unique_step_ids d ->
  let d' := run project_id ts d in
  users d' = users d /\ assets d' = assets d
  /\ map assignment (steps d') = map assignment (steps d)
  /\ forall q, q <> project_id ->
               Project_get d' q = Project_get d q
               /\ steps_of d' q = steps_of d q
               /\ actions_of d' q = actions_of d q.
Proof.
  revert d. induction ts as [|t ts IH]; intros d Hu; cbn [run].
  - repeat split.
  - destruct (transition_is_local d project_id t Hu) as (Hus & Has & Hst & Hq).
    destruct (IH _ (unique_step_ids_transition d project_id t Hu))
      as (Hus' & Has' & Hst' & Hq').
    cbv zeta in *.
    split; [congruence|]. split; [congruence|]. split; [congruence|].
    intros q Hne. destruct (Hq q Hne) as (H1 & H2 & H3).
    destruct (Hq' q Hne) as (H1' & H2' & H3').
    split; [congruence|]. split; congruence.
Qed.


Lemma db_two_projects_ids : NoDup (map ProjectStep.id (steps db_two_projects)).
Proof.
  vm_compute. repeat constructor; simpl; intuition discriminate.
Defined.

Lemma transitions_are_local_witness :
  let d' := run 1 [Forward 106 alice None; Forward 107 bob None] db_two_projects in
  Project_get d' 2 = Project_get db_two_projects 2
  /\ steps_of d' 2 = steps_of db_two_projects 2.
Proof.
  destruct (transitions_are_local db_two_projects 1
              [Forward 106 alice None; Forward 107 bob None] db_two_projects_ids)
    as (_ & _ & _ & H).
  destruct (H 2) as (H1 & H2 & _); [discriminate|].
  split; assumption.
Defined.


(** ** The list of a user's projects *)

Section Dict.
Context {V : Type} (key : V -> Z).

Lemma dict_set_In (k : Z) (v : V) (m : list (Z * V)) (kv : Z * V) :
  In kv (dict_set k v m) -> kv = (k, v) \/ In kv m.
Proof.
  induction m as [|[k' v'] t IH]; simpl.
  - intros [<-|[]]. now left.
  - destruct (k' =? k).
    + intros [<-|H]; [now left | now right; right].
    + intros [<-|H]; [now right; left|].
      destruct (IH H); [now left | now right; right].
Qed.

Lemma dict_set_has (k : Z) (v : V) (m : list (Z * V)) : In (k, v) (dict_set k v m).
Proof.
  induction m as [|[k' v'] t IH]; simpl; [now left|].
  destruct (k' =? k); [now left | now right].
Qed.

Lemma dict_set_keeps (k : Z) (v : V) (m : list (Z * V)) (k' : Z) (v' : V) :
  In (k', v') m -> exists v'', In (k', v'') (dict_set k v m).
Proof.
  induction m as [|[k1 v1] t IH]; simpl; [intros []|].
  destruct (Z.eqb_spec k1 k) as [Heq|Hne].
  - intros [H|H].
    + injection H as <- <-. subst k1. exists v. now left.
    + exists v'. now right.
  - intros [H|H].
    + injection H as <- <-. exists v1. now left.
    + destruct (IH H) as [v'' H'']. exists v''. now right.
Qed.

Lemma dict_set_keys (k : Z) (v : V) (m : list (Z * V)) :
  NoDup (map fst m) -> NoDup (map fst (dict_set k v m)).
Proof.
  induction m as [|[k' v'] t IH]; simpl; intros H.
  - constructor; [intros [] | constructor].
  - inversion H as [|? ? Hnotin Hnd]; subst.
    destruct (Z.eqb_spec k' k) as [->|Hne]; simpl.
    + now constructor.
    + constructor; [|now apply IH].
      intros Hin. apply in_map_iff in Hin.
      destruct Hin as ([k1 v1] & Hk & Hin). simpl in Hk. subst k1.
      apply dict_set_In in Hin. destruct Hin as [Hin|Hin].
      * injection Hin as -> _. now contradiction Hne.
      * apply Hnotin. apply in_map_iff. exists (k', v1). auto.
Qed.

Lemma dict_fold_In (l : list V) (m : list (Z * V)) (k : Z) (v : V) :
  In (k, v) (fold_left (fun m x => dict_set (key x) x m) l m) ->
  (In v l /\ k = key v) \/ In (k, v) m.
Proof.
  revert m. induction l as [|x l IH]; intros m; simpl; [now right|].
  intros H. destruct (IH _ H) as [[H1 H2]|H1]; [left; auto|].
  apply dict_set_In in H1. destruct H1 as [H1|H1]; [|now right].
  injection H1 as -> ->. left. auto.
Qed.

Lemma dict_fold_keys (l : list V) (m : list (Z * V)) :
  NoDup (map fst m) ->
  NoDup (map fst (fold_left (fun m x => dict_set (key x) x m) l m)).
Proof.
  revert m. induction l as [|x l IH]; intros m H; simpl; [exact H|].
  apply IH. now apply dict_set_keys.
Qed.

Lemma dict_fold_keeps (l : list V) (m : list (Z * V)) (k : Z) (v : V) :
  In (k, v) m ->
  exists v', In (k, v') (fold_left (fun m x => dict_set (key x) x m) l m).
Proof.
  revert m v. induction l as [|x l IH]; intros m v H; simpl; [eauto|].
  destruct (dict_set_keeps (key x) x m k v H) as [v'' H''].
  now apply (IH _ v'').
Qed.

Lemma dict_fold_has (l : list V) (m : list (Z * V)) (x : V) :
  In x l ->
  exists v, In (key x, v) (fold_left (fun m x => dict_set (key x) x m) l m).
Proof.
  revert m. induction l as [|y l IH]; intros m; simpl; [intros []|].
  intros [->|H]; [|now apply IH].
  apply (dict_fold_keeps l _ (key x) x), dict_set_has.
Qed.

(** The values of [{key(x): x for x in l}] are elements of [l], one for each
    key that occurs in [l]. *)
Lemma dict_by_values_In (l : list V) (v : V) :
  In v (values (dict_by key l)) -> In v l.
Proof.
  unfold values, dict_by. intros H. apply in_map_iff in H.
  destruct H as ([k v'] & Hv & H). simpl in Hv. subst v'.
  apply dict_fold_In in H. destruct H as [[H _]|[]]. exact H.
Qed.

Lemma dict_by_values_keys (l : list V) : NoDup (map key (values (dict_by key l))).
Proof.
  unfold values, dict_by. rewrite map_map.
  rewrite (map_ext_in _ fst).
  - apply dict_fold_keys. constructor.
  - intros [k v] H. apply dict_fold_In in H. destruct H as [[_ H]|[]].
    simpl. now symmetry.
Qed.

Lemma dict_by_values_has (l : list V) (x : V) :
  In x l -> exists v, In v (values (dict_by key l)) /\ key v = key x.
Proof.
  intros H. destruct (dict_fold_has l [] x H) as [v Hv].
  exists v. split.
  - unfold values, dict_by. apply in_map_iff. exists (key x, v). auto.
  - apply dict_fold_In in Hv. destruct Hv as [[_ Hv]|[]]. now symmetry.
Qed.
End Dict.

(** What [get_project] sends to a user with access. *)
Lemma get_project_body (d : DB) (current_user : User.t) (project_id : Z)
      (project : Project.t) :
  Project_get d project_id = Some project ->
  (Project.owner_id project =? User.id current_user)
  || existsb (assigned_to (User.id current_user) project_id) (steps d) = true ->
  fst (request (get_project current_user project_id) d)
  = mkResponse (ProjectJson (to_dict d project)) 200.
Proof.
  intros Hp. unfold request, get_project. cbn [db]. rewrite Hp.
  assert (match find (assigned_to (User.id current_user) project_id) (steps d) with
          | Some _ => true
          | None => false
          end = existsb (assigned_to (User.id current_user) project_id) (steps d)) as He.
  { induction (steps d) as [|s l IH]; simpl; [reflexivity|].
    destruct (assigned_to (User.id current_user) project_id s); [reflexivity | exact IH]. }
  unfold assigned_to in He at 1. rewrite He. intros ->. reflexivity.
Qed.

(** The projects that the two queries of [get_projects] select are the
    projects that the access check of [get_project] lets through. *)
Lemma get_projects_selects (current_user : User.t) (d : DB) (p : Project.t) :
  let owned_projects :=
    filter (fun p => Project.owner_id p =? User.id current_user) (projects d) in
  let assigned_project_ids :=
    map ProjectStep.project_id
        (filter (fun st => ProjectStep.assigned_user_id st =? User.id current_user)
                (steps d)) in
  let assigned_projects :=
    match assigned_project_ids with
    | [] => []
    | _ :: _ =>
        filter (fun p => existsb (Z.eqb (Project.id p)) assigned_project_ids)
               (projects d)
    end in
  In p (owned_projects ++ assigned_projects)
  <-> In p (projects d)
      /\ (Project.owner_id p =? User.id current_user)
         || existsb (assigned_to (User.id current_user) (Project.id p)) (steps d)
         = true.
Proof.
  intros owned_projects assigned_project_ids assigned_projects.
  assert (forall q, existsb (Z.eqb q) assigned_project_ids
                    = existsb (assigned_to (User.id current_user) q) (steps d)) as Hex.
  { intros q. unfold assigned_project_ids.
    induction (steps d) as [|s l IH]; [reflexivity|].
    cbn [filter existsb]. unfold assigned_to at 1.
    destruct (ProjectStep.assigned_user_id s =? User.id current_user).
    - cbn [map existsb]. rewrite IH, andb_true_r. now rewrite (Z.eqb_sym q).
    - now rewrite andb_false_r. }
  assert (assigned_projects
          = filter (fun p => existsb (Z.eqb (Project.id p)) assigned_project_ids)
                   (projects d)) as ->.
  { unfold assigned_projects. destruct assigned_project_ids; [|reflexivity].
    simpl. induction (projects d); auto. }
  unfold owned_projects. rewrite in_app_iff, !filter_In, orb_true_iff, <- Hex.
  tauto.
Qed.

(** X11: the list of [get_projects] and the access check of [get_project]
    agree.  With distinct project keys, the list has one entry per project,
    a project is listed exactly when [get_project] answers 200 for it to the
    same user, and each entry is the body [get_project] would send. *)
Theorem get_projects_lists_accessible (current_user : User.t) (d : DB) :
  NoDup (map Project.id (projects d)) ->
  let l := get_projects current_user d in
  NoDup (map (fun e => Project.id (fst e)) l)
  /\ (forall project_id,
         (exists e, In e l /\ Project.id (fst e) = project_id)
         <-> status_code (fst (request (get_project current_user project_id) d)) = 200)
  /\ (forall e, In e l ->
                fst (request (get_project current_user (Project.id (fst e))) d)
                = mkResponse (ProjectJson e) 200).
Proof.
  intros Hnd l. subst l. unfold get_projects.
  pose proof (get_projects_selects current_user d) as Hsel. cbv zeta in Hsel.
  match goal with
  | |- context [dict_by Project.id ?x] => set (ps := x) in *
  end.
  assert (forall p, In p (projects d) -> Project_get d (Project.id p) = Some p) as Hget.
  { intros p Hp. now apply (find_by_key Project.id). }
  assert (forall p, In p (values (dict_by Project.id ps)) ->
                    In p (projects d)
                    /\ (Project.owner_id p =? User.id current_user)
                       || existsb (assigned_to (User.id current_user) (Project.id p))
                                  (steps d) = true) as Hval.
  { intros p Hp. apply Hsel. now apply (dict_by_values_In Project.id). }
  assert (forall p, In p (values (dict_by Project.id ps)) ->
                    fst (to_dict d p) = p) as Hfst.
  { intros p Hp. unfold to_dict. cbn [fst].
    now rewrite (Hget p (proj1 (Hval p Hp))). }
  split; [|split].
  - rewrite map_map. rewrite (map_ext_in _ Project.id).
    + apply dict_by_values_keys.
    + intros p Hp. now rewrite Hfst.
  - intros project_id. split.
    + intros (e & He & Hid). apply in_map_iff in He.
      destruct He as (p & <- & Hp). rewrite (Hfst p Hp) in Hid. subst project_id.
      destruct (Hval p Hp) as [Hin Hacc].
      now rewrite (get_project_access d current_user _ p (Hget p Hin)), Hacc.
    + intros H200.
      destruct (Project_get d project_id) as [p|] eqn:Hp.
      2:{ unfold request, get_project in H200. cbn [db] in H200.
          rewrite Hp in H200. discriminate. }
      rewrite (get_project_access d current_user _ p Hp) in H200.
      pose proof (Project_get_id _ _ _ Hp) as Hid.
      apply find_some in Hp. destruct Hp as [Hin _].
      assert (In p ps) as Hps.
      { apply Hsel. split; [exact Hin|]. rewrite Hid.
        destruct (_ || _); [reflexivity | discriminate]. }
      destruct (dict_by_values_has Project.id ps p Hps) as (v & Hv & Hkey).
      exists (to_dict d v). split; [now apply in_map|].
      rewrite (Hfst v Hv). congruence.
  - intros e He. apply in_map_iff in He. destruct He as (p & <- & Hp).
    rewrite (Hfst p Hp). destruct (Hval p Hp) as [Hin Hacc].
    now apply get_project_body; [apply Hget|].
Qed.

Lemma db_two_projects_keys : NoDup (map Project.id (projects db_two_projects)).
Proof.
  vm_compute. repeat constructor; simpl; intuition discriminate.
Defined.

Lemma get_projects_lists_accessible_witness :
  map (fun e => Project.id (fst e)) (get_projects diana db_two_projects) = [1]
  /\ NoDup (map (fun e => Project.id (fst e)) (get_projects alice db_two_projects)).
Proof.
  split; [reflexivity|].
  exact (proj1 (get_projects_lists_accessible alice db_two_projects
                  db_two_projects_keys)).
Defined.


(** ** Notifications *)

Lemma created_at_desc_total (a b : Notification.t) :
  created_at_desc a b = true \/ created_at_desc b a = true.
Proof. unfold created_at_desc. rewrite !Z.leb_le. lia. Qed.

Lemma created_at_desc_trans (a b c : Notification.t) :
  created_at_desc a b = true -> created_at_desc b c = true ->
  created_at_desc a c = true.
Proof. unfold created_at_desc. rewrite !Z.leb_le. lia. Qed.

Lemma StronglySorted_app_l {A : Type} (R : A -> A -> Prop) (a b : list A) :
  StronglySorted R (a ++ b) -> StronglySorted R a.
Proof.
  induction a as [|x a IH]; simpl; intros H; [constructor|].
  inversion H as [|? ? Hs Hx]; subst. constructor; [now apply IH|].
  rewrite Forall_forall in *. intros y Hy. apply Hx, in_or_app. now left.
Qed.

Lemma StronglySorted_app_cross {A : Type} (R : A -> A -> Prop) (a b : list A) :
  StronglySorted R (a ++ b) -> forall x y, In x a -> In y b -> R x y.
Proof.
  induction a as [|z a IH]; simpl; intros H x y Hx Hy; [destruct Hx|].
  inversion H as [|? ? Hs Hz]; subst. destruct Hx as [<-|Hx].
  - rewrite Forall_forall in Hz. apply Hz, in_or_app. now right.
  - now apply IH.
Qed.

(** X12: [get_notifications] shows the user's fifty newest notifications.
    The list has at most fifty entries, all of them notifications of the
    caller, newest first; what is left out is no newer than anything shown,
    and nothing is left out when the user has fifty notifications or
    fewer. *)
Theorem get_notifications_newest_first (current_user : User.t) (d : DB) :
  let own := filter (fun n => Notification.user_id n =? User.id current_user)
                    (notifications d) in
  let l := get_notifications current_user d in
  (List.length l <= 50)%nat
  /\ (forall n, In n l ->
                In n (notifications d)
                /\ Notification.user_id n = User.id current_user)
  /\ StronglySorted
       (fun a b => Notification.created_at b <= Notification.created_at a) l
  /\ exists rest,
      Permutation (l ++ rest) own
      /\ (forall n m, In n l -> In m rest ->
                      Notification.created_at m <= Notification.created_at n)
      /\ ((List.length own <= 50)%nat -> rest = []).
Proof.
  intros own l. subst l. unfold get_notifications. fold own.
  pose proof (order_by_perm created_at_desc own) as Hperm.
  pose proof (order_by_sorted created_at_desc created_at_desc_total
                created_at_desc_trans own) as Hsorted.
  apply (StronglySorted_weaken _
           (fun a b => Notification.created_at b <= Notification.created_at a))
    in Hsorted.
  2:{ intros a b H. unfold created_at_desc in H. now apply Z.leb_le. }
  set (sorted := order_by created_at_desc own) in *.
  rewrite <- (firstn_skipn 50 sorted) in Hperm, Hsorted.
  split; [apply firstn_le_length|]. split; [|split].
  - intros n Hn.
    assert (In n own) as Hown.
    { apply (Permutation_in _ Hperm), in_or_app. now left. }
    apply filter_In in Hown. now rewrite Z.eqb_eq in Hown.
  - exact (StronglySorted_app_l _ _ _ Hsorted).
  - exists (skipn 50 sorted). split; [exact Hperm|]. split.
    + intros n m Hn Hm. exact (StronglySorted_app_cross _ _ _ Hsorted n m Hn Hm).
    + intros Hlen. apply skipn_all2.
      rewrite <- (firstn_skipn 50 sorted).
      now rewrite (Permutation_length Hperm).
Qed.


(** The answers of [mark_notification_read] and what it leaves behind. *)
Lemma mark_notification_read_cases (current_user : User.t) (notif_id : Z) (d : DB) :
  (400 <= status_code (fst (request (mark_notification_read current_user notif_id) d))
   /\ after (mark_notification_read current_user notif_id) d = d
   /\ forall n, Notification_get d notif_id = Some n ->
                Notification.user_id n <> User.id current_user)
  \/ (exists n,
         Notification_get d notif_id = Some n
         /\ Notification.user_id n = User.id current_user
         /\ status_code (fst (request (mark_notification_read current_user notif_id) d))
            = 200
         /\ after (mark_notification_read current_user notif_id) d
            = update_notification notif_id (set_is_read true) d).
Proof.
  unfold after, request, mark_notification_read. cbn [db].
  destruct (Notification_get d notif_id) as [n|] eqn:Hn.
  2:{ left. simpl. split; [lia|]. split; [reflexivity | discriminate]. }
  destruct (Z.eqb_spec (Notification.user_id n) (User.id current_user)) as [Hu|Hu].
  - right. exists n. split; [reflexivity|]. split; [exact Hu|].
    unfold Notification_get in Hn. apply find_some in Hn.
    destruct Hn as [_ Hid]. rewrite Z.eqb_eq in Hid. rewrite Hid.
    split; reflexivity.
  - left. simpl. split; [lia|]. split; [reflexivity|]. now intros m [= <-].
Qed.

Lemma filter_update_other {A : Type} (key : A -> Z) (P : A -> bool) (g : A -> A)
      (k : Z) (l : list A) :
  (forall x, In x l -> key x = k -> P x = false /\ P (g x) = false) ->
  filter P (map (fun x => if key x =? k then g x else x) l) = filter P l.
Proof.
  induction l as [|x l IH]; intros H; [reflexivity|]. cbn [map filter].
  rewrite IH by (intros y Hy; apply H; now right).
  destruct (Z.eqb_spec (key x) k) as [E|_]; [|reflexivity].
  destruct (H x (or_introl eq_refl) E) as [-> ->]. reflexivity.
Qed.

(** X13: marking a notification as read is the business of its owner and
    touches nothing else.  With distinct notification keys, whatever the
    request answers: the other tables are as before; every other user gets
    the same list from [get_notifications]; the caller gets the same
    notifications in the same order, up to their read flags; no notification
    becomes unread; and sending the request again changes nothing more. *)
Theorem mark_notification_read_is_private
    (current_user : User.t) (notif_id : Z) (d : DB) :
  unique_notification_ids d ->
  let d' := after (mark_notification_read current_user notif_id) d in
  set_notifications (notifications d) d' = d
  /\ (forall other, User.id other <> User.id current_user ->
                    get_notifications other d' = get_notifications other d)
  /\ map (set_is_read true) (get_notifications current_user d')
     = map (set_is_read true) (get_notifications current_user d)
  /\ map Notification.is_read (notifications d')
     = map (fun n => Notification.is_read n
                     || ((Notification.id n =? notif_id)
                         && (Notification.user_id n =? User.id current_user)))
           (notifications d)
  /\ after (mark_notification_read current_user notif_id) d' = d'.
Proof.
  intros Hu d'. subst d'.
  destruct (mark_notification_read_cases current_user notif_id d)
    as [(_ & Hd & Hother) | (n & Hn & Hown & _ & Hd)].
  - rewrite Hd. split; [now destruct d|]. split; [reflexivity|].
    split; [reflexivity|]. split; [|exact Hd].
    rewrite <- (map_id (map Notification.is_read (notifications d))), map_map.
    apply map_ext_in. intros m Hm.
    destruct (Z.eqb_spec (Notification.id m) notif_id) as [Hid|_];
      [|now rewrite orb_false_r].
    assert (Notification_get d notif_id = Some m) as Hget.
    { subst notif_id. now apply (find_by_key Notification.id). }
    destruct (Z.eqb_spec (Notification.user_id m) (User.id current_user)) as [E|_];
      [now apply Hother in Hget | now rewrite orb_false_r].
  - assert (forall m, In m (notifications d) -> Notification.id m = notif_id -> m = n)
      as Honly.
    { intros m Hm Hid. unfold Notification_get in Hn. apply find_some in Hn.
      destruct Hn as [Hin Hnid]. rewrite Z.eqb_eq in Hnid.
      apply (NoDup_key_inj Notification.id (notifications d)); auto. congruence. }
    rewrite Hd. split; [now destruct d|]. split; [|split; [|split]].
    + intros other Hne. unfold get_notifications, update_notification.
      cbn [notifications set_notifications].
      rewrite (filter_update_other Notification.id); [reflexivity|].
      intros m Hm Hid. rewrite (Honly m Hm Hid). cbn [set_is_read Notification.user_id].
      rewrite Hown.
      destruct (Z.eqb_spec (User.id current_user) (User.id other)) as [E|_]; auto.
      symmetry in E. contradiction.
    + unfold get_notifications, update_notification.
      cbn [notifications set_notifications].
      set (g := fun m => if Notification.id m =? notif_id then set_is_read true m else m).
      rewrite (filter_map_same g), (order_by_map g).
      * rewrite firstn_map, map_map.
        apply map_ext. intros m. unfold g.
        destruct (Notification.id m =? notif_id); reflexivity.
      * intros a b. unfold g, created_at_desc.
        destruct (Notification.id a =? notif_id), (Notification.id b =? notif_id);
          reflexivity.
      * intros a. unfold g. destruct (Notification.id a =? notif_id); reflexivity.
    + unfold update_notification. cbn [notifications set_notifications].
      rewrite map_map. apply map_ext_in. intros m Hm.
      destruct (Z.eqb_spec (Notification.id m) notif_id) as [Hid|_].
      * rewrite (Honly m Hm Hid), Hown, Z.eqb_refl.
        cbn [set_is_read Notification.is_read]. now rewrite orb_true_r.
      * now rewrite orb_false_r.
    + destruct (mark_notification_read_cases current_user notif_id
                  (update_notification notif_id (set_is_read true) d))
        as [(_ & Hd' & _) | (n' & _ & _ & _ & Hd')]; [exact Hd'|].
      rewrite Hd'. unfold update_notification. cbn [notifications set_notifications].
      unfold set_notifications. cbn [users projects steps actions assets].
      f_equal. rewrite map_map. apply map_ext. intros m.
      destruct (Notification.id m =? notif_id) eqn:E;
        cbn [set_is_read Notification.id]; rewrite E; reflexivity.
Qed.

Lemma db_sent_back_keys : unique_notification_ids db_sent_back.
Proof.
  unfold unique_notification_ids.
  vm_compute. repeat constructor; simpl; intuition discriminate.
Defined.

Lemma mark_notification_read_is_private_witness :
  let d' := after (mark_notification_read bob 2) db_sent_back in
  get_notifications alice d' = get_notifications alice db_sent_back
  /\ map Notification.is_read (notifications d') = [false; true; false].
Proof.
  destruct (mark_notification_read_is_private bob 2 db_sent_back db_sent_back_keys)
    as (_ & Hother & _ & Hread & _).
  split; [apply Hother; discriminate | rewrite Hread; reflexivity].
Defined.


Lemma count_after_flip {A : Type} (key : A -> Z) (P : A -> bool) (g : A -> A)
      (k : Z) (l : list A) (n : A) :
  NoDup (map key l) -> In n l -> key n = k -> P n = true -> P (g n) = false ->
  List.length (filter P l)
  = S (List.length (filter P (map (fun x => if key x =? k then g x else x) l))).
Proof.
  intros Hnd Hin Hk Hn Hgn. induction l as [|a l IH]; [destruct Hin|].
  inversion Hnd as [|? ? Hnotin Hnd']; subst. cbn [map filter].
  destruct Hin as [->|Hin].
  - rewrite Z.eqb_refl, Hn, Hgn. cbn [List.length]. f_equal. f_equal.
    symmetry. apply filter_update_other. intros x Hx Hkx.
    exfalso. apply Hnotin. rewrite <- Hkx. now apply in_map.
  - destruct (Z.eqb_spec (key a) (key n)) as [E|_].
    + exfalso. apply Hnotin. rewrite E. now apply in_map.
    + destruct (P a); cbn [List.length]; now rewrite (IH Hnd' Hin).
Qed.

(** X14: reading a notification shows on the dashboard.  When a user marks
    an unread notification of theirs as read, [unread_notifications] of
    [get_dashboard_stats] goes down by exactly one and the other four
    figures stay as they are. *)
Theorem marking_read_lowers_unread_count
    (current_user : User.t) (notif_id : Z) (d : DB) (n : Notification.t) :
  unique_notification_ids d ->
  Notification_get d notif_id = Some n ->
  Notification.user_id n = User.id current_user ->
  Notification.is_read n = false ->
  let d' := after (mark_notification_read current_user notif_id) d in
  let stats := get_dashboard_stats current_user d in
  let stats' := get_dashboard_stats current_user d' in
  unread_notifications stats = S (unread_notifications stats')
  /\ total_projects stats' = total_projects stats
  /\ active_projects stats' = active_projects stats
  /\ completed_projects stats' = completed_projects stats
  /\ my_pending_tasks stats' = my_pending_tasks stats.
Proof.
  intros Hu Hn Hown Hread d' stats stats'. subst d' stats stats'.
  destruct (mark_notification_read_cases current_user notif_id d)
    as [(_ & _ & Hother) | (n' & _ & _ & _ & ->)].
  { now apply Hother in Hn. }
  split; [|repeat split].
  unfold get_dashboard_stats, update_notification.
  cbn [unread_notifications notifications set_notifications].
  unfold Notification_get in Hn. apply find_some in Hn.
  destruct Hn as [Hin Hid]. rewrite Z.eqb_eq in Hid.
  apply (count_after_flip Notification.id _ _ _ _ n); auto.
  - now rewrite Hown, Z.eqb_refl, Hread.
  - cbn [set_is_read Notification.user_id Notification.is_read].
    now rewrite andb_false_r.
Qed.

Lemma marking_read_lowers_unread_count_witness :
  unread_notifications (get_dashboard_stats alice db_sent_back) = 2%nat
  /\ 2%nat
     = S (unread_notifications
            (get_dashboard_stats alice
               (after (mark_notification_read alice 3) db_sent_back))).
Proof.
  split; [reflexivity|].
  pose proof (marking_read_lowers_unread_count alice 3 db_sent_back
                (Notification.mk 3 1 (Some 1)
                   "Project sent back to you: P. Step 3: Draft. Reason: redo"
                   false 102)
                db_sent_back_keys eq_refl eq_refl eq_refl) as [H _].
  exact H.
Defined.


(** ** Users *)

(** [register] answers 400 and commits nothing, or adds one user. *)
Lemma register_cases (data : RegisterData.t) (d : DB) :
  (snd (fst (register data (mkSession d []))) = 400
   /\ commits (snd (register data (mkSession d []))) = [])
  \/ (exists username email password full_name,
         let user := User.mk (next_id (map User.id (users d)))
                             username email full_name true in
         data = RegisterData.mk (Some username) (Some email) (Some password)
                                (Some full_name)
         /\ (forall u, In u (users d) -> User.username u <> username)
         /\ (forall u, In u (users d) -> User.email u <> email)
         /\ fst (register data (mkSession d []))
            = (Registered "User registered successfully" user, 201)
         /\ commits (snd (register data (mkSession d [])))
            = [set_users (users d ++ [user]) d]).
Proof.
  unfold register. destruct data as [[username|] [email|] [password|] [full_name|]];
    cbn [RegisterData.username RegisterData.email RegisterData.password
         RegisterData.full_name db]; try (left; split; reflexivity).
  destruct (find (fun u => (User.username u =? username)%string) (users d)) eqn:Hn;
    [left; split; reflexivity|].
  destruct (find (fun u => (User.email u =? email)%string) (users d)) eqn:He;
    [left; split; reflexivity|].
  right. exists username, email, password, full_name.
  split; [reflexivity|]. split; [|split; [|split; reflexivity]].
  - intros u Hu. apply (find_none _ _ Hn) in Hu. now apply String.eqb_neq.
  - intros u Hu. apply (find_none _ _ He) in Hu. now apply String.eqb_neq.
Qed.

Lemma NoDup_map_snoc {A B : Type} (f : A -> B) (l : list A) (x : A) :
  NoDup (map f l) -> (forall y, In y l -> f y <> f x) -> NoDup (map f (l ++ [x])).
Proof.
  intros Hnd Hx. rewrite map_app. simpl. apply NoDup_app.
  - exact Hnd.
  - repeat constructor. intros [].
  - intros b Hb [<-|[]]. apply in_map_iff in Hb.
    destruct Hb as (y & Hy & Hin). exact (Hx y Hin Hy).
Qed.

Lemma find_exists {A : Type} (P : A -> bool) (l : list A) (x : A) :
  In x l -> P x = true -> exists y, find P l = Some y.
Proof.
  intros Hin HP. destruct (find P l) as [y|] eqn:Hf; [now exists y|].
  apply (find_none _ _ Hf) in Hin. congruence.
Qed.

(** X15: registration keeps the users table well keyed.  If user keys, user
    names and e-mail addresses are distinct before a register request, they
    are distinct after it, whatever the request; the request adds at most one
    user, at the end of the table, and touches no other row. *)
Theorem register_keeps_users_unique (data : RegisterData.t) (d : DB) :
  NoDup (map User.id (users d)) ->
  NoDup (map User.username (users d)) ->
  NoDup (map User.email (users d)) ->
  let d' := after_register data d in
  NoDup (map User.id (users d'))
  /\ NoDup (map User.username (users d'))
  /\ NoDup (map User.email (users d'))
  /\ (exists l, users d' = (users d ++ l)%list /\ (List.length l <= 1)%nat)
  /\ set_users (users d) d' = d.
Proof.
  intros Hid Hname Hemail d'. subst d'. unfold after_register.
  destruct (register_cases data d)
    as [[_ ->] | (username & email & password & full_name & _ & Hn & He & _ & ->)];
    cbn [persisted last].
  - split; [exact Hid|]. split; [exact Hname|]. split; [exact Hemail|].
    split; [exists []; rewrite app_nil_r; auto | now destruct d].
  - cbn [users set_users].
    split; [|split; [|split; [|split]]].
    + apply NoDup_map_snoc; [exact Hid|]. intros y Hy. cbn [User.id].
      pose proof (next_id_above (map User.id (users d)) (User.id y)
                    (in_map _ _ _ Hy)). lia.
    + apply NoDup_map_snoc; [exact Hname|]. intros y Hy. now apply Hn.
    + apply NoDup_map_snoc; [exact Hemail|]. intros y Hy. now apply He.
    + eexists. split; [reflexivity|]. simpl. lia.
    + now destruct d.
Qed.

Lemma register_keeps_users_unique_witness :
  NoDup (map User.username
             (users (after_register
                       (RegisterData.mk (Some "frank") (Some "frank@example.com")
                                        (Some "secret") (Some "Frank Miller"))
                       db_users)))
  /\ List.length (users (after_register
                           (RegisterData.mk (Some "frank") (Some "frank@example.com")
                                            (Some "secret") (Some "Frank Miller"))
                           db_users)) = 6%nat.
Proof.
  split; [|reflexivity].
  apply (register_keeps_users_unique
           (RegisterData.mk (Some "frank") (Some "frank@example.com")
                            (Some "secret") (Some "Frank Miller")) db_users);
    vm_compute; repeat constructor; simpl; intuition discriminate.
Defined.

(** X16: a name or an address can be registered once.  After a successful
    registration, every further request with the same user name or the same
    e-mail address is answered 400 and changes nothing. *)
Theorem register_twice (data data' : RegisterData.t) (d : DB) :
  snd (fst (register data (mkSession d []))) = 201 ->
  RegisterData.username data' = RegisterData.username data
  \/ RegisterData.email data' = RegisterData.email data ->
  let d' := after_register data d in
  snd (fst (register data' (mkSession d' []))) = 400
  /\ after_register data' d' = d'.
Proof.
  intros H201 Hsame d'.
  destruct (register_cases data' d') as [[H400 Hc] | Hok].
  { split; [exact H400|]. unfold after_register. now rewrite Hc. }
  exfalso.
  destruct Hok as (username' & email' & password' & full_name' & -> & Hn & He & _).
  subst d'. unfold after_register in Hn, He.
  destruct (register_cases data d)
    as [[H400 _] | (username & email & password & full_name & -> & _ & _ & _ & Hc)].
  { rewrite H400 in H201. discriminate. }
  rewrite Hc in Hn, He. cbn [persisted last users set_users] in Hn, He.
  cbn [RegisterData.username RegisterData.email] in Hsame.
  destruct Hsame as [[= ->] | [= ->]].
  - apply (Hn (User.mk (next_id (map User.id (users d))) username email full_name true));
      [apply in_or_app; right; now left | reflexivity].
  - apply (He (User.mk (next_id (map User.id (users d))) username email full_name true));
      [apply in_or_app; right; now left | reflexivity].
Qed.

Lemma register_twice_witness :
  let frank := RegisterData.mk (Some "frank") (Some "frank@example.com")
                               (Some "secret") (Some "Frank Miller") in
  let other := RegisterData.mk (Some "frank") (Some "other@example.com")
                               (Some "secret") (Some "Frank Other") in
  snd (fst (register other (mkSession (after_register frank db_users) []))) = 400.
Proof.
  exact (proj1 (register_twice
                  (RegisterData.mk (Some "frank") (Some "frank@example.com")
                                   (Some "secret") (Some "Frank Miller"))
                  (RegisterData.mk (Some "frank") (Some "other@example.com")
                                   (Some "secret") (Some "Frank Other"))
                  db_users eq_refl (or_introl eq_refl))).
Defined.

(** X17: [init_db] seeds the users once.  On an empty users table it creates
    the five sample users, with keys 1 to 5, and leaves the other tables as
    they are; on any other database it changes nothing; so running it again
    never adds a user. *)
Theorem init_db_seeds_once (d : DB) :
  match users d with
  | [] => init_db d = set_users [alice; bob; charlie; diana; emma] d
  | _ :: _ => init_db d = d
  end
  /\ init_db (init_db d) = init_db d.
Proof.
  destruct d as [us ps ss acs ass ns]. destruct us as [|u us]; split; reflexivity.
Qed.

(** ** File upload *)

Section ToDictFacts.
Variable json_loads : string -> option Json.

Lemma asset_to_dict_None (a : ProjectAsset.t) :
  asset_to_dict json_loads a = None <-> unreadable_asset json_loads a.
Proof.
  unfold asset_to_dict, unreadable_asset, unreadable.
  destruct (ProjectAsset.metadata_assets a) as [text|].
  - destruct (String.eqb_spec text "") as [->|Hne].
    + split; [discriminate|]. intros (t & [= <-] & Hne & _). now contradiction Hne.
    + destruct (json_loads text) as [v|] eqn:Hv.
      * split; [discriminate|]. intros (t & [= <-] & _ & H). congruence.
      * split; [|reflexivity]. intros _. exists text. auto.
  - split; [discriminate|]. intros (t & H & _). discriminate.
Qed.

Lemma assets_to_dict_fst (l : list ProjectAsset.t)
      (dicts : list (ProjectAsset.t * option Json)) :
  assets_to_dict json_loads l = Some dicts -> map fst dicts = l.
Proof.
  revert dicts. induction l as [|a l IH]; intros dicts; cbn [assets_to_dict].
  - now intros [= <-].
  - destruct (asset_to_dict json_loads a) as [x|] eqn:Ha; [|discriminate].
    destruct (assets_to_dict json_loads l) as [xs|]; [|discriminate].
    intros [= <-]. cbn [map]. rewrite (IH xs eq_refl). f_equal.
    unfold asset_to_dict in Ha.
    destruct (ProjectAsset.metadata_assets a) as [text|]; [|now injection Ha as <-].
    destruct (text =? "")%string; [now injection Ha as <-|].
    destruct (json_loads text); [now injection Ha as <- | discriminate].
Qed.

Lemma assets_to_dict_unreadable (l : list ProjectAsset.t) :
  Exists (unreadable_asset json_loads) l -> assets_to_dict json_loads l = None.
Proof.
  induction 1 as [a l Ha | a l _ IH]; cbn [assets_to_dict].
  - apply asset_to_dict_None in Ha. now rewrite Ha.
  - rewrite IH. now destruct (asset_to_dict json_loads a).
Qed.

Lemma assets_to_dict_readable (l : list ProjectAsset.t) :
  Forall (fun a => ~ unreadable_asset json_loads a) l ->
  exists dicts, assets_to_dict json_loads l = Some dicts.
Proof.
  induction 1 as [|a l Ha _ (dicts & IH)]; cbn [assets_to_dict]; [now exists []|].
  destruct (asset_to_dict json_loads a) as [x|] eqn:Hx.
  - rewrite IH. now eexists.
  - apply asset_to_dict_None in Hx. contradiction.
Qed.
End ToDictFacts.

Section UploadFacts.
Variables (secure_filename : string -> string) (strftime : Z -> string).
Variable clock : nat -> Z.

Lemma upload_loop_names (project_id : Z) (files : list string) (tick : nat) :
  map fst (upload_loop secure_filename strftime clock project_id files tick)
  = map secure_filename (named files).
Proof.
  revert tick. induction files as [|file rest IH]; intros tick; [reflexivity|].
  cbn [upload_loop]. unfold named. cbn [filter].
  destruct (file =? "")%string; cbn [negb]; [apply IH|].
  cbn [map fst]. f_equal. apply IH.
Qed.

Lemma upload_loop_paths (project_id : Z) (files : list string) (tick : nat) :
  map snd (upload_loop secure_filename strftime clock project_id files tick)
  = map (fun kn => stored_path strftime clock project_id (fst kn) (snd kn))
        (combine (seq tick (List.length (named files)))
                 (map secure_filename (named files))).
Proof.
  revert tick. induction files as [|file rest IH]; intros tick; [reflexivity|].
  cbn [upload_loop]. unfold named. cbn [filter].
  destruct (file =? "")%string; cbn [negb]; [apply IH|].
  cbn [map snd List.length seq combine fst]. f_equal. apply IH.
Qed.

Lemma upload_loop_length (project_id : Z) (files : list string) (tick : nat) :
  List.length (upload_loop secure_filename strftime clock project_id files tick)
  = List.length (named files).
Proof.
  rewrite <- (length_map fst), upload_loop_names. apply length_map.
Qed.

Lemma insert_assets_spec (current_user : User.t) (project_id : Z)
      (asset_type metadata_assets : string) (added : list (string * string))
      (tick : nat) (d : DB) :
  exists new,
    insert_assets clock project_id (User.id current_user) asset_type metadata_assets
                  added tick d
    = (set_assets (assets d ++ new) d, new)
    /\ map ProjectAsset.filename new = map fst added
    /\ map ProjectAsset.file_path new = map snd added
    /\ map ProjectAsset.uploaded_at new = map clock (seq tick (List.length added))
    /\ Forall (stored_asset current_user project_id asset_type metadata_assets) new
    /\ (unique_asset_ids d -> NoDup (map ProjectAsset.id (assets d ++ new))).
Proof.
  revert tick d. induction added as [|[filename unique_filename] rest IH]; intros tick d.
  - exists []. cbn [insert_assets]. rewrite app_nil_r.
    split; [now destruct d|]. repeat (split; [reflexivity|]).
    split; [constructor | auto].
  - cbn [insert_assets].
    match goal with
    | |- context [insert_assets _ _ _ _ _ rest (S tick) ?d1] =>
        destruct (IH (S tick) d1) as (new & -> & Hn & Hp & Hu & Hs & Hnd)
    end.
    eexists (_ :: new). cbn [assets set_assets] in *.
    split; [|split; [|split; [|split; [|split]]]].
    + rewrite <- app_assoc. reflexivity.
    + cbn [map ProjectAsset.filename fst]. now rewrite Hn.
    + cbn [map ProjectAsset.file_path snd]. now rewrite Hp.
    + cbn [map ProjectAsset.uploaded_at List.length seq]. now rewrite Hu.
    + constructor; [repeat split | exact Hs].
    + intros Hd. rewrite <- app_assoc in Hnd. apply Hnd.
      unfold unique_asset_ids. cbn [assets].
      apply NoDup_map_snoc; [exact Hd|]. intros y Hy. cbn [ProjectAsset.id].
      pose proof (next_id_above (map ProjectAsset.id (assets d))
                    (ProjectAsset.id y) (in_map _ _ _ Hy)). lia.
Qed.
End UploadFacts.

(** X18: [upload_files] lets in whom [get_project] lets in, and what it
    lets in it stores.  For every user, project and request: when
    [get_project] would answer 404 or 403 the upload answers the same and
    commits nothing; when it would answer 200, an upload without a [files[]]
    part answers 400 and commits nothing, and one with such a part commits
    twice, the assets and then the audit row, and answers 200, or 500 when
    the answer cannot be built. *)
Theorem upload_files_access
    (secure_filename : string -> string) (strftime : Z -> string)
    (json_loads : string -> option Json) (clock : nat -> Z)
    (current_user : User.t) (project_id : Z)
    (files : option (list string)) (asset_type metadata_assets : option string)
    (d : DB) :
  let r := upload_files secure_filename strftime json_loads clock current_user
                        project_id files asset_type metadata_assets
                        (mkSession d []) in
  let seen := status_code (fst (request (get_project current_user project_id) d)) in
  if seen =? 200
  then match files with
       | None => snd (fst r) = 400 /\ commits (snd r) = []
       | Some _ =>
           (snd (fst r) = 200 \/ snd (fst r) = 500)
           /\ List.length (commits (snd r)) = 2%nat
       end
  else snd (fst r) = seen /\ (seen = 404 \/ seen = 403) /\ commits (snd r) = [].
Proof.
  unfold upload_files, request, get_project. cbn [db].
  destruct (Project_get d project_id) as [project|];
    [|cbn; split; [reflexivity | split; [now left | reflexivity]]].
  destruct (negb _); [cbn; split; [reflexivity | split; [now right | reflexivity]]|].
  cbn [fst snd status_code Z.eqb Pos.eqb].
  destruct files as [files|]; [|split; reflexivity].
  match goal with
  | |- context [insert_assets ?c ?p ?u ?a ?m ?l ?t ?x] =>
      destruct (insert_assets c p u a m l t x) as [d1 uploaded_assets]
  end.
  destruct (assets_to_dict json_loads uploaded_assets);
    (split; [auto | reflexivity]).
Qed.

(** X19: what an upload stores.  For a user with access and a request with
    a [files[]] part, the assets table grows by one row per file that has a
    name, in the order of the request, committed together; the rows carry
    the secured file names, the project, the uploader, the asset type and
    metadata of the request (or their defaults) and version 1; the stored
    path of a file is made of the project's key, the clock as the loop reads
    it for this file and the secured name, and [uploaded_at] is read from the
    clock again when the rows are inserted; distinct asset keys stay
    distinct; one [upload] audit row with the number of files follows in a
    second commit.  The answer lists the new rows, unless there is a row and
    the metadata is a text that does not parse: then the answer is 500, with
    the rows and the audit row stored all the same. *)
Theorem upload_files_stores_each_file
    (secure_filename : string -> string) (strftime : Z -> string)
    (json_loads : string -> option Json) (clock : nat -> Z)
    (current_user : User.t) (project_id : Z)
    (files : list string) (asset_type metadata_assets : option string)
    (d : DB) :
  status_code (fst (request (get_project current_user project_id) d)) = 200 ->
  let r := upload_files secure_filename strftime json_loads clock current_user
                        project_id (Some files) asset_type metadata_assets
                        (mkSession d []) in
  let names := map secure_filename (named files) in
  let n := List.length names in
  let count := str (Z.of_nat n) in
  let type := match asset_type with Some v => v | None => "general" end in
  let metadata := match metadata_assets with Some v => v | None => "{}" end in
  exists new,
    let d1 := set_assets (assets d ++ new) d in
    commits (snd r)
    = [d1; logged (clock (n + n)%nat) project_id (User.id current_user) "upload"
                  None None (Some ("Uploaded " ++ count ++ " file(s)")%string) d1]
    /\ map ProjectAsset.filename new = names
    /\ map ProjectAsset.file_path new
       = map (fun kn => stored_path strftime clock project_id (fst kn) (snd kn))
             (combine (seq 0 n) names)
    /\ map ProjectAsset.uploaded_at new = map clock (seq n n)
    /\ Forall (stored_asset current_user project_id type metadata) new
    /\ (unique_asset_ids d -> unique_asset_ids d1)
    /\ (n = 0%nat \/ ~ unreadable json_loads metadata ->
        exists dicts,
          fst r = (Uploaded (count ++ " file(s) uploaded successfully")%string dicts,
                   200)
          /\ map fst dicts = new)
    /\ (n <> 0%nat -> unreadable json_loads metadata ->
        fst r = (UploadError "Internal Server Error", 500)).
Proof.
  unfold upload_files, request, get_project. cbn [db].
  destruct (Project_get d project_id) as [project|] eqn:Hp; [|discriminate].
  destruct (negb _); [discriminate|]. intros _.
  rewrite (Project_get_id _ _ _ Hp).
  set (type := match asset_type with Some v => v | None => "general" end).
  set (metadata := match metadata_assets with Some v => v | None => "{}" end).
  set (added := upload_loop secure_filename strftime clock project_id files 0).
  assert (List.length added = List.length (map secure_filename (named files))) as Hlen.
  { unfold added. now rewrite upload_loop_length, length_map. }
  destruct (insert_assets_spec clock current_user project_id type metadata added
              (List.length added) d) as (new & -> & Hn & Hpath & Hu & Hs & Hnd).
  assert (List.length new = List.length added) as Hnew.
  { now rewrite <- (length_map ProjectAsset.filename), Hn, length_map. }
  exists new. cbv zeta. rewrite Hnew, !Hlen.
  unfold log_action, commit. cbn [db with_db commits fst snd app].
  split; [destruct (assets_to_dict json_loads new); reflexivity|].
  split; [rewrite Hn; apply upload_loop_names|].
  split; [rewrite Hpath; unfold added; rewrite upload_loop_paths;
          now rewrite length_map|].
  split; [now rewrite Hu, Hlen|]. split; [exact Hs|]. split; [exact Hnd|].
  split.
  - intros Hok.
    assert (Forall (fun a => ~ unreadable_asset json_loads a) new) as Hread.
    { destruct Hok as [H0 | Hok].
      - rewrite <- Hlen, <- Hnew in H0. destruct new; [constructor | discriminate].
      - eapply Forall_impl; [|exact Hs].
        intros a (_ & _ & _ & Hm & _) (text & Ht & Hbad).
        apply Hok. congruence. }
    destruct (assets_to_dict_readable json_loads new Hread) as (dicts & Hd).
    rewrite Hd. exists dicts. split; [reflexivity|].
    exact (assets_to_dict_fst json_loads new dicts Hd).
  - intros Hn0 Hbad.
    rewrite assets_to_dict_unreadable; [reflexivity|].
    destruct new as [|a new]; [rewrite <- Hlen, <- Hnew in Hn0; now contradiction Hn0|].
    left. inversion Hs as [|? ? (_ & _ & _ & Hm & _) _]; subst.
    exists metadata. auto.
Qed.

Lemma upload_files_stores_each_file_witness :
  exists new,
    map ProjectAsset.file_path new = ["1_105_a.txt"; "1_106_b.txt"]
    /\ map ProjectAsset.uploaded_at new = [107; 108]
    /\ assets (persisted db_created
                 (commits (snd (upload_files (fun name => name) str json_sample
                                             clock_sample bob 1
                                             (Some ["a.txt"; ""; "b.txt"]) None
                                             (Some "not json")
                                             (mkSession db_created [])))))
       = new
    /\ fst (upload_files (fun name => name) str json_sample clock_sample bob 1
                         (Some ["a.txt"; ""; "b.txt"]) None (Some "not json")
                         (mkSession db_created []))
       = (UploadError "Internal Server Error", 500).
Proof.
  destruct (upload_files_stores_each_file (fun name => name) str json_sample
              clock_sample bob 1 ["a.txt"; ""; "b.txt"] None (Some "not json")
              db_created eq_refl)
    as (new & Hc & _ & Hpath & Hat & _ & _ & _ & Hbad).
  exists new. split; [exact Hpath|]. split; [exact Hat|].
  split; [now rewrite Hc|].
  apply Hbad; [discriminate|]. split; [discriminate | reflexivity].
Defined.

(** ** Audit trail and assets of a project *)

Lemma timestamp_desc_total (a b : WorkflowAction.t) :
  timestamp_desc a b = true \/ timestamp_desc b a = true.
Proof. unfold timestamp_desc. rewrite !Z.leb_le. lia. Qed.

Lemma timestamp_desc_trans (a b c : WorkflowAction.t) :
  timestamp_desc a b = true -> timestamp_desc b c = true -> timestamp_desc a c = true.
Proof. unfold timestamp_desc. rewrite !Z.leb_le. lia. Qed.

Lemma uploaded_at_desc_total (a b : ProjectAsset.t) :
  uploaded_at_desc a b = true \/ uploaded_at_desc b a = true.
Proof. unfold uploaded_at_desc. rewrite !Z.leb_le. lia. Qed.

Lemma uploaded_at_desc_trans (a b c : ProjectAsset.t) :
  uploaded_at_desc a b = true -> uploaded_at_desc b c = true ->
  uploaded_at_desc a c = true.
Proof. unfold uploaded_at_desc. rewrite !Z.leb_le. lia. Qed.

(** X20: for an existing project and any caller, [get_project_actions]
    sends all the audit rows of the project, each once, newest first.
    [get_project_assets] sends all its assets, each once, newest first, with
    their metadata parsed, if the metadata of each is NULL, empty or a text
    that parses; if one asset of the project has a metadata text that does
    not parse, the request answers 500.  Neither commits anything. *)
Theorem audit_trail_and_assets_newest_first
    (json_loads : string -> option Json)
    (d : DB) (current_user : User.t) (project_id : Z) (project : Project.t) :
  Project_get d project_id = Some project ->
  let own := filter (fun a => ProjectAsset.project_id a =? project_id) (assets d) in
  (exists l,
      request (get_project_actions current_user project_id) d
      = (mkResponse (ActionsJson l) 200, [])
      /\ Permutation l (actions_of d project_id)
      /\ StronglySorted
           (fun a b => WorkflowAction.timestamp b <= WorkflowAction.timestamp a) l)
  /\ (Exists (unreadable_asset json_loads) own ->
      request (get_project_assets json_loads current_user project_id) d
      = (internal_server_error, []))
  /\ (Forall (fun a => ~ unreadable_asset json_loads a) own ->
      exists dicts,
        request (get_project_assets json_loads current_user project_id) d
        = (mkResponse (AssetsJson dicts) 200, [])
        /\ Permutation (map fst dicts) own
        /\ StronglySorted
             (fun a b => ProjectAsset.uploaded_at b <= ProjectAsset.uploaded_at a)
             (map fst dicts)).
Proof.
  intros Hp own. unfold request, get_project_actions, get_project_assets. cbn [db].
  rewrite Hp. fold own.
  pose proof (order_by_perm uploaded_at_desc own) as Hperm.
  split; [|split].
  - eexists. split; [reflexivity|]. split; [apply order_by_perm|].
    eapply StronglySorted_weaken;
      [|apply (order_by_sorted timestamp_desc timestamp_desc_total
                 timestamp_desc_trans)].
    intros a b H. unfold timestamp_desc in H. now apply Z.leb_le.
  - intros Hbad. rewrite assets_to_dict_unreadable; [reflexivity|].
    apply Exists_exists in Hbad. destruct Hbad as (a & Hin & Ha).
    apply Exists_exists. exists a. split; [|exact Ha].
    apply (Permutation_in _ (Permutation_sym Hperm) Hin).
  - intros Hok.
    destruct (assets_to_dict_readable json_loads (order_by uploaded_at_desc own))
      as (dicts & Hd).
    { rewrite Forall_forall in *. intros a Ha. apply Hok.
      apply (Permutation_in _ Hperm Ha). }
    rewrite Hd. exists dicts. split; [reflexivity|].
    rewrite (assets_to_dict_fst json_loads _ _ Hd). split; [exact Hperm|].
    eapply StronglySorted_weaken;
      [|apply (order_by_sorted uploaded_at_desc uploaded_at_desc_total
                 uploaded_at_desc_trans)].
    intros a b H. unfold uploaded_at_desc in H. now apply Z.leb_le.
Qed.

Lemma audit_trail_and_assets_newest_first_witness :
  (exists l,
      request (get_project_actions emma 1) db_uploaded
      = (mkResponse (ActionsJson l) 200, [])
      /\ map WorkflowAction.action l = ["upload"; "create"])
  /\ map ProjectAsset.metadata_assets (assets db_uploaded) = [Some "not json"]
  /\ request (get_project_assets json_sample diana 1) db_uploaded
     = (internal_server_error, []).
Proof.
  destruct (audit_trail_and_assets_newest_first json_sample db_uploaded emma 1
              created_project eq_refl) as ((l & Hr & _) & _).
  destruct (audit_trail_and_assets_newest_first json_sample db_uploaded diana 1
              created_project eq_refl) as (_ & Hbad & _).
  split; [|split; [reflexivity|]].
  - exists l. split; [exact Hr|]. injection Hr as <-. reflexivity.
  - apply Hbad. left. exists "not json".
    split; [reflexivity|]. split; [discriminate | reflexivity].
Defined.
